(** * Tontine backend: membership authorisation and the cycle/payment lifecycle

    A shallow embedding of the Express/Prisma server of the repository (the
    active [index.ts], the second file of [src/unnamed/part_003]), of its
    [authMiddleware] and of the relational schema [schema.prisma], followed by
    the properties of the route handlers.

    - JavaScript values of a request body are [Json] values; an absent field is
      [None] ([undefined]).  Numbers are IEEE binary64 ([float]).
    - The store is a record of tables (lists of rows) and of the
      [autoincrement()] sequences.  The order of a list stands for the order
      in which the database returns the rows of a [findMany] with no
      [orderBy], which it does not promise; what is stated of a listing is
      stated of its rows, not of their order.
    - A Prisma call is a computation over the store that resolves or rejects;
      a handler is its [try { ... } catch { res.status(500) }] closure.  The
      handler whose order of writes is stated is written [await] by [await]
      ([Async]), which gives the stores its calls leave one after the other.
    - A number reaches Prisma as the client sends it, in JSON: [NaN] and the
      infinities as [null]; the fraction of a number for an [Int] column is
      dropped.
    - Library functions whose text is outside the repository ([parseInt],
      [parseFloat], [Number], [new Date], [toLowerCase], [jwt.verify]) are the
      fields of the class [JsRuntime]; every theorem holds for every runtime. *)

From Stdlib Require Import ZArith List String Ascii Bool Lia DecimalString Permutation.
From Stdlib Require Import Floats.PrimFloat Floats.FloatOps Floats.SpecFloat.
Import ListNotations.
Open Scope string_scope.
Open Scope Z_scope.

(* ================================================================= *)
(** ** JavaScript values *)

(** A value decoded by [express.json()]. *)
#[local] Unset Elimination Schemes.
Inductive Json : Type :=
| JNull
| JBool (b : bool)
| JNum (x : float)
| JStr (s : string)
| JArr (items : list Json)
| JObj (fields : list (string * Json)).
#[local] Set Elimination Schemes.

(** A JavaScript expression of type [any]: [None] is [undefined]. *)
Definition JsVal : Type := option Json.

(** [ToBoolean] on a number: [0], [-0] and [NaN] are falsy. *)
Definition truthyNum (x : float) : bool :=
  negb (PrimFloat.eqb x 0%float) && negb (is_nan x).

(** [ToBoolean]: what [v ? a : b], [v || d] and [if (v)] test. *)
Definition truthy (v : JsVal) : bool :=
  match v with
  | None => false
  | Some JNull => false
  | Some (JBool b) => b
  | Some (JNum x) => truthyNum x
  | Some (JStr s) => negb (String.eqb s "")
  | Some (JArr _) => true
  | Some (JObj _) => true
  end.

(** [v || d]. *)
Definition orElse (v : JsVal) (d : Json) : Json :=
  match v with
  | Some j => if truthy v then j else d
  | None => d
  end.

(** [const { k } = req.body]: the last binding of a repeated key wins, as in
    [JSON.parse]. *)
Fixpoint field (k : string) (obj : list (string * Json)) : JsVal :=
  match obj with
  | [] => None
  | (k', v) :: rest =>
      match field k rest with
      | Some w => Some w
      | None => if String.eqb k' k then Some v else None
      end
  end.

(** The payload signed by the login handler and decoded by [jwt.verify]. *)
Record JwtPayload : Type := mkJwtPayload {
  jwt_userId : Z;
  jwt_email : string
}.

(** The library functions the handlers call.  Numbers are returned as
    JavaScript returns them ([NaN] included); [newDate] returns the time value
    in milliseconds, [None] for an Invalid Date; [toStringOf] is the method
    call [v.toString()], [None] when it throws; [jwtVerify] is
    [jwt.verify(token, process.env.JWT_SECRET)], [None] when it throws. *)
Class JsRuntime : Type := mkJsRuntime {
  parseInt : JsVal -> float;
  parseFloat : JsVal -> float;
  Number : JsVal -> float;
  newDate : JsVal -> option Z;
  toStringOf : Json -> option string;
  toLowerCase : string -> string;
  jwtVerify : string -> option JwtPayload
}.

(* ================================================================= *)
(** ** The schema ([schema.prisma]) *)

(** [DateTime] values are milliseconds since the epoch. *)
Definition DateTime : Type := Z.

Module User.
Record t : Type := mk {
  id : Z;
  email : string;
  password : string;
  name : option string;
  phone : option string;
  pushToken : option string;
  createdAt : DateTime;
  updatedAt : DateTime
}.
End User.

Module Group.
Record t : Type := mk {
  id : Z;
  name : string;
  description : option string;
  contribution : option float;
  frequency : option string;
  maxMembers : option Z;
  createdAt : DateTime;
  updatedAt : DateTime
}.
End Group.

Module Membership.
Record t : Type := mk {
  id : Z;
  userId : Z;
  groupId : Z;
  role : string;
  joinedAt : DateTime
}.
End Membership.

Module Cycle.
Record t : Type := mk {
  id : Z;
  groupId : Z;
  cycleIndex : Z;
  startDate : option DateTime;
  endDate : option DateTime;
  recipientUserId : option Z;
  status : string;
  createdAt : DateTime
}.
End Cycle.

Module Payment.
Record t : Type := mk {
  id : Z;
  cycleId : Z;
  userId : Z;
  amount : float;
  paid : bool;
  paidAt : option DateTime
}.
End Payment.

(** The store: the five tables and the next value of each [autoincrement()]
    sequence. *)
Record DB : Type := mkDB {
  users : list User.t;
  groups : list Group.t;
  memberships : list Membership.t;
  cycles : list Cycle.t;
  payments : list Payment.t;
  nextUserId : Z;
  nextGroupId : Z;
  nextMembershipId : Z;
  nextCycleId : Z;
  nextPaymentId : Z
}.

Definition set_users (db : DB) (l : list User.t) (n : Z) : DB :=
  mkDB l (groups db) (memberships db) (cycles db) (payments db)
       n (nextGroupId db) (nextMembershipId db) (nextCycleId db) (nextPaymentId db).

Definition set_groups (db : DB) (l : list Group.t) : DB :=
  mkDB (users db) l (memberships db) (cycles db) (payments db)
       (nextUserId db) (nextGroupId db) (nextMembershipId db) (nextCycleId db)
       (nextPaymentId db).

Definition set_memberships (db : DB) (l : list Membership.t) (n : Z) : DB :=
  mkDB (users db) (groups db) l (cycles db) (payments db)
       (nextUserId db) (nextGroupId db) n (nextCycleId db) (nextPaymentId db).

Definition set_cycles (db : DB) (l : list Cycle.t) (n : Z) : DB :=
  mkDB (users db) (groups db) (memberships db) l (payments db)
       (nextUserId db) (nextGroupId db) (nextMembershipId db) n (nextPaymentId db).

Definition set_payments (db : DB) (l : list Payment.t) (n : Z) : DB :=
  mkDB (users db) (groups db) (memberships db) (cycles db) l
       (nextUserId db) (nextGroupId db) (nextMembershipId db) (nextCycleId db) n.

(* ================================================================= *)
(** ** Prisma calls: promises over the store *)

Inductive Outcome (A : Type) : Type :=
| Resolved (a : A)
| Rejected.
Arguments Resolved {A} a.
Arguments Rejected {A}.

Definition Prisma (A : Type) : Type := DB -> Outcome A * DB.

Definition ret {A} (a : A) : Prisma A := fun db => (Resolved a, db).

Definition throw {A} : Prisma A := fun db => (Rejected, db).

Definition bind {A B} (m : Prisma A) (k : A -> Prisma B) : Prisma B :=
  fun db =>
    match m db with
    | (Resolved a, db') => k a db'
    | (Rejected, db') => (Rejected, db')
    end.

Notation "x <- m ;; k" := (bind m (fun x => k))
  (at level 61, m at next level, right associativity).
Notation "m ;;; k" := (bind m (fun _ => k))
  (at level 61, right associativity).

(** An [async] function up to its next [await]: it returns, or it awaits a
    Prisma call and goes on with what the call resolves to. *)
Inductive Async (A : Type) : Type :=
| Return (a : A)
| Await {B : Type} (call : Prisma B) (next : B -> Async A).
Arguments Return {A} a.
Arguments Await {A B} call next.

Notation "x <~ m ;; k" := (Await m (fun x => k))
  (at level 61, m at next level, right associativity).
Notation "m ~;; k" := (Await m (fun _ => k))
  (at level 61, right associativity).

(** The function run to its end; a call that rejects is thrown. *)
Fixpoint complete {A} (f : Async A) : Prisma A :=
  match f with
  | Return a => ret a
  | Await call next => x <- call ;; complete (next x)
  end.

(** The stores the awaited calls of the function leave, one after the other,
    up to its return or to the call that rejects. *)
Fixpoint storesOf {A} (f : Async A) (db : DB) : list DB :=
  match f with
  | Return _ => []
  | Await call next =>
      match call db with
      | (Resolved x, db') => db' :: storesOf (next x) db'
      | (Rejected, db') => [db']
      end
  end.

(** An argument of a Prisma call as the query engine reads it: [Undefined] is
    an omitted key, [Null] is [null], [Invalid] a value the call is refused
    for (of the wrong type for the column, or out of its range). *)
Inductive Arg (A : Type) : Type :=
| Undefined
| Null
| Value (a : A)
| Invalid.
Arguments Undefined {A}.
Arguments Null {A}.
Arguments Value {A} a.
Arguments Invalid {A}.

(** A JavaScript number that is an integer of the 32-bit [integer] type of
    the database. *)
Definition toInt32 (x : float) : option Z :=
  match Prim2SF x with
  | S754_zero _ => Some 0
  | S754_finite s m e =>
      let n := if 0 <=? e then Zpos m * 2 ^ e else Zpos m / 2 ^ (- e) in
      let exact := (0 <=? e) || (Zpos m mod 2 ^ (- e) =? 0) in
      let v := if s then - n else n in
      if exact && (- 2 ^ 31 <=? v) && (v <? 2 ^ 31) then Some v else None
  | _ => None
  end.

(** The integer part of a finite number (towards zero); [None] for [NaN] and
    the infinities. *)
Definition truncate (x : float) : option Z :=
  match Prim2SF x with
  | S754_zero _ => Some 0
  | S754_finite s m e =>
      let n := if 0 <=? e then Zpos m * 2 ^ e else Zpos m / 2 ^ (- e) in
      Some (if s then - n else n)
  | _ => None
  end.

(** A JavaScript number given for an [Int] column.  The client sends its
    arguments as JSON, in which [NaN] and the infinities are [null]; the
    query engine drops the fraction of a number, and the call is refused
    for an integer beyond the 32-bit [integer] type of the database. *)
Definition argInt (x : float) : Arg Z :=
  match truncate x with
  | Some v => if (- 2 ^ 31 <=? v) && (v <? 2 ^ 31) then Value v else Invalid
  | None => Null
  end.

(** A JavaScript number given for a [Float] column: [NaN] and the infinities
    are [null] in the JSON the client sends. *)
Definition argFloat (x : float) : Arg float :=
  if is_finite x then Value x else Null.

(** A JavaScript value given for a [String] column. *)
Definition argString (v : JsVal) : Arg string :=
  match v with
  | None => Undefined
  | Some JNull => Null
  | Some (JStr s) => Value s
  | Some _ => Invalid
  end.

(** A [Date] object given for a [DateTime] column. *)
Definition argDate (d : option Z) : Arg DateTime :=
  match d with
  | Some t => Value t
  | None => Invalid
  end.

(** A required argument ([where] keys, required columns on create). *)
Definition required {A} (a : Arg A) : Prisma A :=
  match a with
  | Value x => ret x
  | _ => throw
  end.

(** A required column with a [@default] on create. *)
Definition withDefault {A} (a : Arg A) (d : A) : Prisma A :=
  match a with
  | Undefined => ret d
  | Value x => ret x
  | Null | Invalid => throw
  end.

(** An optional column on create: omitted and [null] both store NULL. *)
Definition optional {A} (a : Arg A) : Prisma (option A) :=
  match a with
  | Undefined | Null => ret None
  | Value x => ret (Some x)
  | Invalid => throw
  end.

(** A required column on update: an omitted key keeps the stored value. *)
Definition updRequired {A} (a : Arg A) (old : A) : Prisma A :=
  match a with
  | Undefined => ret old
  | Value x => ret x
  | Null | Invalid => throw
  end.

(** A nullable column on update. *)
Definition updNullable {A} (a : Arg A) (old : option A) : Prisma (option A) :=
  match a with
  | Undefined => ret old
  | Null => ret None
  | Value x => ret (Some x)
  | Invalid => throw
  end.

(** A read of the store. *)
Definition query {A} (f : DB -> A) : Prisma A := fun db => (Resolved (f db), db).

(** *** Row predicates *)

Definition userExists (db : DB) (u : Z) : bool :=
  existsb (fun r => User.id r =? u) (users db).

Definition groupExists (db : DB) (g : Z) : bool :=
  existsb (fun r => Group.id r =? g) (groups db).

Definition cycleExists (db : DB) (c : Z) : bool :=
  existsb (fun r => Cycle.id r =? c) (cycles db).

Definition isMembership (u g : Z) (m : Membership.t) : bool :=
  (Membership.userId m =? u) && (Membership.groupId m =? g).

Definition findCycle (db : DB) (c : Z) : option Cycle.t :=
  find (fun r => Cycle.id r =? c) (cycles db).

(** The relation filter [cycle: { groupId: g }] on a Payment. *)
Definition cycleInGroup (db : DB) (g : Z) (p : Payment.t) : bool :=
  match findCycle db (Payment.cycleId p) with
  | Some c => Cycle.groupId c =? g
  | None => false
  end.

(** *** [prisma.user] *)

(** [prisma.user.create({ data: { email, password, name, phone } })]. *)
Definition user_create (email password name phone : Arg string)
    (now : DateTime) : Prisma User.t :=
  e <- required email ;;
  pw <- required password ;;
  n <- optional name ;;
  ph <- optional phone ;;
  fun db =>
    let row := User.mk (nextUserId db) e pw n ph None now now in
    if existsb (fun r => String.eqb (User.email r) e) (users db)
    then (Rejected, set_users db (users db) (nextUserId db + 1))
    else (Resolved row, set_users db (users db ++ [row]) (nextUserId db + 1)).

(** *** [prisma.group] *)

(** [prisma.group.findUnique({ where: { id } })]. *)
Definition group_findUnique (id : Arg Z) : Prisma (option Group.t) :=
  i <- required id ;;
  query (fun db => find (fun r => Group.id r =? i) (groups db)).

(** [prisma.group.update({ where: { id }, data })]: [updatedAt] carries
    [@updatedAt]; the call rejects when no row has the id. *)
Definition group_update (id : Arg Z) (name description : Arg string)
    (contribution : Arg float) (frequency : Arg string) (maxMembers : Arg Z)
    (now : DateTime) : Prisma Group.t :=
  i <- required id ;;
  old <- query (fun db => find (fun r => Group.id r =? i) (groups db)) ;;
  match old with
  | None => throw
  | Some g =>
      n <- updRequired name (Group.name g) ;;
      d <- updNullable description (Group.description g) ;;
      c <- updNullable contribution (Group.contribution g) ;;
      f <- updNullable frequency (Group.frequency g) ;;
      mm <- updNullable maxMembers (Group.maxMembers g) ;;
      let g' := Group.mk i n d c f mm (Group.createdAt g) now in
      fun db =>
        (Resolved g',
         set_groups db (map (fun r => if Group.id r =? i then g' else r) (groups db)))
  end.

(** *** [prisma.membership] *)

(** [prisma.membership.findUnique({ where: { id } })]. *)
Definition membership_findUnique (id : Arg Z) : Prisma (option Membership.t) :=
  i <- required id ;;
  query (fun db => find (fun m => Membership.id m =? i) (memberships db)).

(** [prisma.membership.findUnique({ where: { userId_groupId: { userId, groupId } } })]. *)
Definition membership_findUnique_userId_groupId (userId groupId : Arg Z)
    : Prisma (option Membership.t) :=
  u <- required userId ;;
  g <- required groupId ;;
  query (fun db => find (isMembership u g) (memberships db)).

(** [prisma.membership.findMany({ where: { groupId } })]: the rows, in the
    order of the table (no [orderBy]). *)
Definition membership_findMany_groupId (groupId : Arg Z)
    : Prisma (list Membership.t) :=
  g <- required groupId ;;
  query (fun db => filter (fun m => Membership.groupId m =? g) (memberships db)).

(** [prisma.membership.create({ data: { userId, groupId, role } })]: the
    insert takes the next id, then fails on a missing User or Group (foreign
    keys) and on a second Membership of the pair ([@@unique]); the sequence
    keeps its advance when the insert fails. *)
Definition membership_create (userId groupId : Arg Z) (role : Arg string)
    (now : DateTime) : Prisma Membership.t :=
  u <- required userId ;;
  g <- required groupId ;;
  r <- withDefault role "member" ;;
  fun db =>
    let row := Membership.mk (nextMembershipId db) u g r now in
    if userExists db u && groupExists db g
       && negb (existsb (isMembership u g) (memberships db))
    then (Resolved row,
          set_memberships db (memberships db ++ [row]) (nextMembershipId db + 1))
    else (Rejected, set_memberships db (memberships db) (nextMembershipId db + 1)).

(** [prisma.membership.delete({ where: { id } })]: rejects when no row has
    the id. *)
Definition membership_delete (id : Arg Z) : Prisma Membership.t :=
  i <- required id ;;
  fun db =>
    match find (fun m => Membership.id m =? i) (memberships db) with
    | Some m =>
        (Resolved m,
         set_memberships db
           (filter (fun r => negb (Membership.id r =? i)) (memberships db))
           (nextMembershipId db))
    | None => (Rejected, db)
    end.

(** *** [prisma.cycle] *)

(** [prisma.cycle.findUnique({ where: { id } })]. *)
Definition cycle_findUnique (id : Arg Z) : Prisma (option Cycle.t) :=
  i <- required id ;;
  query (fun db => findCycle db i).

(** [prisma.cycle.create({ data })]: [status] defaults to ["active"]; the
    Group and, when given, the recipient User must exist (foreign keys). *)
Definition cycle_create (groupId cycleIndex : Arg Z)
    (startDate endDate : Arg DateTime) (recipientUserId : Arg Z)
    (status : Arg string) (now : DateTime) : Prisma Cycle.t :=
  g <- required groupId ;;
  ci <- required cycleIndex ;;
  sd <- optional startDate ;;
  ed <- optional endDate ;;
  rc <- optional recipientUserId ;;
  st <- withDefault status "active" ;;
  fun db =>
    let row := Cycle.mk (nextCycleId db) g ci sd ed rc st now in
    if groupExists db g
       && match rc with Some u => userExists db u | None => true end
    then (Resolved row, set_cycles db (cycles db ++ [row]) (nextCycleId db + 1))
    else (Rejected, set_cycles db (cycles db) (nextCycleId db + 1)).

(** [prisma.cycle.update({ where: { id }, data: { recipientUserId, status } })]. *)
Definition cycle_update (id : Arg Z) (recipientUserId : Arg Z)
    (status : Arg string) : Prisma Cycle.t :=
  i <- required id ;;
  old <- query (fun db => findCycle db i) ;;
  match old with
  | None => throw
  | Some c =>
      rc <- updNullable recipientUserId (Cycle.recipientUserId c) ;;
      st <- updRequired status (Cycle.status c) ;;
      let c' := Cycle.mk i (Cycle.groupId c) (Cycle.cycleIndex c)
                  (Cycle.startDate c) (Cycle.endDate c) rc st (Cycle.createdAt c) in
      fun db =>
        if match rc with Some u => userExists db u | None => true end
        then (Resolved c',
              set_cycles db (map (fun r => if Cycle.id r =? i then c' else r) (cycles db))
                (nextCycleId db))
        else (Rejected, db)
  end.

(** *** [prisma.payment] *)

Module PaymentCreateManyInput.
(** An element of [data] in [prisma.payment.createMany]. *)
Record t : Type := mk {
  cycleId : Arg Z;
  userId : Arg Z;
  amount : Arg float
}.
End PaymentCreateManyInput.

Definition argValue {A} (a : Arg A) : option A :=
  match a with
  | Value x => Some x
  | _ => None
  end.

(** The rows of a [createMany]: ids in sequence, [paid] at its default
    [false], [paidAt] NULL; [None] when an argument is not valid. *)
Fixpoint paymentRows (id : Z) (data : list PaymentCreateManyInput.t)
    : option (list Payment.t) :=
  match data with
  | [] => Some []
  | d :: rest =>
      match argValue (PaymentCreateManyInput.cycleId d),
            argValue (PaymentCreateManyInput.userId d),
            argValue (PaymentCreateManyInput.amount d),
            paymentRows (id + 1) rest with
      | Some c, Some u, Some a, Some rows =>
          Some (Payment.mk id c u a false None :: rows)
      | _, _, _, _ => None
      end
  end.

(** [prisma.payment.createMany({ data })]: one INSERT of all the rows, which
    fails as a whole on a missing Cycle or User; resolves to the count. *)
Definition payment_createMany (data : list PaymentCreateManyInput.t) : Prisma Z :=
  fun db =>
    match paymentRows (nextPaymentId db) data with
    | None => (Rejected, db)
    | Some rows =>
        let next := nextPaymentId db + Z.of_nat (List.length rows) in
        if forallb (fun p => cycleExists db (Payment.cycleId p)
                             && userExists db (Payment.userId p)) rows
        then (Resolved (Z.of_nat (List.length rows)),
              set_payments db (payments db ++ rows) next)
        else (Rejected, set_payments db (payments db) next)
    end.

(** [prisma.payment.update({ where: { id }, data: { paid, paidAt } })]. *)
Definition payment_update (id : Arg Z) (paid : Arg bool) (paidAt : Arg DateTime)
    : Prisma Payment.t :=
  i <- required id ;;
  old <- query (fun db => find (fun p => Payment.id p =? i) (payments db)) ;;
  match old with
  | None => throw
  | Some p =>
      pd <- updRequired paid (Payment.paid p) ;;
      pa <- updNullable paidAt (Payment.paidAt p) ;;
      let p' := Payment.mk i (Payment.cycleId p) (Payment.userId p)
                  (Payment.amount p) pd pa in
      fun db =>
        (Resolved p',
         set_payments db (map (fun r => if Payment.id r =? i then p' else r) (payments db))
           (nextPaymentId db))
  end.

(** [prisma.payment.deleteMany({ where: { userId, cycle: { groupId } } })]. *)
Definition payment_deleteMany_userId_cycleGroupId (userId groupId : Arg Z)
    : Prisma Z :=
  u <- required userId ;;
  g <- required groupId ;;
  fun db =>
    let hit p := (Payment.userId p =? u) && cycleInGroup db g p in
    (Resolved (Z.of_nat (List.length (filter hit (payments db)))),
     set_payments db (filter (fun p => negb (hit p)) (payments db)) (nextPaymentId db)).

Module PaymentWithUserCycle.
(** A Payment with [include: { user: true, cycle: true }]. *)
Record t : Type := mk {
  payment : Payment.t;
  user : option User.t;
  cycle : option Cycle.t
}.
End PaymentWithUserCycle.

(** [prisma.payment.findMany({ where: { cycleId }, include: { user, cycle } })]:
    the rows, in the order of the table (no [orderBy]). *)
Definition payment_findMany_cycleId (cycleId : Arg Z)
    : Prisma (list PaymentWithUserCycle.t) :=
  c <- required cycleId ;;
  query (fun db =>
    map (fun p =>
           PaymentWithUserCycle.mk p
             (find (fun u => User.id u =? Payment.userId p) (users db))
             (findCycle db (Payment.cycleId p)))
        (filter (fun p => Payment.cycleId p =? c) (payments db))).

(* ================================================================= *)
(** ** Requests and responses *)

Record Request : Type := mkRequest {
  authorization : option string;     (* req.headers.authorization *)
  param : string;                    (* the route parameter of req.params *)
  body : list (string * Json)        (* req.body *)
}.

(** A column value in a JSON response. *)
Inductive Scalar : Type :=
| SNull
| SInt (z : Z)
| SFloat (x : float)
| SStr (s : string)
| SBool (b : bool)
| SDate (t : DateTime).

Definition optScalar {A} (f : A -> Scalar) (o : option A) : Scalar :=
  match o with
  | Some a => f a
  | None => SNull
  end.

(** The object Prisma resolves a User to: one key per column. *)
Definition userObject (u : User.t) : list (string * Scalar) :=
  [ ("id", SInt (User.id u));
    ("email", SStr (User.email u));
    ("password", SStr (User.password u));
    ("name", optScalar SStr (User.name u));
    ("phone", optScalar SStr (User.phone u));
    ("pushToken", optScalar SStr (User.pushToken u));
    ("createdAt", SDate (User.createdAt u));
    ("updatedAt", SDate (User.updatedAt u)) ].

(** [const { k: _, ...rest } = obj]: the object without the key. *)
Definition omitKey {A} (k : string) (obj : list (string * A)) : list (string * A) :=
  filter (fun kv => negb (String.eqb (fst kv) k)) obj.

(** The [select: { id, name, email }] projection of a User. *)
Record UserSummary : Type := mkUserSummary {
  summary_id : Z;
  summary_name : option string;
  summary_email : string
}.

Inductive Body : Type :=
| BError (error : string)
| BMessage (message : string)
| BObject (fields : list (string * Scalar))
| BGroup (g : Group.t)
| BMembership (m : Membership.t)
| BCycleCreated (cycle : Cycle.t) (message : string)
| BCycle (c : Cycle.t) (group : option Group.t) (recipient : option UserSummary)
| BPayment (p : Payment.t)
| BPayments (ps : list PaymentWithUserCycle.t).

Record Response : Type := mkResponse {
  status : Z;
  json : Body
}.

(** A route handler: the request, the clock, the store before; the response
    and the store after. *)
Definition Handler : Type := Request -> DateTime -> DB -> Response * DB.

(** [try { ... } catch (error) { res.status(500).json({ error }) }]: what the
    body wrote before it threw stays written. *)
Definition tryCatch (body : Prisma Response) (error : string)
    : DB -> Response * DB :=
  fun db =>
    match body db with
    | (Resolved r, db') => (r, db')
    | (Rejected, db') => (mkResponse 500 (BError error), db')
    end.

(** [s.split(c)] for a one-character separator. *)
Fixpoint split (sep : ascii) (s : string) : list string :=
  match s with
  | EmptyString => [""]
  | String c rest =>
      if Ascii.eqb c sep then "" :: split sep rest
      else match split sep rest with
           | w :: ws => String c w :: ws
           | [] => [String c ""]
           end
  end.

Section Server.
Context {rt : JsRuntime}.

(** *** [middleware/authMiddleware.ts] *)

(** The middleware either answers 401 itself or attaches the decoded
    [{ userId, email }] to the request and calls [next()]. *)
Definition authMiddleware (req : Request) : Response + JwtPayload :=
  match authorization req with
  | None => inl (mkResponse 401 (BError "No token provided"))
  | Some authHeader =>
      if String.eqb authHeader ""
      then inl (mkResponse 401 (BError "No token provided"))
      else
        match nth_error (split " "%char authHeader) 1 with
        | None => inl (mkResponse 401 (BError "Malformed token"))
        | Some token =>
            if String.eqb token ""
            then inl (mkResponse 401 (BError "Malformed token"))
            else
              match jwtVerify token with
              | Some decoded => inr decoded
              | None => inl (mkResponse 401 (BError "Invalid token"))
              end
        end
  end.

(** [app.METHOD(path, authMiddleware, handler)]. *)
Definition authenticated (req : Request)
    (next : JwtPayload -> DB -> Response * DB) : DB -> Response * DB :=
  match authMiddleware req with
  | inl r => fun db => (r, db)
  | inr user => next user
  end.

(** [v ? f(v) : null] for an argument of Prisma. *)
Definition ifTruthy {A} (v : JsVal) (a : Arg A) : Arg A :=
  if truthy v then a else Null.

(** *** [POST /users] *)

Definition createUser : Handler := fun req now =>
  tryCatch (
    let email := field "email" (body req) in
    let password := field "password" (body req) in
    let name := field "name" (body req) in
    let phone := field "phone" (body req) in
    (* email.toLowerCase() throws on anything but a string *)
    normalizedEmail <-
      match email with
      | Some (JStr e) => ret (toLowerCase e)
      | _ => throw
      end ;;
    user <- user_create (Value normalizedEmail) (argString password)
              (argString name) (argString phone) now ;;
    (* const { password: _, ...userWithoutPassword } = user *)
    let userWithoutPassword := omitKey "password" (userObject user) in
    ret (mkResponse 201 (BObject userWithoutPassword))
  ) "Failed to create user".

(** *** [PUT /groups/:groupId] *)

Definition updateGroup : Handler := fun req now =>
  authenticated req (fun user =>
  tryCatch (
    let groupId := parseInt (Some (JStr (param req))) in
    let name := field "name" (body req) in
    let description := field "description" (body req) in
    let contribution := field "contribution" (body req) in
    let frequency := field "frequency" (body req) in
    let maxMembers := field "maxMembers" (body req) in
    let userId := jwt_userId user in
    membership <- membership_findUnique_userId_groupId
                    (Value userId) (argInt groupId) ;;
    match membership with
    | None =>
        ret (mkResponse 403 (BError "Only group admins can update the group"))
    | Some m =>
        if negb (String.eqb (Membership.role m) "admin")
        then ret (mkResponse 403 (BError "Only group admins can update the group"))
        else
          updatedGroup <-
            group_update (argInt groupId)
              (argString name)
              (argString description)
              (ifTruthy contribution (argFloat (parseFloat contribution)))
              (argString frequency)
              (ifTruthy maxMembers (argInt (parseInt maxMembers)))
              now ;;
          ret (mkResponse 200 (BGroup updatedGroup))
    end
  ) "Failed to update group").

(** *** [POST /memberships] *)

Definition createMembership : Handler := fun req now =>
  let userId := field "userId" (body req) in
  let groupId := field "groupId" (body req) in
  let role := field "role" (body req) in
  tryCatch (
    membership <-
      membership_create
        (argInt (parseInt userId))
        (argInt (parseInt groupId))
        (argString (Some (orElse role (JStr "member"))))
        now ;;
    ret (mkResponse 201 (BMembership membership))
  ) "Failed to create membership".

(** *** [DELETE /memberships/:membershipId] *)

(** The body of the handler, [await] by [await]. *)
Definition deleteMembershipAwaits (req : Request) (user : JwtPayload)
    : Async Response :=
  let membershipId := parseInt (Some (JStr (param req))) in
  (* get the membership *)
  membership <~ membership_findUnique (argInt membershipId) ;;
  match membership with
  | None => Return (mkResponse 404 (BError "Membership not found"))
  | Some m =>
      (* check if the user is an admin of this group or the member themselves *)
      let userId := jwt_userId user in
      let isOwnMembership := Membership.userId m =? userId in
      let forbidden :=
        mkResponse 403 (BError "Only group admins can remove other members") in
      let remove :=
        (* delete any payments associated with this member *)
        payment_deleteMany_userId_cycleGroupId
          (Value (Membership.userId m)) (Value (Membership.groupId m)) ~;;
        (* delete the membership *)
        membership_delete (argInt membershipId) ~;;
        Return (mkResponse 200 (BMessage "Member removed successfully")) in
      if negb isOwnMembership then
        userMembership <~ membership_findUnique_userId_groupId
                            (Value userId) (Value (Membership.groupId m)) ;;
        match userMembership with
        | None => Return forbidden
        | Some um =>
            if negb (String.eqb (Membership.role um) "admin")
            then Return forbidden
            else remove
        end
      else remove
  end.

Definition deleteMembership : Handler := fun req now =>
  authenticated req (fun user =>
  tryCatch (complete (deleteMembershipAwaits req user)) "Failed to remove member").

(** *** [POST /groups/:groupId/cycles] *)

(** [theGroup?.contribution || 100]. *)
Definition groupContributionOf (theGroup : option Group.t) : float :=
  match theGroup with
  | Some g =>
      match Group.contribution g with
      | Some c => if truthyNum c then c else 100%float
      | None => 100%float
      end
  | None => 100%float
  end.

Definition createCycle : Handler := fun req now =>
  authenticated req (fun user =>
  tryCatch (
    let groupId := param req in
    let cycleIndex := field "cycleIndex" (body req) in
    let startDate := field "startDate" (body req) in
    let endDate := field "endDate" (body req) in
    let recipientUserId := field "recipientUserId" (body req) in
    let status := field "status" (body req) in
    let groupIdNum := parseInt (Some (JStr groupId)) in
    (* 1) check if the logged-in user is an admin in this group *)
    let userId := jwt_userId user in
    membership <- membership_findUnique_userId_groupId
                    (Value userId) (argInt groupIdNum) ;;
    match membership with
    | None =>
        ret (mkResponse 403 (BError "You are not a member of this group."))
    | Some m =>
        if negb (String.eqb (Membership.role m) "admin")
        then ret (mkResponse 403 (BError "Only admins can create cycles."))
        else
          (* 2) create the cycle *)
          newCycle <-
            cycle_create (argInt groupIdNum)
              (argInt (Number cycleIndex))
              (ifTruthy startDate (argDate (newDate startDate)))
              (ifTruthy endDate (argDate (newDate endDate)))
              (ifTruthy recipientUserId (argInt (Number recipientUserId)))
              (argString (Some (orElse status (JStr "active"))))
              now ;;
          (* 3) retrieve all memberships for that group *)
          members <- membership_findMany_groupId (argInt groupIdNum) ;;
          (* 4) retrieve the group to check its default contribution *)
          theGroup <- group_findUnique (argInt groupIdNum) ;;
          let groupContribution := groupContributionOf theGroup in
          (* 5) create Payment records for each membership in that group *)
          let paymentsData :=
            map (fun member =>
                   PaymentCreateManyInput.mk
                     (Value (Cycle.id newCycle))
                     (Value (Membership.userId member))
                     (argFloat groupContribution))
                members in
          payment_createMany paymentsData ;;;
          (* 6) return success *)
          ret (mkResponse 201
                 (BCycleCreated newCycle
                    "Cycle and payment records created successfully."))
    end
  ) "Failed to create cycle").

(** *** [PUT /cycles/:cycleId] *)

(** [parseInt(recipientUserId.toString(), 10)]. *)
Definition recipientIdOf (recipientUserId : JsVal) : Prisma float :=
  match recipientUserId with
  | Some j =>
      match toStringOf j with
      | Some s => ret (parseInt (Some (JStr s)))
      | None => throw
      end
  | None => throw
  end.

Definition summaryOf (db : DB) (u : option Z) : option UserSummary :=
  match u with
  | Some i =>
      match find (fun r => User.id r =? i) (users db) with
      | Some r => Some (mkUserSummary (User.id r) (User.name r) (User.email r))
      | None => None
      end
  | None => None
  end.

Definition updateCycle : Handler := fun req now =>
  authenticated req (fun user =>
  tryCatch (
    let cycleId := parseInt (Some (JStr (param req))) in
    let recipientUserId := field "recipientUserId" (body req) in
    let status := field "status" (body req) in
    cycle <- cycle_findUnique (argInt cycleId) ;;
    match cycle with
    | None => ret (mkResponse 404 (BError "Cycle not found"))
    | Some c =>
        (* check if the user is an admin of this group *)
        let userId := jwt_userId user in
        membership <- membership_findUnique_userId_groupId
                        (Value userId) (Value (Cycle.groupId c)) ;;
        let forbidden :=
          mkResponse 403 (BError "Only group admins can update cycles") in
        (* update the cycle *)
        let update :=
          recipient <-
            (if truthy recipientUserId
             then r <- recipientIdOf recipientUserId ;; ret (argInt r)
             else ret Null) ;;
          updatedCycle <-
            cycle_update (argInt cycleId) recipient
              (argString (if truthy status then status else None)) ;;
          group <- group_findUnique (Value (Cycle.groupId updatedCycle)) ;;
          who <- query (fun db => summaryOf db (Cycle.recipientUserId updatedCycle)) ;;
          ret (mkResponse 200 (BCycle updatedCycle group who)) in
        match membership with
        | None => ret forbidden
        | Some m =>
            if negb (String.eqb (Membership.role m) "admin")
            then ret forbidden
            else
              (* if assigning a recipient, check they are a member of the group *)
              if truthy recipientUserId then
                r <- recipientIdOf recipientUserId ;;
                recipientMembership <- membership_findUnique_userId_groupId
                                         (argInt r) (Value (Cycle.groupId c)) ;;
                match recipientMembership with
                | None =>
                    ret (mkResponse 400
                           (BError "Recipient must be a member of the group"))
                | Some _ => update
                end
              else update
        end
    end
  ) "Failed to update cycle").

(** *** [PUT /payments/:paymentId/pay] *)

Definition markPaid : Handler := fun req now =>
  authenticated req (fun _ =>
  tryCatch (
    let paymentIdNum := parseInt (Some (JStr (param req))) in
    updatedPayment <-
      payment_update (argInt paymentIdNum) (Value true) (Value now) ;;
    ret (mkResponse 200 (BPayment updatedPayment))
  ) "Failed to mark payment as paid").

(** *** [GET /cycles/:cycleId/payments] *)

Definition listPayments : Handler := fun req now =>
  authenticated req (fun user =>
  tryCatch (
    let cycleIdNum := parseInt (Some (JStr (param req))) in
    cycle <- cycle_findUnique (argInt cycleIdNum) ;;
    match cycle with
    | None => ret (mkResponse 404 (BError "Cycle not found"))
    | Some c =>
        let userId := jwt_userId user in
        membership <- membership_findUnique_userId_groupId
                        (Value userId) (Value (Cycle.groupId c)) ;;
        match membership with
        | None =>
            ret (mkResponse 403 (BError "You are not a member of this group"))
        | Some _ =>
            ps <- payment_findMany_cycleId (argInt cycleIdNum) ;;
            ret (mkResponse 200 (BPayments ps))
        end
    end
  ) "Failed to fetch payments").

End Server.

(* ================================================================= *)
(** ** The constraints of the schema *)

(** No value occurs twice. *)
Fixpoint distinct (l : list Z) : bool :=
  match l with
  | [] => true
  | x :: rest => negb (existsb (Z.eqb x) rest) && distinct rest
  end.

Fixpoint distinctStrings (l : list string) : bool :=
  match l with
  | [] => true
  | x :: rest => negb (existsb (String.eqb x) rest) && distinctStrings rest
  end.

(** [@@unique([userId, groupId])]. *)
Fixpoint uniquePairs (l : list Membership.t) : bool :=
  match l with
  | [] => true
  | m :: rest =>
      negb (existsb (isMembership (Membership.userId m) (Membership.groupId m)) rest)
      && uniquePairs rest
  end.

Definition below (n : Z) (ids : list Z) : bool := forallb (fun i => i <? n) ids.

Definition finiteOpt (o : option float) : bool :=
  match o with
  | Some x => is_finite x
  | None => true
  end.

Definition optUserExists (db : DB) (o : option Z) : bool :=
  match o with
  | Some u => userExists db u
  | None => true
  end.

(** [@id @default(autoincrement())]: ids are unique and behind the sequence. *)
Definition primaryKeys (db : DB) : bool :=
  distinct (map User.id (users db)) && below (nextUserId db) (map User.id (users db))
  && distinct (map Group.id (groups db))
  && below (nextGroupId db) (map Group.id (groups db))
  && distinct (map Membership.id (memberships db))
  && below (nextMembershipId db) (map Membership.id (memberships db))
  && distinct (map Cycle.id (cycles db))
  && below (nextCycleId db) (map Cycle.id (cycles db))
  && distinct (map Payment.id (payments db))
  && below (nextPaymentId db) (map Payment.id (payments db)).

(** [@unique] and [@@unique]. *)
Definition uniqueKeys (db : DB) : bool :=
  distinctStrings (map User.email (users db)) && uniquePairs (memberships db).

(** [@relation(fields: ..., references: [id])]. *)
Definition foreignKeys (db : DB) : bool :=
  forallb (fun m => userExists db (Membership.userId m)
                    && groupExists db (Membership.groupId m)) (memberships db)
  && forallb (fun c => groupExists db (Cycle.groupId c)
                       && optUserExists db (Cycle.recipientUserId c)) (cycles db)
  && forallb (fun p => cycleExists db (Payment.cycleId p)
                       && userExists db (Payment.userId p)) (payments db).

(** [Float] columns hold what the client accepts for them. *)
Definition floatColumns (db : DB) : bool :=
  forallb (fun g => finiteOpt (Group.contribution g)) (groups db)
  && forallb (fun p => is_finite (Payment.amount p)) (payments db).

(** A store that satisfies its schema. *)
Definition wf (db : DB) : bool :=
  primaryKeys db && uniqueKeys db && foreignKeys db && floatColumns db.

(** The caller's Membership in the Group and the role it carries. *)
Definition membershipOf (db : DB) (u g : Z) : option Membership.t :=
  find (isMembership u g) (memberships db).

Definition isAdmin (db : DB) (u g : Z) : bool :=
  match membershipOf db u g with
  | Some m => String.eqb (Membership.role m) "admin"
  | None => false
  end.

(** The user holds a Membership of the Group with the role. *)
Definition holdsRole (db : DB) (u g : Z) (r : string) : Prop :=
  exists m, In m (memberships db)
            /\ Membership.userId m = u
            /\ Membership.groupId m = g
            /\ Membership.role m = r.

(* ================================================================= *)
(** ** Vocabulary of the statements *)

(** The Payment once marked paid at time [now]. *)
Definition paidAt_now (p : Payment.t) (now : DateTime) : Payment.t :=
  Payment.mk (Payment.id p) (Payment.cycleId p) (Payment.userId p)
    (Payment.amount p) true (Some now).

(** The fan-out of a cycle: one unpaid Payment of [amount] per Membership,
    with ids taken in sequence from [id]. *)
Fixpoint fanOut (id cycleId : Z) (amount : float) (members : list Membership.t)
    : list Payment.t :=
  match members with
  | [] => []
  | m :: rest =>
      Payment.mk id cycleId (Membership.userId m) amount false None
      :: fanOut (id + 1) cycleId amount rest
  end.

(** The Memberships of a Group, as [findMany({ where: { groupId } })] lists
    them. *)
Definition membersOf (db : DB) (g : Z) : list Membership.t :=
  filter (fun m => Membership.groupId m =? g) (memberships db).

Definition findGroup (db : DB) (g : Z) : option Group.t :=
  find (fun r => Group.id r =? g) (groups db).

(** The amount as the specification words it: [group.contribution ?? 100]. *)
Definition nullishContribution (g : Group.t) : float :=
  match Group.contribution g with
  | Some c => c
  | None => 100%float
  end.

(** What an optional argument stores on create, [None] when it is not valid. *)
Definition optionalValue {A} (a : Arg A) : option (option A) :=
  match a with
  | Undefined | Null => Some None
  | Value x => Some (Some x)
  | Invalid => None
  end.

Definition defaultedValue {A} (a : Arg A) (d : A) : option A :=
  match a with
  | Undefined => Some d
  | Value x => Some x
  | Null | Invalid => None
  end.

(** The row [cycle_create] inserts under the id [id], [None] when an
    argument is not valid. *)
Definition cycleRowOf (groupId cycleIndex : Arg Z)
    (startDate endDate : Arg DateTime) (recipientUserId : Arg Z)
    (status : Arg string) (id : Z) (now : DateTime) : option Cycle.t :=
  match argValue groupId, argValue cycleIndex, optionalValue startDate,
        optionalValue endDate, optionalValue recipientUserId,
        defaultedValue status "active" with
  | Some g, Some ci, Some sd, Some ed, Some rc, Some st =>
      Some (Cycle.mk id g ci sd ed rc st now)
  | _, _, _, _, _, _ => None
  end.

(** The Payments [deleteMany({ where: { userId: u, cycle: { groupId: g } } })]
    selects: those of user [u] in the Cycles of Group [g]. *)
Definition paymentOf (u g : Z) (db : DB) (p : Payment.t) : bool :=
  (Payment.userId p =? u) && cycleInGroup db g p.

(** The store once these Payments are deleted. *)
Definition withoutPayments (u g : Z) (db : DB) : DB :=
  set_payments db (filter (fun p => negb (paymentOf u g db p)) (payments db))
    (nextPaymentId db).

(** The store once the Membership of id [i] is deleted. *)
Definition withoutMembership (i : Z) (db : DB) : DB :=
  set_memberships db (filter (fun r => negb (Membership.id r =? i)) (memberships db))
    (nextMembershipId db).



(** What an argument stores on update, [None] when it is not valid. *)
Definition updRequiredValue {A} (a : Arg A) (old : A) : option A :=
  match a with
  | Undefined => Some old
  | Value x => Some x
  | Null | Invalid => None
  end.

Definition updNullableValue {A} (a : Arg A) (old : option A) : option (option A) :=
  match a with
  | Undefined => Some old
  | Null => Some None
  | Value x => Some (Some x)
  | Invalid => None
  end.




(** The row [group_update] leaves in place of [g], [None] when an argument
    is not valid. *)
Definition groupRowOf (name description : Arg string) (contribution : Arg float)
    (frequency : Arg string) (maxMembers : Arg Z) (g : Group.t) (now : DateTime)
    : option Group.t :=
  match updRequiredValue name (Group.name g),
        updNullableValue description (Group.description g),
        updNullableValue contribution (Group.contribution g),
        updNullableValue frequency (Group.frequency g),
        updNullableValue maxMembers (Group.maxMembers g) with
  | Some n, Some d, Some c, Some f, Some mm =>
      Some (Group.mk (Group.id g) n d c f mm (Group.createdAt g) now)
  | _, _, _, _, _ => None
  end.

(** The row [cycle_update] leaves in place of [c]. *)
Definition cycleUpdateOf (recipientUserId : Arg Z) (status : Arg string)
    (c : Cycle.t) : option Cycle.t :=
  match updNullableValue recipientUserId (Cycle.recipientUserId c),
        updRequiredValue status (Cycle.status c) with
  | Some rc, Some st =>
      Some (Cycle.mk (Cycle.id c) (Cycle.groupId c) (Cycle.cycleIndex c)
              (Cycle.startDate c) (Cycle.endDate c) rc st (Cycle.createdAt c))
  | _, _ => None
  end.

(** The answer and the store of a Cycle update once the caller and the
    recipient have passed the checks: [cycle.update] with the arguments [a]
    and [st] on the Cycle [c]. *)
Definition updateResult (db : DB) (c : Cycle.t) (a : Arg Z) (st : Arg string)
    : Response * DB :=
  match cycleUpdateOf a st c with
  | None => (mkResponse 500 (BError "Failed to update cycle"), db)
  | Some c' =>
      if optUserExists db (Cycle.recipientUserId c')
      then (mkResponse 200
              (BCycle c' (findGroup db (Cycle.groupId c'))
                 (summaryOf db (Cycle.recipientUserId c'))),
            set_cycles db
              (map (fun r => if Cycle.id r =? Cycle.id c then c' else r) (cycles db))
              (nextCycleId db))
      else (mkResponse 500 (BError "Failed to update cycle"), db)
  end.

(** The Cycle [c] with another recipient and status. *)
Definition withRecipientStatus (c : Cycle.t) (recipient : option Z) (st : string)
    : Cycle.t :=
  Cycle.mk (Cycle.id c) (Cycle.groupId c) (Cycle.cycleIndex c) (Cycle.startDate c)
    (Cycle.endDate c) recipient st (Cycle.createdAt c).

Section Vocabulary.
Context {rt : JsRuntime}.

(** The Cycle row a [POST /groups/:groupId/cycles] request asks for. *)
Definition requestedCycle (req : Request) (id : Z) (now : DateTime)
    : option Cycle.t :=
  let cycleIndex := field "cycleIndex" (body req) in
  let startDate := field "startDate" (body req) in
  let endDate := field "endDate" (body req) in
  let recipientUserId := field "recipientUserId" (body req) in
  let status := field "status" (body req) in
  cycleRowOf (argInt (parseInt (Some (JStr (param req)))))
    (argInt (Number cycleIndex))
    (ifTruthy startDate (argDate (newDate startDate)))
    (ifTruthy endDate (argDate (newDate endDate)))
    (ifTruthy recipientUserId (argInt (Number recipientUserId)))
    (argString (Some (orElse status (JStr "active"))))
    id now.


(** The [recipientUserId] argument a [PUT /cycles/:cycleId] request gives to
    Prisma: [recipientUserId ? parseInt(recipientUserId.toString(), 10) : null];
    [None] when [toString()] throws. *)
Definition requestedRecipient (req : Request) : option (Arg Z) :=
  let recipientUserId := field "recipientUserId" (body req) in
  if truthy recipientUserId then
    match recipientUserId with
    | Some j =>
        match toStringOf j with
        | Some s => Some (argInt (parseInt (Some (JStr s))))
        | None => None
        end
    | None => None
    end
  else Some Null.

(** Its [status] argument: [status || undefined]. *)
Definition requestedStatus (req : Request) : Arg string :=
  let status := field "status" (body req) in
  argString (if truthy status then status else None).

(** The status a [PUT /cycles/:cycleId] request leaves on a Cycle whose
    status was [old]. *)
Definition statusAfter (req : Request) (old : string) : string :=
  match requestedStatus req with
  | Value s => s
  | _ => old
  end.

(** The Membership row a [POST /memberships] request asks for. *)
Definition requestedMembership (req : Request) (id : Z) (now : DateTime)
    : option Membership.t :=
  let userId := field "userId" (body req) in
  let groupId := field "groupId" (body req) in
  let role := field "role" (body req) in
  match argValue (argInt (parseInt userId)), argValue (argInt (parseInt groupId)),
        orElse role (JStr "member") with
  | Some u, Some g, JStr r => Some (Membership.mk id u g r now)
  | _, _, _ => None
  end.

(** The User row a [POST /users] request asks for: the email in lower
    case, the other values as they are supplied. *)
Definition requestedUser (req : Request) (id : Z) (now : DateTime) : option User.t :=
  match field "email" (body req), field "password" (body req),
        optionalValue (argString (field "name" (body req))),
        optionalValue (argString (field "phone" (body req))) with
  | Some (JStr e), Some (JStr pw), Some n, Some ph =>
      Some (User.mk id (toLowerCase e) pw n ph None now now)
  | _, _, _, _ => None
  end.

End Vocabulary.

(* ================================================================= *)
(** ** A runtime and a store for the closed examples *)

(** The value of a string of ASCII decimal digits. *)
Definition digitOf (c : ascii) : option Z :=
  let n := Z.of_N (N_of_ascii c) in
  if (48 <=? n) && (n <=? 57) then Some (n - 48) else None.

Fixpoint decimal (s : string) (acc : Z) : option Z :=
  match s with
  | EmptyString => Some acc
  | String c rest =>
      match digitOf c with
      | Some d => decimal rest (10 * acc + d)
      | None => None
      end
  end.

Definition numeral (s : string) : option Z :=
  match s with
  | EmptyString => None
  | _ => decimal s 0
  end.

(** The binary64 number nearest to an integer. *)
Definition ofZ (z : Z) : float := SF2Prim (binary_normalize prec emax z 0 false).

Definition lowerAscii (c : ascii) : ascii :=
  let n := N_of_ascii c in
  if (65 <=? n)%N && (n <=? 90)%N then ascii_of_N (n + 32) else c.

Fixpoint mapString (f : ascii -> ascii) (s : string) : string :=
  match s with
  | EmptyString => EmptyString
  | String c rest => String (f c) (mapString f rest)
  end.

(** The library functions on the values the closed examples pass to them,
    where they compute what Node computes: strings of decimal digits,
    numbers that are 32-bit integers, [undefined], [null] and booleans for
    the conversions to a number; timestamps for [new Date]; ASCII letters for
    [toLowerCase].  The token of user [n] is the numeral of [n].  It stands
    in for Node in the examples only: outside these values it answers [NaN],
    an Invalid Date or a throw, which Node does not always do. *)
Definition stubNumber (v : JsVal) : float :=
  match v with
  | Some (JNum x) => x
  | Some (JStr s) =>
      match numeral s with
      | Some z => ofZ z
      | None => if String.eqb s "" then 0%float else nan
      end
  | Some JNull => 0%float
  | Some (JBool b) => if b then 1%float else 0%float
  | _ => nan
  end.

Definition stubParse (v : JsVal) : float :=
  match v with
  | Some (JNum x) => match toInt32 x with Some _ => x | None => nan end
  | Some (JStr s) =>
      match numeral s with
      | Some z => ofZ z
      | None => nan
      end
  | _ => nan
  end.

Definition stubParseFloat (v : JsVal) : float :=
  match v with
  | Some (JNum x) => if is_finite x then x else nan
  | _ => stubParse v
  end.

Definition stubDate (v : JsVal) : option Z :=
  match v with
  | Some (JNum x) => toInt32 x
  | _ => None
  end.

Definition stubToString (j : Json) : option string :=
  match j with
  | JStr s => Some s
  | JBool b => Some (if b then "true" else "false")
  | JNum x =>
      match toInt32 x with
      | Some z => Some (NilZero.string_of_int (Z.to_int z))
      | None => None
      end
  | _ => None
  end.

Definition stubVerify (token : string) : option JwtPayload :=
  match numeral token with
  | Some n => Some (mkJwtPayload n "")
  | None => None
  end.

Definition stub : JsRuntime :=
  mkJsRuntime stubParse stubParseFloat stubNumber stubDate stubToString
    (mapString lowerAscii) stubVerify.

(** Three users in a group with contribution 50 and one completed cycle
    whose second payment is paid; a second group of two with contribution 20;
    a fourth user in no group. *)
Definition db0 : DB :=
  mkDB
    [ User.mk 1 "alice@example.com" "pw1" (Some "Alice") None None 0 0;
      User.mk 2 "bob@example.com" "pw2" (Some "Bob") None None 0 0;
      User.mk 3 "carol@example.com" "pw3" (Some "Carol") None None 0 0;
      User.mk 4 "dave@example.com" "pw4" (Some "Dave") None None 0 0 ]
    [ Group.mk 1 "Family" (Some "monthly") (Some 50%float) (Some "monthly") (Some 10) 0 0;
      Group.mk 2 "Friends" None (Some 20%float) None None 0 0 ]
    [ Membership.mk 1 1 1 "admin" 0;
      Membership.mk 2 2 1 "member" 0;
      Membership.mk 3 3 1 "member" 0;
      Membership.mk 4 1 2 "admin" 0;
      Membership.mk 5 2 2 "member" 0 ]
    [ Cycle.mk 1 1 1 None None (Some 2) "completed" 0 ]
    [ Payment.mk 1 1 1 50%float false None;
      Payment.mk 2 1 2 50%float true (Some 1000);
      Payment.mk 3 1 3 50%float false None ]
    5 3 6 2 4.

(** A request carrying the token of a user. *)
Definition requestOf (user : string) (param : string) (body : list (string * Json))
    : Request :=
  mkRequest (Some ("Bearer " ++ user)) param body.

(** Alice, the admin of both groups, and Dave, a member of none. *)
Definition alice : JwtPayload := mkJwtPayload 1 "".
Definition dave : JwtPayload := mkJwtPayload 4 "".

(** The second cycle of the first group, created by Alice. *)
Definition newCycleRequest : Request :=
  requestOf "1" "1" [("cycleIndex", JNum 2%float); ("recipientUserId", JNum 3%float)].

(** Alice sets the contribution of the second group to 0, and then creates
    its first cycle. *)
Definition zeroContributionRequest : Request :=
  requestOf "1" "2" [("contribution", JStr "0")].
Definition zeroGroupCycleRequest : Request :=
  requestOf "1" "2" [("cycleIndex", JNum 1%float)].
Definition dbZero : DB := snd (updateGroup (rt := stub) zeroContributionRequest 4000 db0).
Definition friendsAtZero : Group.t := Group.mk 2 "Friends" None (Some 0%float) None None 0 4000.

(** Dave marks Bob's payment, paid already, as paid. *)
Definition payRequest : Request := requestOf "4" "2" [].





(** Alice removes Bob's Membership of the first group; Carol tries to. *)
Definition removeBobRequest : Request := requestOf "1" "2" [].
Definition carolRemovesBobRequest : Request := requestOf "3" "2" [].

(** Alice reopens the completed cycle, sending only the status. *)
Definition reopenRequest : Request := requestOf "1" "1" [("status", JStr "active")].

(** Alice names Dave, who is in no group, as the recipient; then user 0. *)
Definition outsiderRecipientRequest : Request :=
  requestOf "1" "1" [("recipientUserId", JNum 4%float)].
Definition zeroRecipientRequest : Request :=
  requestOf "1" "1" [("recipientUserId", JNum 0%float)].

(** Nobody in particular adds Dave to the first group, then Bob once more. *)
Definition addDaveRequest : Request :=
  mkRequest None "" [("userId", JNum 4%float); ("groupId", JStr "1")].
Definition addBobAgainRequest : Request :=
  mkRequest None "" [("userId", JNum 2%float); ("groupId", JNum 1%float)].

(** Eve registers. *)
Definition registerRequest : Request :=
  mkRequest None "" [("email", JStr "Eve@Example.com"); ("password", JStr "secret")].

(** Rows of [db0] the examples name. *)
Definition family : Group.t :=
  Group.mk 1 "Family" (Some "monthly") (Some 50%float) (Some "monthly") (Some 10) 0 0.
Definition friends : Group.t := Group.mk 2 "Friends" None (Some 20%float) None None 0 0.
Definition bobsMembership : Membership.t := Membership.mk 2 2 1 "member" 0.
Definition firstCycle : Cycle.t := Cycle.mk 1 1 1 None None (Some 2) "completed" 0.
Definition bobsPayment : Payment.t := Payment.mk 2 1 2 50%float true (Some 1000).


(* ================================================================= *)
(** ** The other Prisma calls of [index.ts] *)

(** The calls of the routes that follow.  A delete carries the referential
    actions of [schema.prisma]: [onDelete: Cascade] on the relations of
    Membership, Cycle and Payment, and the default [SetNull] on the optional
    relation [Cycle.recipient]. *)

Definition findUser (db : DB) (u : Z) : option User.t :=
  find (fun r => User.id r =? u) (users db).

Definition findMembership (db : DB) (i : Z) : option Membership.t :=
  find (fun m => Membership.id m =? i) (memberships db).

Definition isUndefined {A} (a : Arg A) : bool :=
  match a with
  | Undefined => true
  | _ => false
  end.

(** *** [prisma.user] *)

(** [prisma.user.findUnique({ where: { id } })]. *)
Definition user_findUnique (id : Arg Z) : Prisma (option User.t) :=
  i <- required id ;;
  query (fun db => findUser db i).

(** [prisma.user.findUnique({ where: { email } })]. *)
Definition user_findUnique_email (email : Arg string) : Prisma (option User.t) :=
  e <- required email ;;
  query (fun db => find (fun r => String.eqb (User.email r) e) (users db)).

(** [prisma.user.update({ where: { id }, data })] for the columns the routes
    write.  With every key of [data] omitted nothing is written, and
    [@updatedAt] is not touched either. *)
Definition user_update (id : Arg Z) (password name phone pushToken : Arg string)
    (now : DateTime) : Prisma User.t :=
  i <- required id ;;
  old <- query (fun db => findUser db i) ;;
  match old with
  | None => throw
  | Some u =>
      pw <- updRequired password (User.password u) ;;
      n <- updNullable name (User.name u) ;;
      ph <- updNullable phone (User.phone u) ;;
      pt <- updNullable pushToken (User.pushToken u) ;;
      let empty := isUndefined password && isUndefined name
                   && isUndefined phone && isUndefined pushToken in
      let u' := User.mk i (User.email u) pw n ph pt (User.createdAt u)
                  (if empty then User.updatedAt u else now) in
      fun db =>
        (Resolved u',
         set_users db (map (fun r => if User.id r =? i then u' else r) (users db))
           (nextUserId db))
  end.

(** [ON DELETE SET NULL] on [Cycle.recipientUserId]. *)
Definition clearRecipient (u : Z) (c : Cycle.t) : Cycle.t :=
  match Cycle.recipientUserId c with
  | Some r =>
      if r =? u
      then Cycle.mk (Cycle.id c) (Cycle.groupId c) (Cycle.cycleIndex c)
             (Cycle.startDate c) (Cycle.endDate c) None (Cycle.status c)
             (Cycle.createdAt c)
      else c
  | None => c
  end.

(** [prisma.user.delete({ where: { id } })]: rejects when no row has the id;
    the Memberships and Payments of the user go with it, and the Cycles it
    was the recipient of lose their recipient. *)
Definition user_delete (id : Arg Z) : Prisma User.t :=
  i <- required id ;;
  fun db =>
    match findUser db i with
    | None => (Rejected, db)
    | Some u =>
        (Resolved u,
         mkDB (filter (fun r => negb (User.id r =? i)) (users db))
              (groups db)
              (filter (fun m => negb (Membership.userId m =? i)) (memberships db))
              (map (clearRecipient i) (cycles db))
              (filter (fun p => negb (Payment.userId p =? i)) (payments db))
              (nextUserId db) (nextGroupId db) (nextMembershipId db)
              (nextCycleId db) (nextPaymentId db))
    end.

(** *** [prisma.group] *)

(** [prisma.group.create({ data })]. *)
Definition group_create (name description : Arg string) (contribution : Arg float)
    (frequency : Arg string) (maxMembers : Arg Z) (now : DateTime)
    : Prisma Group.t :=
  n <- required name ;;
  d <- optional description ;;
  c <- optional contribution ;;
  f <- optional frequency ;;
  mm <- optional maxMembers ;;
  fun db =>
    let row := Group.mk (nextGroupId db) n d c f mm now now in
    (Resolved row,
     mkDB (users db) (groups db ++ [row]) (memberships db) (cycles db) (payments db)
          (nextUserId db) (nextGroupId db + 1) (nextMembershipId db)
          (nextCycleId db) (nextPaymentId db)).

(** [prisma.group.delete({ where: { id } })]: rejects when no row has the id;
    the Memberships and the Cycles of the Group go with it, and with the
    Cycles their Payments. *)
Definition group_delete (id : Arg Z) : Prisma Group.t :=
  i <- required id ;;
  fun db =>
    match find (fun r => Group.id r =? i) (groups db) with
    | None => (Rejected, db)
    | Some g =>
        (Resolved g,
         mkDB (users db)
              (filter (fun r => negb (Group.id r =? i)) (groups db))
              (filter (fun m => negb (Membership.groupId m =? i)) (memberships db))
              (filter (fun c => negb (Cycle.groupId c =? i)) (cycles db))
              (filter (fun p => negb (cycleInGroup db i p)) (payments db))
              (nextUserId db) (nextGroupId db) (nextMembershipId db)
              (nextCycleId db) (nextPaymentId db))
    end.

(** [prisma.group.findUnique({ where: { id }, include: { memberships:
    { include: { user: { select: { id, name, email } } } } } })]. *)
Definition group_findUnique_withMembers (id : Arg Z)
    : Prisma (option (Group.t * list (Membership.t * option UserSummary))) :=
  i <- required id ;;
  query (fun db =>
    match find (fun r => Group.id r =? i) (groups db) with
    | None => None
    | Some g =>
        Some (g,
              map (fun m => (m, summaryOf db (Some (Membership.userId m))))
                  (filter (fun m => Membership.groupId m =? i) (memberships db)))
    end).

(** *** [prisma.membership] *)

(** [prisma.membership.findMany({ where: { userId }, include: { group: true } })]. *)
Definition membership_findMany_userId_withGroup (userId : Arg Z)
    : Prisma (list (Membership.t * option Group.t)) :=
  u <- required userId ;;
  query (fun db =>
    map (fun m => (m, find (fun r => Group.id r =? Membership.groupId m) (groups db)))
        (filter (fun m => Membership.userId m =? u) (memberships db))).

(** A key of a [where] object that is set only under a condition: the
    filter is absent when the key is. *)
Definition whereKey (a : Arg Z) : Prisma (option Z) :=
  match a with
  | Undefined => ret None
  | Value z => ret (Some z)
  | Null | Invalid => throw
  end.

Definition matchesKey (k : option Z) (z : Z) : bool :=
  match k with
  | Some x => z =? x
  | None => true
  end.

Module MembershipWithUserGroup.
(** A Membership with [include: { user: true, group: true }]. *)
Record t : Type := mk {
  membership : Membership.t;
  user : option User.t;
  group : option Group.t
}.
End MembershipWithUserGroup.

(** [prisma.membership.findMany({ where: whereClause, include: { user: true,
    group: true } })]. *)
Definition membership_findMany_where (userId groupId : Arg Z)
    : Prisma (list MembershipWithUserGroup.t) :=
  u <- whereKey userId ;;
  g <- whereKey groupId ;;
  query (fun db =>
    map (fun m =>
           MembershipWithUserGroup.mk m
             (findUser db (Membership.userId m))
             (find (fun r => Group.id r =? Membership.groupId m) (groups db)))
        (filter (fun m => matchesKey u (Membership.userId m)
                          && matchesKey g (Membership.groupId m))
                (memberships db))).

(** [prisma.membership.update({ where: { id }, data: { role } })]. *)
Definition membership_update (id : Arg Z) (role : Arg string)
    : Prisma Membership.t :=
  i <- required id ;;
  old <- query (fun db => findMembership db i) ;;
  match old with
  | None => throw
  | Some m =>
      r <- updRequired role (Membership.role m) ;;
      let m' := Membership.mk i (Membership.userId m) (Membership.groupId m) r
                  (Membership.joinedAt m) in
      fun db =>
        (Resolved m',
         set_memberships db
           (map (fun x => if Membership.id x =? i then m' else x) (memberships db))
           (nextMembershipId db))
  end.

(** [prisma.membership.deleteMany({ where: { userId } })]. *)
Definition membership_deleteMany_userId (userId : Arg Z) : Prisma Z :=
  u <- required userId ;;
  fun db =>
    let hit m := Membership.userId m =? u in
    (Resolved (Z.of_nat (List.length (filter hit (memberships db)))),
     set_memberships db (filter (fun m => negb (hit m)) (memberships db))
       (nextMembershipId db)).

(** [prisma.membership.deleteMany({ where: { groupId } })]. *)
Definition membership_deleteMany_groupId (groupId : Arg Z) : Prisma Z :=
  g <- required groupId ;;
  fun db =>
    let hit m := Membership.groupId m =? g in
    (Resolved (Z.of_nat (List.length (filter hit (memberships db)))),
     set_memberships db (filter (fun m => negb (hit m)) (memberships db))
       (nextMembershipId db)).

(** *** [prisma.cycle] *)

(** [prisma.cycle.findMany({ where: { groupId }, select: { id: true } })]. *)
Definition cycle_findMany_groupId_ids (groupId : Arg Z) : Prisma (list Z) :=
  g <- required groupId ;;
  query (fun db => map Cycle.id (filter (fun c => Cycle.groupId c =? g) (cycles db))).

(** [prisma.cycle.deleteMany({ where: { groupId } })]: the Payments of the
    Cycles go with them. *)
Definition cycle_deleteMany_groupId (groupId : Arg Z) : Prisma Z :=
  g <- required groupId ;;
  fun db =>
    let hit c := Cycle.groupId c =? g in
    (Resolved (Z.of_nat (List.length (filter hit (cycles db)))),
     mkDB (users db) (groups db) (memberships db)
          (filter (fun c => negb (hit c)) (cycles db))
          (filter (fun p => negb (cycleInGroup db g p)) (payments db))
          (nextUserId db) (nextGroupId db) (nextMembershipId db)
          (nextCycleId db) (nextPaymentId db)).

(** [prisma.cycle.delete({ where: { id } })]: rejects when no row has the id;
    the Payments of the Cycle go with it. *)
Definition cycle_delete (id : Arg Z) : Prisma Cycle.t :=
  i <- required id ;;
  fun db =>
    match findCycle db i with
    | None => (Rejected, db)
    | Some c =>
        (Resolved c,
         mkDB (users db) (groups db) (memberships db)
              (filter (fun r => negb (Cycle.id r =? i)) (cycles db))
              (filter (fun p => negb (Payment.cycleId p =? i)) (payments db))
              (nextUserId db) (nextGroupId db) (nextMembershipId db)
              (nextCycleId db) (nextPaymentId db))
    end.

(** *** [prisma.payment] *)

(** [prisma.payment.deleteMany({ where: { cycleId } })]. *)
Definition payment_deleteMany_cycleId (cycleId : Arg Z) : Prisma Z :=
  c <- required cycleId ;;
  fun db =>
    let hit p := Payment.cycleId p =? c in
    (Resolved (Z.of_nat (List.length (filter hit (payments db)))),
     set_payments db (filter (fun p => negb (hit p)) (payments db)) (nextPaymentId db)).

(** [prisma.payment.deleteMany({ where: { userId } })]. *)
Definition payment_deleteMany_userId (userId : Arg Z) : Prisma Z :=
  u <- required userId ;;
  fun db =>
    let hit p := Payment.userId p =? u in
    (Resolved (Z.of_nat (List.length (filter hit (payments db)))),
     set_payments db (filter (fun p => negb (hit p)) (payments db)) (nextPaymentId db)).

(** [for (const x of xs) { await f(x) }]. *)
Fixpoint forEach {A B} (xs : list A) (f : A -> Prisma B) : Prisma unit :=
  match xs with
  | [] => ret tt
  | x :: rest => f x ;;; forEach rest f
  end.

(* ================================================================= *)
(** ** The other routes of [index.ts] *)

(** A JSON value given to [res.json]. *)
#[local] Unset Elimination Schemes.
Inductive Out : Type :=
| OScalar (s : Scalar)
| OObject (fields : list (string * Out))
| OArray (items : list Out).
#[local] Set Elimination Schemes.

(** A row as an object: one key per column. *)
Definition rowOut (columns : list (string * Scalar)) : Out :=
  OObject (map (fun kv => (fst kv, OScalar (snd kv))) columns).

Definition optOut {A} (f : A -> Out) (o : option A) : Out :=
  match o with
  | Some a => f a
  | None => OScalar SNull
  end.

Definition groupObject (g : Group.t) : list (string * Scalar) :=
  [ ("id", SInt (Group.id g));
    ("name", SStr (Group.name g));
    ("description", optScalar SStr (Group.description g));
    ("contribution", optScalar SFloat (Group.contribution g));
    ("frequency", optScalar SStr (Group.frequency g));
    ("maxMembers", optScalar SInt (Group.maxMembers g));
    ("createdAt", SDate (Group.createdAt g));
    ("updatedAt", SDate (Group.updatedAt g)) ].

Definition membershipObject (m : Membership.t) : list (string * Scalar) :=
  [ ("id", SInt (Membership.id m));
    ("userId", SInt (Membership.userId m));
    ("groupId", SInt (Membership.groupId m));
    ("role", SStr (Membership.role m));
    ("joinedAt", SDate (Membership.joinedAt m)) ].

Definition cycleObject (c : Cycle.t) : list (string * Scalar) :=
  [ ("id", SInt (Cycle.id c));
    ("groupId", SInt (Cycle.groupId c));
    ("cycleIndex", SInt (Cycle.cycleIndex c));
    ("startDate", optScalar SDate (Cycle.startDate c));
    ("endDate", optScalar SDate (Cycle.endDate c));
    ("recipientUserId", optScalar SInt (Cycle.recipientUserId c));
    ("status", SStr (Cycle.status c));
    ("createdAt", SDate (Cycle.createdAt c)) ].

(** The [select: { id, name, email }] projection as an object. *)
Definition summaryObject (s : UserSummary) : list (string * Scalar) :=
  [ ("id", SInt (summary_id s));
    ("name", optScalar SStr (summary_name s));
    ("email", SStr (summary_email s)) ].

(** The [select: { id, name, email, phone }] projection of a User. *)
Definition profileObject (u : User.t) : list (string * Scalar) :=
  [ ("id", SInt (User.id u));
    ("name", optScalar SStr (User.name u));
    ("email", SStr (User.email u));
    ("phone", optScalar SStr (User.phone u)) ].

Definition errorOut (error : string) : Out :=
  OObject [("error", OScalar (SStr error))].

Definition messageOut (message : string) : Out :=
  OObject [("message", OScalar (SStr message))].

(** [o.k] on a value sent. *)
Definition member (k : string) (o : Out) : option Out :=
  match o with
  | OObject fields =>
      match find (fun kv => String.eqb (fst kv) k) fields with
      | Some kv => Some (snd kv)
      | None => None
      end
  | _ => None
  end.

(** What a route sends: a body of the routes above, a JSON value, or the
    text of [res.send]. *)
Inductive Content : Type :=
| CBody (b : Body)
| CJson (o : Out)
| CText (s : string).

Record Reply : Type := mkReply {
  code : Z;
  content : Content
}.

Definition replyOf (r : Response) : Reply := mkReply (status r) (CBody (json r)).

(** [res.status(code).json(o)]. *)
Definition jsonReply (code : Z) (o : Out) : Reply := mkReply code (CJson o).

(** [try { ... } catch (error) { res.status(500).json({ error }) }]. *)
Definition tryCatchReply (body : Prisma Reply) (error : string) : DB -> Reply * DB :=
  fun db =>
    match body db with
    | (Resolved r, db') => (r, db')
    | (Rejected, db') => (jsonReply 500 (errorOut error), db')
    end.

(** The exact integer value of a JavaScript number, when it has one. *)
Definition integerOf (x : float) : option Z :=
  match Prim2SF x with
  | S754_zero _ => Some 0
  | S754_finite s m e =>
      let n := if 0 <=? e then Zpos m * 2 ^ e else Zpos m / 2 ^ (- e) in
      let exact := (0 <=? e) || (Zpos m mod 2 ^ (- e) =? 0) in
      if exact then Some (if s then - n else n) else None
  | _ => None
  end.

(** [x === n] for a number [x] and the integer [n] of a token: [NaN] equals
    nothing. *)
Definition sameNumber (x : float) (n : Z) : bool :=
  match integerOf x with
  | Some v => v =? n
  | None => false
  end.

(** [v === s] for a body value [v] and a string [s]. *)
Definition sameString (v : JsVal) (s : string) : bool :=
  match v with
  | Some (JStr t) => String.eqb t s
  | _ => false
  end.

(** [v ? f(v) : undefined], as in [if (v) { where.k = f(v) }]. *)
Definition whenTruthy {A} (v : JsVal) (a : Arg A) : Arg A :=
  if truthy v then a else Undefined.

(** The double quotation mark, for a message that holds one. *)
Definition quote : string := String "034"%char EmptyString.

(** *** Handlers that go on after a response *)

(** Two handlers send a response without returning.  The response object
    keeps the first response sent, which is the one the client gets; a later
    [res.json] throws (the headers are sent), also inside [catch], where the
    rejection then escapes the handler. *)
Record Exchange : Type := mkExchange {
  store : DB;
  sent : option Reply
}.

Definition Express (A : Type) : Type := Exchange -> Outcome A * Exchange.

Definition pass : Express unit := fun x => (Resolved tt, x).

Definition andThen {A B} (m : Express A) (k : A -> Express B) : Express B :=
  fun x =>
    match m x with
    | (Resolved a, x') => k a x'
    | (Rejected, x') => (Rejected, x')
    end.

(** [await] of a Prisma call. *)
Definition await {A} (m : Prisma A) : Express A :=
  fun x =>
    match m (store x) with
    | (o, db') => (o, mkExchange db' (sent x))
    end.

(** [res.status(code).json(o)]. *)
Definition res_json (r : Reply) : Express unit :=
  fun x =>
    match sent x with
    | None => (Resolved tt, mkExchange (store x) (Some r))
    | Some _ => (Rejected, x)
    end.

(** [if (c) { res.status(code).json(o); }], without [return]. *)
Definition sendWhen (c : bool) (r : Reply) : Express unit :=
  if c then res_json r else pass.

(** [try { ... } catch (error) { res.status(500).json({ error }) }] around
    such a body: the response the client gets, if any, and the store. *)
Definition tryCatchSent (body : Express unit) (error : string)
    : DB -> option Reply * DB :=
  fun db =>
    match body (mkExchange db None) with
    | (Resolved _, x) => (sent x, store x)
    | (Rejected, x) =>
        (match sent x with
         | Some r => Some r
         | None => Some (jsonReply 500 (errorOut error))
         end,
         store x)
    end.

(** *** The libraries of the other routes *)

(** [jwtSign] is [jwt.sign({ userId, email }, process.env.JWT_SECRET,
    { expiresIn: '7d' })] at a time, [None] when it throws;
    [decodeURIComponent] is the decoding of a route parameter by the router,
    [None] when it throws; [containsInsensitive e s] is the filter
    [{ contains: s, mode: 'insensitive' }] on an email [e];
    [orderByCycleIndex] is the order [{ cycleIndex: 'asc' }] in which the
    database returns the rows. *)
Class Libraries : Type := mkLibraries {
  jwtSign : JwtPayload -> DateTime -> option string;
  decodeURIComponent : string -> option string;
  containsInsensitive : string -> string -> bool;
  orderByCycleIndex : list Cycle.t -> list Cycle.t
}.

(** A handler of the routes that follow: the request with its route
    parameter, [req.query], the clock and the store. *)
Definition Endpoint : Type :=
  Request -> list (string * Json) -> DateTime -> DB -> Reply * DB.

Section Routes.
Context {rt : JsRuntime} {lib : Libraries}.

(** [app.METHOD(path, authMiddleware, handler)]. *)
Definition withAuth (req : Request) (next : JwtPayload -> DB -> Reply * DB)
    : DB -> Reply * DB :=
  match authMiddleware req with
  | inl r => fun db => (replyOf r, db)
  | inr user => next user
  end.

(** *** [GET /] and [GET /api/health] *)

Definition hello : Endpoint := fun _ _ _ db =>
  (mkReply 200 (CText "Hello, Tontine World!"), db).

Definition health : Endpoint := fun _ _ _ db =>
  (jsonReply 200 (messageOut "Server is running!"), db).

(** *** [GET /users/:userId] *)

Definition getUser (req : Request) (now : DateTime) (db : DB) : option Reply * DB :=
  match authMiddleware req with
  | inl r => (Some (replyOf r), db)
  | inr requester =>
      tryCatchSent (
        let userId := parseInt (Some (JStr (param req))) in
        (* check if the user is requesting their own profile *)
        let requesterId := jwt_userId requester in
        andThen
          (sendWhen (negb (sameNumber userId requesterId))
             (jsonReply 403 (errorOut "You can only view your own profile")))
          (fun _ =>
        andThen (await (user_findUnique (argInt userId))) (fun user =>
        andThen
          (sendWhen (match user with None => true | Some _ => false end)
             (jsonReply 404 (errorOut "User not found")))
          (fun _ =>
        res_json (jsonReply 200 (optOut (fun u => rowOut (profileObject u)) user)))))
      ) "Failed to fetch user" db
  end.

(** *** [GET /users] *)

Definition searchUsers : Endpoint := fun req search now =>
  withAuth req (fun _ =>
  tryCatchReply (
    let email := field "email" search in
    if negb (truthy email)
    then ret (jsonReply 400 (errorOut "Email query parameter is required"))
    else
      needle <-
        match email with
        | Some j =>
            match toStringOf j with
            | Some s => ret (toLowerCase s)
            | None => throw
            end
        | None => throw
        end ;;
      user <- query (fun db =>
                find (fun r => containsInsensitive (User.email r) needle) (users db)) ;;
      (* res.json(user || null) *)
      ret (jsonReply 200
             (optOut (fun u => rowOut (summaryObject
                        (mkUserSummary (User.id u) (User.name u) (User.email u))))
                user))
  ) "Failed to search users").

(** *** [PUT /users/:userId] *)

Definition updateUser : Endpoint := fun req _ now =>
  withAuth req (fun requester =>
  tryCatchReply (
    let userId := parseInt (Some (JStr (param req))) in
    let name := field "name" (body req) in
    let phone := field "phone" (body req) in
    (* check if the user is updating their own profile *)
    let requesterId := jwt_userId requester in
    if negb (sameNumber userId requesterId)
    then ret (jsonReply 403 (errorOut "You can only update your own profile"))
    else
      updatedUser <-
        user_update (argInt userId) Undefined (argString name) (argString phone)
          Undefined now ;;
      ret (jsonReply 200 (rowOut (profileObject updatedUser)))
  ) "Failed to update user").

(** *** [PUT /users/:userId/password] *)

Definition updatePassword (req : Request) (now : DateTime) (db : DB)
    : option Reply * DB :=
  match authMiddleware req with
  | inl r => (Some (replyOf r), db)
  | inr requester =>
      tryCatchSent (
        let userId := parseInt (Some (JStr (param req))) in
        let current_password := field "current_password" (body req) in
        let new_password := field "new_password" (body req) in
        (* check if the user is updating their own password *)
        let requesterId := jwt_userId requester in
        andThen
          (sendWhen (negb (sameNumber userId requesterId))
             (jsonReply 403 (errorOut "You can only update your own password")))
          (fun _ =>
        (* get the user *)
        andThen (await (user_findUnique (argInt userId))) (fun user =>
        andThen
          (sendWhen (match user with None => true | Some _ => false end)
             (jsonReply 404 (errorOut "User not found")))
          (fun _ =>
        (* check if current password matches *)
        andThen
          (sendWhen
             (match user with
              | None => true
              | Some u => negb (sameString current_password (User.password u))
              end)
             (jsonReply 401 (errorOut "Current password is incorrect")))
          (fun _ =>
        (* update the password *)
        andThen
          (await (user_update (argInt userId) (argString new_password)
                    Undefined Undefined Undefined now))
          (fun _ =>
        res_json (jsonReply 200 (messageOut "Password updated successfully")))))))
      ) "Failed to update password" db
  end.

(** *** [DELETE /users/:userId] *)

Definition deleteUser : Endpoint := fun req _ now =>
  withAuth req (fun requester =>
  tryCatchReply (
    let userId := parseInt (Some (JStr (param req))) in
    (* check if the user is deleting their own account *)
    let requesterId := jwt_userId requester in
    if negb (sameNumber userId requesterId)
    then ret (jsonReply 403 (errorOut "You can only delete your own account"))
    else
      (* delete memberships and payments *)
      membership_deleteMany_userId (argInt userId) ;;;
      payment_deleteMany_userId (argInt userId) ;;;
      (* delete the user *)
      user_delete (argInt userId) ;;;
      ret (jsonReply 200 (messageOut "Account deleted successfully"))
  ) "Failed to delete user").

(** *** [PUT /users/:userId/settings] *)

Definition updateSettings : Endpoint := fun req _ now =>
  withAuth req (fun requester =>
  tryCatchReply (
    let userId := parseInt (Some (JStr (param req))) in
    let requesterId := jwt_userId requester in
    if negb (sameNumber userId requesterId)
    then ret (jsonReply 403 (errorOut "You can only update your own settings"))
    else ret (jsonReply 200 (messageOut "Settings updated successfully"))
  ) "Failed to update settings").

(** *** [PUT /users/push-token] *)

Definition updatePushToken : Endpoint := fun req _ now =>
  withAuth req (fun requester =>
  tryCatchReply (
    let userId := jwt_userId requester in
    let pushToken := field "pushToken" (body req) in
    updatedUser <-
      user_update (Value userId) Undefined Undefined Undefined (argString pushToken)
        now ;;
    ret (jsonReply 200
           (OObject [ ("message", OScalar (SStr "Push token updated"));
                      ("user", rowOut (userObject updatedUser)) ]))
  ) "Failed to update push token").

(** *** [POST /auth/login] *)

Definition loginHandler : Endpoint := fun req _ now =>
  tryCatchReply (
    let email := field "email" (body req) in
    let password := field "password" (body req) in
    (* email.toLowerCase() throws on anything but a string *)
    normalizedEmail <-
      match email with
      | Some (JStr e) => ret (toLowerCase e)
      | _ => throw
      end ;;
    user <- user_findUnique_email (Value normalizedEmail) ;;
    match user with
    | None => ret (jsonReply 401 (errorOut "Invalid email or password"))
    | Some u =>
        if negb (sameString password (User.password u))
        then ret (jsonReply 401 (errorOut "Invalid email or password"))
        else
          match jwtSign (mkJwtPayload (User.id u) (User.email u)) now with
          | None => throw
          | Some token =>
              ret (jsonReply 200
                     (OObject
                        [ ("token", OScalar (SStr token));
                          ("user",
                           OObject [ ("id", OScalar (SInt (User.id u)));
                                     ("email", OScalar (SStr (User.email u)));
                                     ("name", OScalar (optScalar SStr (User.name u))) ])
                        ]))
          end
    end
  ) "Login failed".

(** *** [POST /groups] *)

Definition createGroup : Endpoint := fun req _ now =>
  withAuth req (fun requester =>
  let name := field "name" (body req) in
  let description := field "description" (body req) in
  let contribution := field "contribution" (body req) in
  let frequency := field "frequency" (body req) in
  let maxMembers := field "maxMembers" (body req) in
  let userId := jwt_userId requester in
  tryCatchReply (
    (* create the group *)
    newGroup <-
      group_create (argString name) (argString description)
        (ifTruthy contribution (argFloat (parseFloat contribution)))
        (argString frequency)
        (ifTruthy maxMembers (argInt (parseInt maxMembers)))
        now ;;
    (* add the creator as an admin member *)
    membership_create (Value userId) (Value (Group.id newGroup)) (Value "admin") now ;;;
    ret (jsonReply 201 (rowOut (groupObject newGroup)))
  ) "Failed to create group").

(** *** [GET /groups] *)

Definition listGroups : Endpoint := fun req _ now =>
  withAuth req (fun requester =>
  tryCatchReply (
    let userId := jwt_userId requester in
    (* find all groups where the user is a member *)
    memberships <- membership_findMany_userId_withGroup (Value userId) ;;
    (* extract just the groups *)
    let groups := map snd memberships in
    ret (jsonReply 200 (OArray (map (optOut (fun g => rowOut (groupObject g))) groups)))
  ) "Failed to fetch groups").

(** *** [GET /groups/:groupId] *)

Definition memberOut (mu : Membership.t * option UserSummary) : Out :=
  OObject (map (fun kv => (fst kv, OScalar (snd kv))) (membershipObject (fst mu))
           ++ [("user", optOut (fun s => rowOut (summaryObject s)) (snd mu))]).

Definition getGroup : Endpoint := fun req _ now =>
  withAuth req (fun requester =>
  tryCatchReply (
    let groupId := parseInt (Some (JStr (param req))) in
    (* check if the user is a member of this group *)
    let userId := jwt_userId requester in
    membership <- membership_findUnique_userId_groupId
                    (Value userId) (argInt groupId) ;;
    match membership with
    | None => ret (jsonReply 403 (errorOut "You are not a member of this group"))
    | Some _ =>
        group <- group_findUnique_withMembers (argInt groupId) ;;
        match group with
        | None => ret (jsonReply 404 (errorOut "Group not found"))
        | Some (g, members) =>
            ret (jsonReply 200
                   (OObject
                      (map (fun kv => (fst kv, OScalar (snd kv))) (groupObject g)
                       ++ [("memberships", OArray (map memberOut members))])))
        end
    end
  ) "Failed to fetch group").

(** *** [DELETE /groups/:groupId] *)

Definition deleteGroup : Endpoint := fun req _ now =>
  withAuth req (fun requester =>
  tryCatchReply (
    let groupId := parseInt (Some (JStr (param req))) in
    (* check if the user is an admin of this group *)
    let userId := jwt_userId requester in
    membership <- membership_findUnique_userId_groupId
                    (Value userId) (argInt groupId) ;;
    match membership with
    | None => ret (jsonReply 403 (errorOut "Only group admins can delete the group"))
    | Some m =>
        if negb (String.eqb (Membership.role m) "admin")
        then ret (jsonReply 403 (errorOut "Only group admins can delete the group"))
        else
          (* get all cycles for this group *)
          cycles <- cycle_findMany_groupId_ids (argInt groupId) ;;
          (* delete payments for each cycle *)
          forEach cycles (fun cycleId => payment_deleteMany_cycleId (Value cycleId)) ;;;
          (* delete all cycles *)
          cycle_deleteMany_groupId (argInt groupId) ;;;
          (* delete all memberships *)
          membership_deleteMany_groupId (argInt groupId) ;;;
          (* delete the group *)
          group_delete (argInt groupId) ;;;
          ret (jsonReply 200 (messageOut "Group deleted successfully"))
    end
  ) "Failed to delete group").

(** *** [GET /memberships] *)

Definition membershipWithUserGroupOut (x : MembershipWithUserGroup.t) : Out :=
  OObject
    (map (fun kv => (fst kv, OScalar (snd kv)))
         (membershipObject (MembershipWithUserGroup.membership x))
     ++ [ ("user", optOut (fun u => rowOut (userObject u))
                     (MembershipWithUserGroup.user x));
          ("group", optOut (fun g => rowOut (groupObject g))
                      (MembershipWithUserGroup.group x)) ]).

Definition listMemberships : Endpoint := fun req search now =>
  let userId := field "userId" search in
  let groupId := field "groupId" search in
  tryCatchReply (
    memberships <-
      membership_findMany_where
        (whenTruthy userId (argInt (parseInt userId)))
        (whenTruthy groupId (argInt (parseInt groupId))) ;;
    ret (jsonReply 200 (OArray (map membershipWithUserGroupOut memberships)))
  ) "Failed to fetch memberships".

(** *** [PUT /memberships/:membershipId] *)

Definition updatedMembershipOut (db : DB) (m : Membership.t) : Out :=
  OObject
    (map (fun kv => (fst kv, OScalar (snd kv))) (membershipObject m)
     ++ [ ("user", optOut (fun s => rowOut (summaryObject s))
                     (summaryOf db (Some (Membership.userId m))));
          ("group", optOut (fun g => rowOut (groupObject g))
                      (find (fun r => Group.id r =? Membership.groupId m) (groups db)))
        ]).

Definition updateMembership : Endpoint := fun req _ now =>
  withAuth req (fun requester =>
  tryCatchReply (
    let membershipId := parseInt (Some (JStr (param req))) in
    let role := field "role" (body req) in
    (* validate role *)
    if negb (sameString role "admin") && negb (sameString role "member")
    then
      ret (jsonReply 400
             (errorOut ("Invalid role. Must be " ++ quote ++ "admin" ++ quote
                        ++ " or " ++ quote ++ "member" ++ quote)))
    else
      (* get the membership *)
      membership <- membership_findUnique (argInt membershipId) ;;
      match membership with
      | None => ret (jsonReply 404 (errorOut "Membership not found"))
      | Some m =>
          (* check if the user is an admin of this group *)
          let userId := jwt_userId requester in
          userMembership <- membership_findUnique_userId_groupId
                              (Value userId) (Value (Membership.groupId m)) ;;
          let forbidden :=
            jsonReply 403 (errorOut "Only group admins can update membership roles") in
          match userMembership with
          | None => ret forbidden
          | Some um =>
              if negb (String.eqb (Membership.role um) "admin")
              then ret forbidden
              else
                (* update the membership *)
                updatedMembership <-
                  membership_update (argInt membershipId) (argString role) ;;
                out <- query (fun db => updatedMembershipOut db updatedMembership) ;;
                ret (jsonReply 200 out)
          end
      end
  ) "Failed to update membership").

(** *** [GET /groups/:groupId/cycles] *)

Definition cycleWithRecipientOut (db : DB) (c : Cycle.t) : Out :=
  OObject
    (map (fun kv => (fst kv, OScalar (snd kv))) (cycleObject c)
     ++ [ ("recipient", optOut (fun s => rowOut (summaryObject s))
                          (summaryOf db (Cycle.recipientUserId c))) ]).

Definition listCycles : Endpoint := fun req _ now =>
  withAuth req (fun requester =>
  tryCatchReply (
    let groupIdNum := parseInt (Some (JStr (param req))) in
    let userId := jwt_userId requester in
    membership <- membership_findUnique_userId_groupId
                    (Value userId) (argInt groupIdNum) ;;
    match membership with
    | None => ret (jsonReply 403 (errorOut "You are not a member of this group"))
    | Some _ =>
        g <- required (argInt groupIdNum) ;;
        cycles <- query (fun db =>
                    map (cycleWithRecipientOut db)
                        (orderByCycleIndex
                           (filter (fun c => Cycle.groupId c =? g) (cycles db)))) ;;
        ret (jsonReply 200 (OArray cycles))
    end
  ) "Failed to fetch cycles").

(** *** [GET /cycles/:cycleId] *)

Definition cycleWithGroupRecipientOut (db : DB) (c : Cycle.t) : Out :=
  OObject
    (map (fun kv => (fst kv, OScalar (snd kv))) (cycleObject c)
     ++ [ ("group", optOut (fun g => rowOut (groupObject g))
                      (find (fun r => Group.id r =? Cycle.groupId c) (groups db)));
          ("recipient", optOut (fun s => rowOut (summaryObject s))
                          (summaryOf db (Cycle.recipientUserId c))) ]).

Definition getCycle : Endpoint := fun req _ now =>
  withAuth req (fun requester =>
  tryCatchReply (
    let cycleId := parseInt (Some (JStr (param req))) in
    cycle <- cycle_findUnique (argInt cycleId) ;;
    match cycle with
    | None => ret (jsonReply 404 (errorOut "Cycle not found"))
    | Some c =>
        (* check if the user is a member of this group *)
        let userId := jwt_userId requester in
        membership <- membership_findUnique_userId_groupId
                        (Value userId) (Value (Cycle.groupId c)) ;;
        match membership with
        | None => ret (jsonReply 403 (errorOut "You are not a member of this group"))
        | Some _ =>
            out <- query (fun db => cycleWithGroupRecipientOut db c) ;;
            ret (jsonReply 200 out)
        end
    end
  ) "Failed to fetch cycle").

(** *** [DELETE /cycles/:cycleId] *)

Definition deleteCycle : Endpoint := fun req _ now =>
  withAuth req (fun requester =>
  tryCatchReply (
    let cycleId := parseInt (Some (JStr (param req))) in
    (* get the cycle *)
    cycle <- cycle_findUnique (argInt cycleId) ;;
    match cycle with
    | None => ret (jsonReply 404 (errorOut "Cycle not found"))
    | Some c =>
        (* check if the user is an admin of this group *)
        let userId := jwt_userId requester in
        membership <- membership_findUnique_userId_groupId
                        (Value userId) (Value (Cycle.groupId c)) ;;
        let forbidden := jsonReply 403 (errorOut "Only group admins can delete cycles") in
        match membership with
        | None => ret forbidden
        | Some m =>
            if negb (String.eqb (Membership.role m) "admin")
            then ret forbidden
            else
              (* delete all payments for this cycle *)
              payment_deleteMany_cycleId (argInt cycleId) ;;;
              (* delete the cycle *)
              cycle_delete (argInt cycleId) ;;;
              ret (jsonReply 200 (messageOut "Cycle deleted successfully"))
        end
    end
  ) "Failed to delete cycle").

End Routes.

(* ================================================================= *)
(** ** The router *)

(** The methods the file registers routes for. *)
Inductive Method : Type := GET | POST | PUT | DELETE.

Definition sameMethod (a b : Method) : bool :=
  match a, b with
  | GET, GET | POST, POST | PUT, PUT | DELETE, DELETE => true
  | _, _ => false
  end.

(** A segment of a route path: a literal or a parameter [:name]. *)
Inductive Segment : Type :=
| Lit (s : string)
| Par.

(** The routes, in the order of their registration. *)
Inductive Route : Type :=
| GetRoot
| PostUsers | GetUser | GetUsers | PutUser | PutUserPassword | DeleteUser
| PutUserSettings | PutUserPushToken
| PostAuthLogin
| PostGroups | GetGroups | GetGroup | PutGroup | DeleteGroup
| PostMemberships | GetMemberships | PutMembership | DeleteMembership
| PostGroupCycles | GetGroupCycles | GetCycle | PutCycle | DeleteCycle
| PutPaymentPay | GetCyclePayments
| GetApiHealth.

(** [app.METHOD(path, ...)], one line per call. *)
Definition routes : list (Method * list Segment * Route) :=
  [ (GET, [], GetRoot);
    (POST, [Lit "users"], PostUsers);
    (GET, [Lit "users"; Par], GetUser);
    (GET, [Lit "users"], GetUsers);
    (PUT, [Lit "users"; Par], PutUser);
    (PUT, [Lit "users"; Par; Lit "password"], PutUserPassword);
    (DELETE, [Lit "users"; Par], DeleteUser);
    (PUT, [Lit "users"; Par; Lit "settings"], PutUserSettings);
    (PUT, [Lit "users"; Lit "push-token"], PutUserPushToken);
    (POST, [Lit "auth"; Lit "login"], PostAuthLogin);
    (POST, [Lit "groups"], PostGroups);
    (GET, [Lit "groups"], GetGroups);
    (GET, [Lit "groups"; Par], GetGroup);
    (PUT, [Lit "groups"; Par], PutGroup);
    (DELETE, [Lit "groups"; Par], DeleteGroup);
    (POST, [Lit "memberships"], PostMemberships);
    (GET, [Lit "memberships"], GetMemberships);
    (PUT, [Lit "memberships"; Par], PutMembership);
    (DELETE, [Lit "memberships"; Par], DeleteMembership);
    (POST, [Lit "groups"; Par; Lit "cycles"], PostGroupCycles);
    (GET, [Lit "groups"; Par; Lit "cycles"], GetGroupCycles);
    (GET, [Lit "cycles"; Par], GetCycle);
    (PUT, [Lit "cycles"; Par], PutCycle);
    (DELETE, [Lit "cycles"; Par], DeleteCycle);
    (PUT, [Lit "payments"; Par; Lit "pay"], PutPaymentPay);
    (GET, [Lit "cycles"; Par; Lit "payments"], GetCyclePayments);
    (GET, [Lit "api"; Lit "health"], GetApiHealth) ].

(** Routing is not case sensitive. *)
Definition sameLiteral (l s : string) : bool :=
  String.eqb (mapString lowerAscii l) (mapString lowerAscii s).

(** A path against the pattern of a route: [None] when it does not match,
    the segment of the parameter when the pattern has one.  A parameter
    takes a segment that is not empty. *)
Fixpoint matchSegments (pattern : list Segment) (segments : list string)
    : option (option string) :=
  match pattern, segments with
  | [], [] => Some None
  | Lit l :: pattern', s :: segments' =>
      if sameLiteral l s then matchSegments pattern' segments' else None
  | Par :: pattern', s :: segments' =>
      if String.eqb s "" then None
      else match matchSegments pattern' segments' with
           | Some _ => Some (Some s)
           | None => None
           end
  | _, _ => None
  end.

Fixpoint dropLastEmpty (l : list string) : list string :=
  match l with
  | [] => []
  | [s] => if String.eqb s "" then [] else [s]
  | s :: rest => s :: dropLastEmpty rest
  end.

(** The segments of [req.path], which starts with [/]; one [/] at the end
    is optional. *)
Definition segmentsOf (path : string) : option (list string) :=
  match split "/"%char path with
  | first :: rest => if String.eqb first "" then Some (dropLastEmpty rest) else None
  | [] => None
  end.

(** Where a request goes: to the first route whose path and method match,
    with the parameter decoded; to the error handler when a path matches
    and its parameter cannot be decoded; to no route of the file. *)
Inductive Routing : Type :=
| Routed (r : Route) (param : string)
| ParamError
| Unrouted.

Record HttpRequest : Type := mkHttpRequest {
  http_method : Method;
  http_path : string;                       (* req.path *)
  http_authorization : option string;       (* req.headers.authorization *)
  http_query : list (string * Json);        (* req.query *)
  http_body : list (string * Json)          (* req.body *)
}.

Section Router.
Context {rt : JsRuntime} {lib : Libraries}.

Fixpoint routeIn (table : list (Method * list Segment * Route)) (m : Method)
    (segments : list string) : Routing :=
  match table with
  | [] => Unrouted
  | (m', pattern, r) :: rest =>
      match matchSegments pattern segments with
      | None => routeIn rest m segments
      | Some None => if sameMethod m' m then Routed r "" else routeIn rest m segments
      | Some (Some raw) =>
          match decodeURIComponent raw with
          | None => ParamError
          | Some p => if sameMethod m' m then Routed r p else routeIn rest m segments
          end
      end
  end.

Definition routeOf (m : Method) (path : string) : Routing :=
  match segmentsOf path with
  | Some segments => routeIn routes m segments
  | None => Unrouted
  end.

(** The reply of a route, if it sends one, and the store it leaves. *)
Definition Served : Type := option Reply * DB.

Definition ofHandler (h : Handler) (req : Request) (now : DateTime) (db : DB)
    : Served :=
  (Some (replyOf (fst (h req now db))), snd (h req now db)).

Definition ofEndpoint (e : Endpoint) (req : Request) (search : list (string * Json))
    (now : DateTime) (db : DB) : Served :=
  (Some (fst (e req search now db)), snd (e req search now db)).

Definition handlerOf (r : Route) (req : Request) (search : list (string * Json))
    (now : DateTime) (db : DB) : Served :=
  match r with
  | GetRoot => ofEndpoint hello req search now db
  | PostUsers => ofHandler createUser req now db
  | GetUser => getUser req now db
  | GetUsers => ofEndpoint searchUsers req search now db
  | PutUser => ofEndpoint updateUser req search now db
  | PutUserPassword => updatePassword req now db
  | DeleteUser => ofEndpoint deleteUser req search now db
  | PutUserSettings => ofEndpoint updateSettings req search now db
  | PutUserPushToken => ofEndpoint updatePushToken req search now db
  | PostAuthLogin => ofEndpoint loginHandler req search now db
  | PostGroups => ofEndpoint createGroup req search now db
  | GetGroups => ofEndpoint listGroups req search now db
  | GetGroup => ofEndpoint getGroup req search now db
  | PutGroup => ofHandler updateGroup req now db
  | DeleteGroup => ofEndpoint deleteGroup req search now db
  | PostMemberships => ofHandler createMembership req now db
  | GetMemberships => ofEndpoint listMemberships req search now db
  | PutMembership => ofEndpoint updateMembership req search now db
  | DeleteMembership => ofHandler deleteMembership req now db
  | PostGroupCycles => ofHandler createCycle req now db
  | GetGroupCycles => ofEndpoint listCycles req search now db
  | GetCycle => ofEndpoint getCycle req search now db
  | PutCycle => ofHandler updateCycle req now db
  | DeleteCycle => ofEndpoint deleteCycle req search now db
  | PutPaymentPay => ofHandler markPaid req now db
  | GetCyclePayments => ofHandler listPayments req now db
  | GetApiHealth => ofEndpoint health req search now db
  end.

(** The error handler registered after the routes:
    [res.status(500).json({ error: 'Internal Server Error' })]. *)
Definition errorHandler : Reply := jsonReply 500 (errorOut "Internal Server Error").

(** A request served by the application. *)
Definition serve (h : HttpRequest) (now : DateTime) (db : DB) : Served :=
  match routeOf (http_method h) (http_path h) with
  | Routed r p =>
      handlerOf r (mkRequest (http_authorization h) p (http_body h))
        (http_query h) now db
  | ParamError => (Some errorHandler, db)
  | Unrouted => (None, db)
  end.

(** The requests are served one after the other. *)
Fixpoint run (calls : list (HttpRequest * DateTime)) (db : DB) : DB :=
  match calls with
  | [] => db
  | (h, now) :: rest => run rest (snd (serve h now db))
  end.

(** The routes registered with [authMiddleware]. *)
Definition protected (r : Route) : bool :=
  match r with
  | GetRoot | PostUsers | PostAuthLogin | PostMemberships | GetMemberships
  | GetApiHealth => false
  | _ => true
  end.

End Router.

(* ================================================================= *)
(** ** Vocabulary of the invariants *)

(** A computation that keeps an invariant of the store, whatever it
    resolves to. *)
Definition keeps (I : DB -> Prop) {A} (m : Prisma A) : Prop :=
  forall db, I db -> I (snd (m db)).

(** A computation that keeps the store within its schema. *)
Definition preserves {A} (m : Prisma A) : Prop := keeps (fun db => wf db = true) m.

(** The same for a handler that goes on after a response. *)
Definition keepsSent (I : DB -> Prop) {A} (m : Express A) : Prop :=
  forall x, I (store x) -> I (store (snd (m x))).

(** A [Float] argument that no write refuses to store is finite. *)
Definition finiteArg (a : Arg float) : bool :=
  match a with
  | Value x => is_finite x
  | _ => true
  end.

(** No Payment of user [u] in the Cycles of Group [g]. *)
Definition noPaymentOf (u g : Z) (db : DB) : Prop :=
  forall p, In p (payments db) -> paymentOf u g db p = false.

(** What no route changes in a Payment, and in a Cycle. *)
Definition samePayment (p p' : Payment.t) : Prop :=
  Payment.id p' = Payment.id p
  /\ Payment.cycleId p' = Payment.cycleId p
  /\ Payment.userId p' = Payment.userId p
  /\ Payment.amount p' = Payment.amount p.

Definition sameCycle (c c' : Cycle.t) : Prop :=
  Cycle.id c' = Cycle.id c
  /\ Cycle.groupId c' = Cycle.groupId c
  /\ Cycle.cycleIndex c' = Cycle.cycleIndex c
  /\ Cycle.startDate c' = Cycle.startDate c
  /\ Cycle.endDate c' = Cycle.endDate c
  /\ Cycle.createdAt c' = Cycle.createdAt c.

(** [db'] has no Payment and no Cycle that [db] has not: a Payment of [db']
    is one of [db] up to [paid] and [paidAt], a Cycle of [db'] is one of [db]
    up to its recipient and its status. *)
Definition later (db db' : DB) : Prop :=
  (forall p', In p' (payments db') -> exists p, In p (payments db) /\ samePayment p p')
  /\ (forall c', In c' (cycles db') -> exists c, In c (cycles db) /\ sameCycle c c').

(** The store with the schema kept and no Payment of user [u] in Group [g]. *)
Definition cleared (u g : Z) (db : DB) : Prop :=
  wf db = true /\ noPaymentOf u g db.

Section Runs.
Context {rt : JsRuntime} {lib : Libraries}.

(** User [u] has no Membership of Group [g] before any of the calls. *)
Fixpoint staysOut (u g : Z) (calls : list (HttpRequest * DateTime)) (db : DB) : Prop :=
  match calls with
  | [] => True
  | (h, now) :: rest =>
      membershipOf db u g = None /\ staysOut u g rest (snd (serve h now db))
  end.

End Runs.

(* ================================================================= *)
(** ** Vocabulary of the other routes *)

(** The row of a user after a write of its password at a time. *)
Definition withPassword (u : User.t) (password : string) (now : DateTime) : User.t :=
  User.mk (User.id u) (User.email u) password (User.name u) (User.phone u)
    (User.pushToken u) (User.createdAt u) now.

(** The table of users with the row of an id replaced. *)
Definition replaceUser (db : DB) (u' : User.t) : DB :=
  set_users db (map (fun r => if User.id r =? User.id u' then u' else r) (users db))
    (nextUserId db).

(** The store once the account of user [u] is deleted: its Memberships and
    Payments are gone and the Cycles it was to receive have no recipient. *)
Definition withoutUser (u : Z) (db : DB) : DB :=
  mkDB (filter (fun r => negb (User.id r =? u)) (users db))
       (groups db)
       (filter (fun m => negb (Membership.userId m =? u)) (memberships db))
       (map (clearRecipient u) (cycles db))
       (filter (fun p => negb (Payment.userId p =? u)) (payments db))
       (nextUserId db) (nextGroupId db) (nextMembershipId db)
       (nextCycleId db) (nextPaymentId db).

(** The store once Group [g] is deleted with its Memberships, its Cycles and
    their Payments. *)
Definition withoutGroup (g : Z) (db : DB) : DB :=
  mkDB (users db)
       (filter (fun r => negb (Group.id r =? g)) (groups db))
       (filter (fun m => negb (Membership.groupId m =? g)) (memberships db))
       (filter (fun c => negb (Cycle.groupId c =? g)) (cycles db))
       (filter (fun p => negb (cycleInGroup db g p)) (payments db))
       (nextUserId db) (nextGroupId db) (nextMembershipId db)
       (nextCycleId db) (nextPaymentId db).

(** The store once Cycle [c] is deleted with its Payments. *)
Definition withoutCycle (c : Z) (db : DB) : DB :=
  mkDB (users db) (groups db) (memberships db)
       (filter (fun r => negb (Cycle.id r =? c)) (cycles db))
       (filter (fun p => negb (Payment.cycleId p =? c)) (payments db))
       (nextUserId db) (nextGroupId db) (nextMembershipId db)
       (nextCycleId db) (nextPaymentId db).

(** A Membership with another role, and the store with it in place. *)
Definition withRole (m : Membership.t) (role : string) : Membership.t :=
  Membership.mk (Membership.id m) (Membership.userId m) (Membership.groupId m) role
    (Membership.joinedAt m).

Definition replaceMembership (db : DB) (m' : Membership.t) : DB :=
  set_memberships db
    (map (fun x => if Membership.id x =? Membership.id m' then m' else x)
         (memberships db))
    (nextMembershipId db).

(** The Group row [group_create] inserts, [None] when an argument is not
    valid. *)
Definition newGroupRowOf (name description : Arg string) (contribution : Arg float)
    (frequency : Arg string) (maxMembers : Arg Z) (id : Z) (now : DateTime)
    : option Group.t :=
  match argValue name, optionalValue description, optionalValue contribution,
        optionalValue frequency, optionalValue maxMembers with
  | Some n, Some d, Some c, Some f, Some mm => Some (Group.mk id n d c f mm now now)
  | _, _, _, _, _ => None
  end.

(** The store with a new Group, and with the Group and its first
    Membership. *)
Definition withGroup (db : DB) (g : Group.t) : DB :=
  mkDB (users db) (groups db ++ [g]) (memberships db) (cycles db) (payments db)
       (nextUserId db) (nextGroupId db + 1) (nextMembershipId db)
       (nextCycleId db) (nextPaymentId db).

Section VocabularyOfRoutes.
Context {rt : JsRuntime}.

(** The Group row a [POST /groups] request asks for. *)
Definition requestedNewGroup (req : Request) (id : Z) (now : DateTime)
    : option Group.t :=
  let name := field "name" (body req) in
  let description := field "description" (body req) in
  let contribution := field "contribution" (body req) in
  let frequency := field "frequency" (body req) in
  let maxMembers := field "maxMembers" (body req) in
  newGroupRowOf (argString name) (argString description)
    (ifTruthy contribution (argFloat (parseFloat contribution)))
    (argString frequency)
    (ifTruthy maxMembers (argInt (parseInt maxMembers)))
    id now.

End VocabularyOfRoutes.

(* ================================================================= *)
(** ** Libraries and requests for the closed examples of the other routes *)

(** A signer whose token is the decimal id of the user, which [stubVerify]
    reads back; a decoder that refuses every [%]; a search by substring of
    the lower-cased strings; an insertion sort on [cycleIndex]. *)
Definition stubSign (p : JwtPayload) (now : DateTime) : option string :=
  Some (NilZero.string_of_int (Z.to_int (jwt_userId p))).

Definition stubDecode (s : string) : option string :=
  match String.index 0 "%" s with
  | Some _ => None
  | None => Some s
  end.

Definition stubContains (hay needle : string) : bool :=
  match String.index 0 (mapString lowerAscii needle) (mapString lowerAscii hay) with
  | Some _ => true
  | None => false
  end.

Fixpoint insertCycle (c : Cycle.t) (l : list Cycle.t) : list Cycle.t :=
  match l with
  | [] => [c]
  | d :: rest =>
      if Cycle.cycleIndex c <? Cycle.cycleIndex d then c :: l
      else d :: insertCycle c rest
  end.

Definition stubOrder (l : list Cycle.t) : list Cycle.t :=
  fold_right insertCycle [] l.

Definition stubLib : Libraries := mkLibraries stubSign stubDecode stubContains stubOrder.

(** A request as the router gets it, with the token of a user or none. *)
Definition httpOf (m : Method) (path : string) (user : option string)
    (body : list (string * Json)) : HttpRequest :=
  mkHttpRequest m path
    (match user with Some u => Some ("Bearer " ++ u) | None => None end) [] body.

(** Rows of [db0] the examples name. *)
Definition aliceRow : User.t :=
  User.mk 1 "alice@example.com" "pw1" (Some "Alice") None None 0 0.
Definition bobRow : User.t :=
  User.mk 2 "bob@example.com" "pw2" (Some "Bob") None None 0 0.
Definition alicesMembership : Membership.t := Membership.mk 1 1 1 "admin" 0.
Definition bob : JwtPayload := mkJwtPayload 2 "".

(** Eve registers, Alice opens a third group and deletes the first, Bob
    leaves the second, Carol deletes her account. *)
Definition someCalls : list (HttpRequest * DateTime) :=
  [ (httpOf POST "/users" None
       [("email", JStr "Eve@Example.com"); ("password", JStr "secret")], 4000);
    (httpOf POST "/groups" (Some "1")
       [("name", JStr "Work"); ("contribution", JStr "10")], 4100);
    (httpOf DELETE "/groups/1" (Some "1") [], 4200);
    (httpOf DELETE "/memberships/5" (Some "2") [], 4300);
    (httpOf DELETE "/Users/3/" (Some "3") [], 4400) ].

(** Alice deletes the only cycle; Dave marks the first payment as paid;
    Alice reopens the cycle. *)
Definition deleteCycleCall : HttpRequest := httpOf DELETE "/cycles/1" (Some "1") [].
Definition payCall : HttpRequest := httpOf PUT "/payments/1/pay" (Some "4") [].
Definition reopenCall : HttpRequest :=
  httpOf PUT "/cycles/1" (Some "1") [("status", JStr "active")].

(** Bob removed from the first group, Alice creates its second cycle and
    lists the payments of it. *)
Definition newCycleCall : HttpRequest :=
  httpOf POST "/groups/1/cycles" (Some "1")
    [("cycleIndex", JNum 2%float); ("recipientUserId", JNum 3%float)].
Definition addBobAgainCall : HttpRequest :=
  httpOf POST "/memberships" None [("userId", JNum 2%float); ("groupId", JNum 1%float)].
Definition listSecondCycleRequest : Request := requestOf "1" "2" [].
Definition dbWithoutBob : DB := snd (deleteMembership (rt := stub) removeBobRequest 5000 db0).
Definition secondCycle : Cycle.t := Cycle.mk 2 1 2 None None (Some 3) "active" 6000.
Definition listedAfterRemoval : list PaymentWithUserCycle.t :=
  match json (fst (listPayments (rt := stub) listSecondCycleRequest 7000
                     (run (rt := stub) (lib := stubLib) [(newCycleCall, 6000)]
                        dbWithoutBob))) with
  | BPayments ps => ps
  | _ => []
  end.

(** Bob changes his password, giving a wrong current one; Alice changes
    Bob's, giving the right one. *)
Definition bobPasswordRequest : Request :=
  requestOf "2" "2" [("current_password", JStr "guess"); ("new_password", JStr "bobnew")].
Definition alicePasswordRequest : Request :=
  requestOf "1" "2" [("current_password", JStr "pw2"); ("new_password", JStr "mine")].

(** Bob asks for his profile and for Alice's, renames himself, and deletes
    his account. *)
Definition bobProfileRequest : Request := requestOf "2" "2" [].
Definition aliceProfileRequest : Request := requestOf "2" "1" [].

(** Alice logs in, with her email in capitals. *)
Definition aliceLoginRequest : Request :=
  mkRequest None "" [("email", JStr "ALICE@example.com"); ("password", JStr "pw1")].

(** A request with no token, and one with a token that does not verify. *)
Definition anonymousRequest : Request := mkRequest None "1" [].
Definition forgedRequest : Request := requestOf "x" "1" [].

(** Bob sends his push token. *)
Definition pushTokenCall : HttpRequest :=
  httpOf PUT "/users/push-token" (Some "2") [("pushToken", JStr "ExponentPushToken[1]")].

(** Dave opens a group; so does user 9, whose account is gone. *)
Definition daveGroupRequest : Request :=
  requestOf "4" "" [("name", JStr "Club"); ("contribution", JNum 5%float)].
Definition ghostGroupRequest : Request := requestOf "9" "" [("name", JStr "Ghost")].
Definition club : Group.t := Group.mk 3 "Club" None (Some 5%float) None None 8000 8000.
Definition ghost : Group.t := Group.mk 3 "Ghost" None None None None 8000 8000.

(** Alice deletes the first group, and its only cycle; Alice makes Bob an
    admin of the first group, and herself a plain member. *)
Definition aliceGroupRequest : Request := requestOf "1" "1" [].
Definition promoteBobRequest : Request := requestOf "1" "2" [("role", JStr "admin")].
Definition demoteAliceRequest : Request := requestOf "1" "1" [("role", JStr "member")].

(** Dave reads the first group, of which he is no member. *)
Definition daveGroupReadRequest : Request := requestOf "4" "1" [].

(** Alice sets a contribution that is no number; she creates a cycle with a
    fraction for its index, and one with a recipient that is no number. *)
Definition unparsedContributionRequest : Request :=
  requestOf "1" "1" [("contribution", JStr "abc")].
Definition fractionIndexRequest : Request :=
  requestOf "1" "1" [("cycleIndex", JNum 2.5%float)].
Definition unparsedRecipientRequest : Request :=
  requestOf "1" "1" [("cycleIndex", JNum 2%float); ("recipientUserId", JStr "abc")].

(** The store once Bob is a member of the first group again and Alice has
    created its second cycle. *)
Definition dbWithBobAgain : DB :=
  run (rt := stub) (lib := stubLib) [(addBobAgainCall, 5500); (newCycleCall, 6000)]
    dbWithoutBob.
(* ================================================================= *)
(** ** Lemmas on the store *)

Lemma wf_primaryKeys db : wf db = true -> primaryKeys db = true.
Proof. unfold wf. rewrite !andb_true_iff. tauto. Qed.

Lemma wf_uniqueKeys db : wf db = true -> uniqueKeys db = true.
Proof. unfold wf. rewrite !andb_true_iff. tauto. Qed.

Lemma wf_foreignKeys db : wf db = true -> foreignKeys db = true.
Proof. unfold wf. rewrite !andb_true_iff. tauto. Qed.

Lemma wf_floatColumns db : wf db = true -> floatColumns db = true.
Proof. unfold wf. rewrite !andb_true_iff. tauto. Qed.

Lemma existsb_eqb_In x l : existsb (Z.eqb x) l = true <-> In x l.
Proof.
  rewrite existsb_exists. split.
  - intros (y & Hy & E). apply Z.eqb_eq in E. now subst.
  - intros H. exists x. split; [assumption | apply Z.eqb_refl].
Qed.

(** In a table with unique ids, a row is found by its id. *)
Lemma find_by_id {A} (key : A -> Z) (l : list A) (a : A) :
  distinct (map key l) = true -> In a l ->
  find (fun r => key r =? key a) l = Some a.
Proof.
  induction l as [|b l IH]; simpl; [contradiction|].
  rewrite andb_true_iff, negb_true_iff. intros [Hb Hd] [->|Hin].
  - now rewrite Z.eqb_refl.
  - destruct (key b =? key a) eqn:E.
    + exfalso. apply Z.eqb_eq in E.
      assert (In (key a) (map key l)) as Hm by now apply in_map.
      rewrite <- E in Hm. apply existsb_eqb_In in Hm. congruence.
    + now apply IH.
Qed.

Lemma find_In {A} (f : A -> bool) l a : find f l = Some a -> In a l /\ f a = true.
Proof. apply find_some. Qed.

Lemma isMembership_spec u g m :
  isMembership u g m = true <-> Membership.userId m = u /\ Membership.groupId m = g.
Proof. unfold isMembership. now rewrite andb_true_iff, !Z.eqb_eq. Qed.

(** Under [@@unique([userId, groupId])] the Membership of a pair is the one
    [findUnique] returns. *)
Lemma find_membership l m :
  uniquePairs l = true -> In m l ->
  find (isMembership (Membership.userId m) (Membership.groupId m)) l = Some m.
Proof.
  induction l as [|b l IH]; simpl; [contradiction|].
  rewrite andb_true_iff, negb_true_iff. intros [Hb Hd] [->|Hin].
  - unfold isMembership at 1. now rewrite !Z.eqb_refl.
  - destruct (isMembership (Membership.userId m) (Membership.groupId m) b) eqn:E.
    + exfalso. apply isMembership_spec in E. destruct E as [E1 E2].
      rewrite E1, E2 in Hb.
      assert (existsb (isMembership (Membership.userId m) (Membership.groupId m)) l = true).
      { apply existsb_exists. exists m. split; [assumption|].
        now apply isMembership_spec. }
      congruence.
    + now apply IH.
Qed.

(** [isAdmin] is the presence of an admin Membership. *)
Lemma isAdmin_holdsRole db u g :
  wf db = true -> (isAdmin db u g = true <-> holdsRole db u g "admin").
Proof.
  intros Hwf. apply wf_uniqueKeys in Hwf. unfold uniqueKeys in Hwf.
  apply andb_true_iff in Hwf. destruct Hwf as [_ Hu].
  unfold isAdmin, membershipOf, holdsRole. split.
  - destruct (find _ _) as [m|] eqn:F; [|discriminate].
    intros E. apply String.eqb_eq in E. apply find_In in F. destruct F as [Hin Hm].
    apply isMembership_spec in Hm. exists m. tauto.
  - intros (m & Hin & <- & <- & Hr).
    rewrite (find_membership _ _ Hu Hin). now apply String.eqb_eq.
Qed.

Lemma find_map_replace {A} (key : A -> Z) (l : list A) (i : Z) (a a' : A) :
  key a' = i ->
  find (fun r => key r =? i) l = Some a ->
  find (fun r => key r =? i) (map (fun r => if key r =? i then a' else r) l) = Some a'.
Proof.
  intros Ha'. induction l as [|b l IH]; simpl; [discriminate|].
  destruct (key b =? i) eqn:E.
  - intros _. now rewrite Ha', Z.eqb_refl.
  - rewrite E. exact IH.
Qed.

Lemma toInt32_truncate x z :
  toInt32 x = Some z ->
  truncate x = Some z /\ (- 2 ^ 31 <=? z) && (z <? 2 ^ 31) = true.
Proof.
  unfold toInt32, truncate. destruct (Prim2SF x) as [s|s| |s m e]; try discriminate.
  - intros [= <-]. split; reflexivity.
  - cbv zeta. destruct (_ && _ && _) eqn:E; [|discriminate]. intros [= <-].
    apply andb_true_iff in E. destruct E as [E E3].
    apply andb_true_iff in E. destruct E as [_ E2].
    split; [reflexivity|]. apply andb_true_iff. split; assumption.
Qed.

Lemma argInt_Value x z : toInt32 x = Some z -> argInt x = Value z.
Proof.
  intros H. destruct (toInt32_truncate _ _ H) as [Ht Hr]. unfold argInt.
  now rewrite Ht, Hr.
Qed.

(** What [argInt] and [argFloat] give is never [Undefined], and a [Float]
    is never refused. *)
Lemma argInt_cases x :
  (truncate x = None /\ argInt x = Null)
  \/ (exists v, truncate x = Some v /\ argInt x = Value v)
  \/ (exists v, truncate x = Some v /\ argInt x = Invalid).
Proof.
  unfold argInt. destruct (truncate x) as [v|]; [|now left]. right.
  destruct (_ && _); [left | right]; now exists v.
Qed.

(** *** The fan-out *)

Lemma fanOut_length id c a ms : List.length (fanOut id c a ms) = List.length ms.
Proof. revert id. induction ms as [|m ms IH]; intros id; simpl; [|rewrite IH]; reflexivity. Qed.

Lemma fanOut_userIds id c a ms :
  map Payment.userId (fanOut id c a ms) = map Membership.userId ms.
Proof. revert id. induction ms as [|m ms IH]; intros id; simpl; [|rewrite IH]; reflexivity. Qed.

Lemma fanOut_rows id c a ms :
  Forall (fun p => Payment.cycleId p = c /\ Payment.amount p = a
                   /\ Payment.paid p = false /\ Payment.paidAt p = None)
         (fanOut id c a ms).
Proof.
  revert id. induction ms as [|m ms IH]; intros id; simpl; constructor; auto.
Qed.

Lemma paymentRows_fanOut id c a ms :
  paymentRows id
    (map (fun m => PaymentCreateManyInput.mk (Value c)
                     (Value (Membership.userId m)) (Value a)) ms)
  = Some (fanOut id c a ms).
Proof.
  revert id. induction ms as [|m ms IH]; intros id; [reflexivity|].
  cbn [map paymentRows fanOut PaymentCreateManyInput.cycleId
       PaymentCreateManyInput.userId PaymentCreateManyInput.amount argValue].
  now rewrite IH.
Qed.

(** *** [cycle_create] in closed form *)

Lemma cycle_create_eq g ci sd ed rc st now db :
  cycle_create g ci sd ed rc st now db =
  match cycleRowOf g ci sd ed rc st (nextCycleId db) now with
  | None => (Rejected, db)
  | Some row =>
      if groupExists db (Cycle.groupId row)
         && optUserExists db (Cycle.recipientUserId row)
      then (Resolved row, set_cycles db (cycles db ++ [row]) (nextCycleId db + 1))
      else (Rejected, set_cycles db (cycles db) (nextCycleId db + 1))
  end.
Proof.
  unfold cycle_create, cycleRowOf.
  destruct g; try reflexivity.
  destruct ci; try reflexivity.
  destruct sd; try reflexivity;
    (destruct ed; try reflexivity;
      (destruct rc; try reflexivity; destruct st; reflexivity)).
Qed.

Lemma cycleRowOf_Some g ci sd ed rc st id now c :
  cycleRowOf g ci sd ed rc st id now = Some c ->
  Cycle.id c = id /\ argValue g = Some (Cycle.groupId c)
  /\ argValue ci = Some (Cycle.cycleIndex c) /\ Cycle.createdAt c = now.
Proof.
  unfold cycleRowOf.
  destruct (argValue g), (argValue ci), (optionalValue sd), (optionalValue ed),
    (optionalValue rc), (defaultedValue st "active"); try discriminate.
  intros [= <-]. auto.
Qed.

Lemma cycleRowOf_recipient g ci sd ed rc st id now c :
  cycleRowOf g ci sd ed rc st id now = Some c ->
  optionalValue rc = Some (Cycle.recipientUserId c).
Proof.
  unfold cycleRowOf.
  destruct (argValue g), (argValue ci), (optionalValue sd), (optionalValue ed),
    (optionalValue rc), (defaultedValue st "active"); try discriminate.
  now intros [= <-].
Qed.

Lemma argInt_truncate x z : argValue (argInt x) = Some z -> truncate x = Some z.
Proof.
  destruct (argInt_cases x) as [[_ E]|[(v & Ht & E)|(v & _ & E)]]; rewrite E; cbn;
    try discriminate. now intros [= <-].
Qed.

Lemma ifTruthy_int_optional v x rc :
  optionalValue (ifTruthy v (argInt x)) = Some rc ->
  rc = if truthy v then truncate x else None.
Proof.
  unfold ifTruthy. destruct (truthy v); [|now intros [= <-]].
  destruct (argInt_cases x) as [[Ht E]|[(z & Ht & E)|(z & Ht & E)]];
    rewrite E, Ht; cbn; [now intros [= <-] | now intros [= <-] | discriminate].
Qed.

Lemma existsb_app_r {A} (f : A -> bool) l a : f a = true -> existsb f (l ++ [a]) = true.
Proof. intros H. rewrite existsb_app. simpl. rewrite H. now rewrite orb_true_r. Qed.

Lemma groupContribution_finite db g :
  forallb (fun g => finiteOpt (Group.contribution g)) (groups db) = true ->
  is_finite (groupContributionOf (findGroup db g)) = true.
Proof.
  intros Hfin. unfold groupContributionOf, findGroup.
  destruct (find _ _) as [gr|] eqn:F; [|reflexivity].
  destruct (Group.contribution gr) as [c|] eqn:C; [|reflexivity].
  destruct (truthyNum c); [|reflexivity].
  apply find_some in F. destruct F as [Hin _].
  rewrite forallb_forall in Hfin. specialize (Hfin _ Hin). now rewrite C in Hfin.
Qed.

Lemma fanOut_foreignKeys db id c a ms :
  cycleExists db c = true ->
  forallb (fun m => userExists db (Membership.userId m)) ms = true ->
  forallb (fun p => cycleExists db (Payment.cycleId p) && userExists db (Payment.userId p))
          (fanOut id c a ms) = true.
Proof.
  intros Hc. revert id. induction ms as [|m ms IH]; intros id; simpl; [reflexivity|].
  rewrite andb_true_iff. intros [Hm Hms]. now rewrite Hc, Hm, IH.
Qed.

Lemma forallb_filter {A} (f p : A -> bool) l :
  forallb f l = true -> forallb f (filter p l) = true.
Proof.
  rewrite !forallb_forall. intros H x Hx. apply filter_In in Hx. now apply H.
Qed.

Lemma wf_member_users db :
  wf db = true ->
  forallb (fun m => userExists db (Membership.userId m)) (memberships db) = true.
Proof.
  intros Hwf. apply wf_foreignKeys in Hwf. unfold foreignKeys in Hwf.
  rewrite !andb_true_iff in Hwf. destruct Hwf as [[Hm _] _].
  rewrite forallb_forall in *. intros m Hin. specialize (Hm m Hin).
  now apply andb_true_iff in Hm.
Qed.

Lemma wf_finite_contributions db :
  wf db = true ->
  forallb (fun g => finiteOpt (Group.contribution g)) (groups db) = true.
Proof.
  intros Hwf. apply wf_floatColumns in Hwf. unfold floatColumns in Hwf.
  now apply andb_true_iff in Hwf.
Qed.

Lemma wf_membership_group db u g m :
  wf db = true -> membershipOf db u g = Some m -> groupExists db g = true.
Proof.
  intros Hwf Hm. apply wf_foreignKeys in Hwf. unfold foreignKeys in Hwf.
  rewrite !andb_true_iff in Hwf. destruct Hwf as [[Hfk _] _].
  apply find_some in Hm. destruct Hm as [Hin Hm].
  apply isMembership_spec in Hm. destruct Hm as [_ <-].
  rewrite forallb_forall in Hfk. specialize (Hfk m Hin).
  now apply andb_true_iff in Hfk.
Qed.

Lemma existsb_below id ids : below id ids = true -> existsb (Z.eqb id) ids = false.
Proof.
  unfold below. intros Hb. apply not_true_is_false. intros He.
  apply existsb_exists in He. destruct He as (x & Hx & E). apply Z.eqb_eq in E. subst x.
  rewrite forallb_forall in Hb. specialize (Hb _ Hx). apply Z.ltb_lt in Hb. lia.
Qed.

Lemma filter_none {A} (f : A -> bool) l :
  (forall x, In x l -> f x = false) -> filter f l = [].
Proof.
  induction l as [|a l IH]; simpl; [reflexivity|]. intros H.
  rewrite (H a (or_introl eq_refl)). apply IH. intros x Hx. apply H. now right.
Qed.

(** No Payment of the store belongs to the Cycle that the sequence will
    number next. *)
Lemma wf_no_payment_of_next_cycle db :
  wf db = true ->
  filter (fun p => Payment.cycleId p =? nextCycleId db) (payments db) = [].
Proof.
  intros Hwf. pose proof (wf_foreignKeys _ Hwf) as Hfk.
  apply wf_primaryKeys in Hwf. unfold primaryKeys in Hwf.
  unfold foreignKeys in Hfk. rewrite !andb_true_iff in Hwf. rewrite !andb_true_iff in Hfk.
  destruct Hfk as [_ Hp].
  assert (below (nextCycleId db) (map Cycle.id (cycles db)) = true) as Hb by tauto.
  apply existsb_below in Hb.
  rewrite forallb_forall in Hp.
  apply filter_none. intros p Hin. apply not_true_is_false. intros E.
  apply Z.eqb_eq in E.
  specialize (Hp p Hin). apply andb_true_iff in Hp.
  destruct Hp as [Hp _]. unfold cycleExists in Hp. rewrite E in Hp.
  rewrite existsb_exists in Hp. destruct Hp as (c & Hc & Ec).
  assert (existsb (Z.eqb (nextCycleId db)) (map Cycle.id (cycles db)) = true).
  { apply existsb_exists. exists (Cycle.id c). split; [now apply in_map|].
    now rewrite Z.eqb_sym. }
  congruence.
Qed.

Lemma filter_all {A} (f : A -> bool) l : forallb f l = true -> filter f l = l.
Proof.
  induction l as [|a l IH]; simpl; [reflexivity|].
  rewrite andb_true_iff. intros [-> H]. now rewrite IH.
Qed.

Lemma isAdmin_inv db u g :
  isAdmin db u g = true ->
  exists m, membershipOf db u g = Some m /\ Membership.role m = "admin".
Proof.
  unfold isAdmin. destruct (membershipOf db u g) as [m|]; [|discriminate].
  intros E. apply String.eqb_eq in E. now exists m.
Qed.

(** An admin of a Group is one of its members: the Group of an admin has at
    least one Membership. *)
Lemma admin_is_member db u g : isAdmin db u g = true -> membersOf db g <> [].
Proof.
  intros H. destruct (isAdmin_inv _ _ _ H) as (m & Hm & _).
  unfold membershipOf in Hm. apply find_some in Hm. destruct Hm as [Hin Hm].
  unfold isMembership in Hm. apply andb_true_iff in Hm. destruct Hm as [_ Hg].
  assert (In m (membersOf db g)) as Hx by (apply filter_In; auto).
  intros E. rewrite E in Hx. exact Hx.
Qed.

Lemma cycleRowOf_renumber g ci sd ed rc st id now id' now' c :
  cycleRowOf g ci sd ed rc st id now = Some c ->
  cycleRowOf g ci sd ed rc st id' now'
  = Some (Cycle.mk id' (Cycle.groupId c) (Cycle.cycleIndex c) (Cycle.startDate c)
            (Cycle.endDate c) (Cycle.recipientUserId c) (Cycle.status c) now').
Proof.
  unfold cycleRowOf.
  destruct (argValue g), (argValue ci), (optionalValue sd), (optionalValue ed),
    (optionalValue rc), (defaultedValue st "active"); try discriminate.
  intros [= <-]. reflexivity.
Qed.

Lemma find_id_eq {A} (key : A -> Z) i l a :
  find (fun r => key r =? i) l = Some a -> key a = i.
Proof. intros H. apply find_some in H. destruct H as [_ H]. now apply Z.eqb_eq. Qed.

Lemma group_update_eq i name description contribution frequency maxMembers now db :
  group_update (Value i) name description contribution frequency maxMembers now db =
  match findGroup db i with
  | None => (Rejected, db)
  | Some g =>
      match groupRowOf name description contribution frequency maxMembers g now with
      | None => (Rejected, db)
      | Some g' =>
          (Resolved g',
           set_groups db (map (fun r => if Group.id r =? i then g' else r) (groups db)))
      end
  end.
Proof.
  unfold group_update, findGroup, groupRowOf.
  cbn [required bind ret query]. unfold bind at 1. cbn [query].
  destruct (find _ _) as [g|] eqn:F; [|reflexivity].
  rewrite (find_id_eq Group.id _ _ _ F).
  destruct name; try reflexivity;
    (destruct description; try reflexivity;
      (destruct contribution; try reflexivity;
        (destruct frequency; try reflexivity; destruct maxMembers; reflexivity))).
Qed.







Lemma wf_membership_ids db :
  wf db = true -> distinct (map Membership.id (memberships db)) = true.
Proof.
  intros Hwf. apply wf_primaryKeys in Hwf. unfold primaryKeys in Hwf.
  rewrite !andb_true_iff in Hwf. tauto.
Qed.

Lemma cycle_update_eq i rc st db :
  cycle_update (Value i) rc st db =
  match findCycle db i with
  | None => (Rejected, db)
  | Some c =>
      match cycleUpdateOf rc st c with
      | None => (Rejected, db)
      | Some c' =>
          if optUserExists db (Cycle.recipientUserId c')
          then (Resolved c',
                set_cycles db (map (fun r => if Cycle.id r =? i then c' else r) (cycles db))
                  (nextCycleId db))
          else (Rejected, db)
      end
  end.
Proof.
  unfold cycle_update, cycleUpdateOf. cbv beta iota delta [bind ret required query].
  destruct (findCycle db i) as [c|] eqn:F; [|reflexivity].
  unfold findCycle in F. rewrite (find_id_eq Cycle.id _ _ _ F).
  destruct rc; try reflexivity; destruct st; reflexivity.
Qed.

Lemma wf_membership_user db u g m :
  wf db = true -> membershipOf db u g = Some m -> userExists db u = true.
Proof.
  intros Hwf Hm. apply wf_foreignKeys in Hwf. unfold foreignKeys in Hwf.
  rewrite !andb_true_iff in Hwf. destruct Hwf as [[Hfk _] _].
  apply find_some in Hm. destruct Hm as [Hin Hm].
  apply isMembership_spec in Hm. destruct Hm as [<- _].
  rewrite forallb_forall in Hfk. specialize (Hfk m Hin).
  now apply andb_true_iff in Hfk.
Qed.

Lemma cycleUpdateOf_id a st c c' :
  cycleUpdateOf a st c = Some c' -> Cycle.id c' = Cycle.id c.
Proof.
  unfold cycleUpdateOf.
  destruct (updNullableValue a (Cycle.recipientUserId c)),
    (updRequiredValue st (Cycle.status c)); try discriminate.
  now intros [= <-].
Qed.

(* ================================================================= *)
(** ** Properties of the handlers *)

Section Properties.
Context {rt : JsRuntime}.

(** *** Cycles: [POST /groups/:groupId/cycles] *)

(** The handler in closed form, for an admin of the Group. *)
Lemma createCycle_eq_arg req now db user g m :
  authMiddleware req = inr user ->
  argInt (parseInt (Some (JStr (param req)))) = Value g ->
  membershipOf db (jwt_userId user) g = Some m ->
  Membership.role m = "admin" ->
  forallb (fun m => userExists db (Membership.userId m)) (memberships db) = true ->
  forallb (fun g => finiteOpt (Group.contribution g)) (groups db) = true ->
  createCycle req now db =
    match requestedCycle req (nextCycleId db) now with
    | None => (mkResponse 500 (BError "Failed to create cycle"), db)
    | Some c =>
        if groupExists db g && optUserExists db (Cycle.recipientUserId c)
        then (mkResponse 201
                (BCycleCreated c "Cycle and payment records created successfully."),
              set_payments (set_cycles db (cycles db ++ [c]) (nextCycleId db + 1))
                (payments db
                 ++ fanOut (nextPaymentId db) (Cycle.id c)
                      (groupContributionOf (findGroup db g)) (membersOf db g))
                (nextPaymentId db + Z.of_nat (List.length (membersOf db g))))
        else (mkResponse 500 (BError "Failed to create cycle"),
              set_cycles db (cycles db) (nextCycleId db + 1))
    end.
Proof.
  intros Hauth Hg Hm Hrole Husers Hfin.
  unfold createCycle, authenticated. rewrite Hauth.
  unfold tryCatch, requestedCycle.
  rewrite Hg.
  unfold bind at 1. unfold membership_findUnique_userId_groupId.
  cbn [required bind ret query].
  unfold membershipOf in Hm. rewrite Hm, Hrole. cbn [String.eqb Ascii.eqb Bool.eqb negb].
  unfold bind at 1. rewrite cycle_create_eq.
  destruct (cycleRowOf _ _ _ _ _ _ _ _) as [c|] eqn:Hc; [|reflexivity].
  destruct (cycleRowOf_Some _ _ _ _ _ _ _ _ _ Hc) as (Hid & Hgc & _).
  cbn [argValue] in Hgc. injection Hgc as Hgc. rewrite <- Hgc.
  destruct (groupExists db g && optUserExists db (Cycle.recipientUserId c));
    [|reflexivity].
  unfold membership_findMany_groupId, group_findUnique, payment_createMany.
  cbn [required bind ret query set_cycles memberships groups nextPaymentId payments].
  fold (membersOf db g). fold (findGroup db g).
  unfold argFloat. rewrite (groupContribution_finite _ _ Hfin).
  unfold bind. cbn beta. cbn [set_cycles nextPaymentId payments].
  rewrite paymentRows_fanOut, fanOut_foreignKeys.
  - rewrite fanOut_length. reflexivity.
  - unfold cycleExists. cbn [cycles]. apply existsb_app_r. apply Z.eqb_refl.
  - apply forallb_filter. exact Husers.
Qed.

Lemma createCycle_eq req now db user g m :
  authMiddleware req = inr user ->
  toInt32 (parseInt (Some (JStr (param req)))) = Some g ->
  membershipOf db (jwt_userId user) g = Some m ->
  Membership.role m = "admin" ->
  forallb (fun m => userExists db (Membership.userId m)) (memberships db) = true ->
  forallb (fun g => finiteOpt (Group.contribution g)) (groups db) = true ->
  createCycle req now db =
    match requestedCycle req (nextCycleId db) now with
    | None => (mkResponse 500 (BError "Failed to create cycle"), db)
    | Some c =>
        if groupExists db g && optUserExists db (Cycle.recipientUserId c)
        then (mkResponse 201
                (BCycleCreated c "Cycle and payment records created successfully."),
              set_payments (set_cycles db (cycles db ++ [c]) (nextCycleId db + 1))
                (payments db
                 ++ fanOut (nextPaymentId db) (Cycle.id c)
                      (groupContributionOf (findGroup db g)) (membersOf db g))
                (nextPaymentId db + Z.of_nat (List.length (membersOf db g))))
        else (mkResponse 500 (BError "Failed to create cycle"),
              set_cycles db (cycles db) (nextCycleId db + 1))
    end.
Proof.
  intros Hauth Hg. exact (createCycle_eq_arg req now db user g m Hauth (argInt_Value _ _ Hg)).
Qed.

(** C1 (as amended).  For every Cycle-creation call by an admin of a Group
    with N current Memberships: the call either creates no row at all (500,
    when the store refuses the Cycle) or creates one Cycle and exactly N
    Payments for it, one per Membership, each unpaid and
    each of amount [group.contribution || 100]: the contribution when it is
    neither null nor zero, and 100 otherwise.  The Payments of the new Cycle
    are these N and no other.  The call answers 201 exactly when the request
    describes a valid Cycle row whose recipient, if any, is a User; the
    Cycle has the integer part of [Number(cycleIndex)] for its index, and
    for its recipient that of [Number(recipientUserId)] when the value is
    truthy, null when it is not or when it is no number. *)
Theorem createCycle_fan_out (req : Request) (now : DateTime) (db : DB)
    (user : JwtPayload) (g : Z) :
  wf db = true ->
  authMiddleware req = inr user ->
  toInt32 (parseInt (Some (JStr (param req)))) = Some g ->
  isAdmin db (jwt_userId user) g = true ->
  let members := membersOf db g in
  let amount := groupContributionOf (findGroup db g) in
  let r := createCycle req now db in
  (status (fst r) = 201 <->
   exists c, requestedCycle req (nextCycleId db) now = Some c
             /\ optUserExists db (Cycle.recipientUserId c) = true)
  /\ ((status (fst r) = 500
       /\ cycles (snd r) = cycles db /\ payments (snd r) = payments db)
      \/ (exists c rows,
            fst r = mkResponse 201
                      (BCycleCreated c "Cycle and payment records created successfully.")
            /\ Cycle.groupId c = g
            /\ Cycle.id c = nextCycleId db
            /\ truncate (Number (field "cycleIndex" (body req)))
               = Some (Cycle.cycleIndex c)
            /\ Cycle.recipientUserId c
               = (if truthy (field "recipientUserId" (body req))
                  then truncate (Number (field "recipientUserId" (body req)))
                  else None)
            /\ cycles (snd r) = (cycles db ++ [c])%list
            /\ payments (snd r) = (payments db ++ rows)%list
            /\ filter (fun p => Payment.cycleId p =? Cycle.id c) (payments (snd r)) = rows
            /\ List.length rows = List.length members
            /\ Permutation (map Payment.userId rows) (map Membership.userId members)
            /\ Forall (fun p => Payment.cycleId p = Cycle.id c
                                /\ Payment.amount p = amount
                                /\ Payment.paid p = false
                                /\ Payment.paidAt p = None) rows)).
Proof.
  intros Hwf Hauth Hg Hadm members amount r.
  destruct (isAdmin_inv _ _ _ Hadm) as (m & Hm & Hrole).
  subst r. rewrite (createCycle_eq req now db user g m Hauth Hg Hm Hrole
                      (wf_member_users _ Hwf) (wf_finite_contributions _ Hwf)).
  rewrite (wf_membership_group _ _ _ _ Hwf Hm). cbn [andb].
  destruct (requestedCycle req (nextCycleId db) now) as [c|] eqn:Hc.
  2:{ split; [|left; auto]. cbn. split; [discriminate|]. intros (c & [=] & _). }
  destruct (optUserExists db (Cycle.recipientUserId c)) eqn:Hu.
  2:{ split; [|left; auto]. cbn. split; [discriminate|].
      intros (c' & [= <-] & Hu'). congruence. }
  split.
  { cbn. split; [|reflexivity]. intros _. exists c. auto. }
  right. exists c, (fanOut (nextPaymentId db) (Cycle.id c) amount members).
  unfold requestedCycle in Hc.
  destruct (cycleRowOf_Some _ _ _ _ _ _ _ _ _ Hc) as (Hid & Hgc & Hci & _).
  pose proof (ifTruthy_int_optional _ _ _ (cycleRowOf_recipient _ _ _ _ _ _ _ _ _ Hc))
    as Hrc.
  apply argInt_truncate in Hci.
  rewrite (argInt_Value _ _ Hg) in Hgc. cbn [argValue] in Hgc. injection Hgc as Hgc.
  cbn [fst snd set_payments set_cycles cycles payments].
  repeat split; auto using fanOut_length, fanOut_rows.
  2:{ rewrite fanOut_userIds. apply Permutation_refl. }
  rewrite filter_app, Hid, (wf_no_payment_of_next_cycle _ Hwf). cbn [app].
  apply filter_all. rewrite forallb_forall. intros p Hp.
  pose proof (fanOut_rows (nextPaymentId db) (nextCycleId db) amount members) as Hr.
  rewrite Forall_forall in Hr. destruct (Hr p Hp) as (-> & _). apply Z.eqb_refl.
Qed.

(** C9.  Cycle creation is not idempotent: when a creation call by an admin
    succeeds, the same request made again succeeds again; the two calls leave
    two Cycle rows with different ids and the same group, [cycleIndex], dates,
    recipient and status (nothing checks the index), and N Payments each,
    2N in all, N being the number of Memberships of the Group. *)
Theorem createCycle_not_idempotent (req : Request) (now1 now2 : DateTime)
    (db : DB) (user : JwtPayload) (g : Z) :
  wf db = true ->
  authMiddleware req = inr user ->
  toInt32 (parseInt (Some (JStr (param req)))) = Some g ->
  isAdmin db (jwt_userId user) g = true ->
  status (fst (createCycle req now1 db)) = 201 ->
  let r1 := createCycle req now1 db in
  let r2 := createCycle req now2 (snd r1) in
  let N := List.length (membersOf db g) in
  exists c1 c2 rows1 rows2,
    fst r1 = mkResponse 201 (BCycleCreated c1 "Cycle and payment records created successfully.")
    /\ fst r2 = mkResponse 201 (BCycleCreated c2 "Cycle and payment records created successfully.")
    /\ Cycle.id c1 <> Cycle.id c2
    /\ Cycle.groupId c1 = g /\ Cycle.groupId c2 = g
    /\ Cycle.cycleIndex c2 = Cycle.cycleIndex c1
    /\ Cycle.startDate c2 = Cycle.startDate c1
    /\ Cycle.endDate c2 = Cycle.endDate c1
    /\ Cycle.recipientUserId c2 = Cycle.recipientUserId c1
    /\ Cycle.status c2 = Cycle.status c1
    /\ cycles (snd r2) = (cycles db ++ [c1; c2])%list
    /\ payments (snd r2) = (payments db ++ rows1 ++ rows2)%list
    /\ List.length rows1 = N /\ List.length rows2 = N
    /\ List.length (rows1 ++ rows2)%list = (2 * N)%nat
    /\ Forall (fun p => Payment.cycleId p = Cycle.id c1) rows1
    /\ Forall (fun p => Payment.cycleId p = Cycle.id c2) rows2.
Proof.
  intros Hwf Hauth Hg Hadm H201 r1 r2 N.
  destruct (isAdmin_inv _ _ _ Hadm) as (m & Hm & Hrole).
  pose proof (wf_member_users _ Hwf) as Hus.
  pose proof (wf_finite_contributions _ Hwf) as Hfin.
  pose proof (wf_membership_group _ _ _ _ Hwf Hm) as Hgr.
  subst r2 r1. revert H201.
  rewrite (createCycle_eq req now1 db user g m Hauth Hg Hm Hrole Hus Hfin).
  rewrite Hgr. cbn [andb].
  destruct (requestedCycle req (nextCycleId db) now1) as [c1|] eqn:Hc1;
    [|cbn; discriminate].
  destruct (optUserExists db (Cycle.recipientUserId c1)) eqn:Hu1; [|cbn; discriminate].
  intros _. cbn [fst snd].
  set (db1 := set_payments _ _ _).
  rewrite (createCycle_eq req now2 db1 user g m Hauth Hg Hm Hrole Hus Hfin).
  unfold requestedCycle in Hc1 |- *.
  rewrite (cycleRowOf_renumber _ _ _ _ _ _ _ _ (nextCycleId db1) now2 _ Hc1).
  destruct (cycleRowOf_Some _ _ _ _ _ _ _ _ _ Hc1) as (Hid & Hgc & _).
  rewrite (argInt_Value _ _ Hg) in Hgc. cbn [argValue] in Hgc. injection Hgc as Hgc.
  change (groupExists db1 g) with (groupExists db g).
  cbn [Cycle.recipientUserId].
  change (optUserExists db1 (Cycle.recipientUserId c1))
    with (optUserExists db (Cycle.recipientUserId c1)).
  rewrite Hgr, Hu1. cbn [andb fst snd].
  change (findGroup db1 g) with (findGroup db g).
  change (membersOf db1 g) with (membersOf db g).
  change (nextCycleId db1) with (nextCycleId db + 1).
  change (nextPaymentId db1)
    with (nextPaymentId db + Z.of_nat (List.length (membersOf db g))).
  change (cycles db1) with (cycles db ++ [c1])%list.
  change (payments db1)
    with (payments db ++ fanOut (nextPaymentId db) (Cycle.id c1)
                           (groupContributionOf (findGroup db g)) (membersOf db g))%list.
  clearbody db1.
  exists c1.
  exists (Cycle.mk (nextCycleId db + 1) (Cycle.groupId c1) (Cycle.cycleIndex c1)
            (Cycle.startDate c1) (Cycle.endDate c1) (Cycle.recipientUserId c1)
            (Cycle.status c1) now2).
  exists (fanOut (nextPaymentId db) (Cycle.id c1)
            (groupContributionOf (findGroup db g)) (membersOf db g)).
  exists (fanOut (nextPaymentId db + Z.of_nat (List.length (membersOf db g)))
            (nextCycleId db + 1)
            (groupContributionOf (findGroup db g)) (membersOf db g)).
  cbn [Cycle.id Cycle.groupId Cycle.cycleIndex Cycle.startDate Cycle.endDate
       Cycle.recipientUserId Cycle.status set_payments set_cycles cycles payments].
  repeat split; auto using fanOut_length.
  - rewrite Hid. lia.
  - now rewrite <- app_assoc.
  - now rewrite <- app_assoc.
  - rewrite length_app, !fanOut_length. subst N. lia.
  - eapply Forall_impl; [|apply fanOut_rows]. cbn. tauto.
  - eapply Forall_impl; [|apply fanOut_rows]. cbn. tauto.
Qed.

(** *** Users: [POST /users] *)

(** The handler in closed form. *)
Lemma createUser_eq req now db :
  createUser req now db =
    match requestedUser req (nextUserId db) now with
    | None => (mkResponse 500 (BError "Failed to create user"), db)
    | Some u =>
        if existsb (fun r => String.eqb (User.email r) (User.email u)) (users db)
        then (mkResponse 500 (BError "Failed to create user"),
              set_users db (users db) (nextUserId db + 1))
        else (mkResponse 201 (BObject (omitKey "password" (userObject u))),
              set_users db (users db ++ [u]) (nextUserId db + 1))
    end.
Proof.
  unfold createUser, requestedUser, tryCatch, user_create.
  destruct (field "email" (body req)) as [[| | |e| |]|]; try reflexivity.
  cbv beta iota delta [bind ret required].
  destruct (field "password" (body req)) as [[| | |pw| |]|]; try reflexivity.
  cbv beta iota delta [bind ret required argString optional].
  destruct (field "name" (body req)) as [[| | |n| |]|];
    destruct (field "phone" (body req)) as [[| | |ph| |]|]; try reflexivity;
    cbv beta iota delta [bind ret throw optionalValue]; cbn [User.email];
    destruct (existsb _ (users db)); reflexivity.
Qed.

(** C7 (what the code does).  A registration that succeeds stores the
    password exactly as it was supplied, no hash is computed, and answers
    with the created user without its [password] key. *)
Theorem createUser_stores_password_verbatim (req : Request) (now : DateTime) (db : DB) :
  let r := createUser req now db in
  status (fst r) = 201 ->
  exists u pw,
    field "password" (body req) = Some (JStr pw)
    /\ users (snd r) = (users db ++ [u])%list
    /\ User.password u = pw
    /\ fst r = mkResponse 201 (BObject (omitKey "password" (userObject u)))
    /\ map fst (omitKey "password" (userObject u))
       = ["id"; "email"; "name"; "phone"; "pushToken"; "createdAt"; "updatedAt"].
Proof.
  intros r. subst r. rewrite createUser_eq.
  destruct (requestedUser req (nextUserId db) now) as [u|] eqn:Hu; [|cbn; discriminate].
  destruct (existsb _ (users db)); [cbn; discriminate|]. intros _.
  unfold requestedUser in Hu.
  destruct (field "email" (body req)) as [[| | |e| |]|]; try discriminate.
  destruct (field "password" (body req)) as [[| | |pw| |]|]; try discriminate.
  destruct (optionalValue (argString (field "name" (body req)))); try discriminate.
  destruct (optionalValue (argString (field "phone" (body req)))); try discriminate.
  injection Hu as <-. exists (User.mk (nextUserId db) (toLowerCase e) pw o o0 None now now), pw.
  repeat split.
Qed.

(** *** Groups: [PUT /groups/:groupId] *)





(** *** Memberships: [DELETE /memberships/:membershipId] *)

(** The handler in closed form, for an existing Membership. *)
Lemma deleteMembership_eq req now db user i m :
  authMiddleware req = inr user ->
  toInt32 (parseInt (Some (JStr (param req)))) = Some i ->
  find (fun r => Membership.id r =? i) (memberships db) = Some m ->
  deleteMembership req now db =
    if (Membership.userId m =? jwt_userId user)
       || isAdmin db (jwt_userId user) (Membership.groupId m)
    then (mkResponse 200 (BMessage "Member removed successfully"),
          withoutMembership i
            (withoutPayments (Membership.userId m) (Membership.groupId m) db))
    else (mkResponse 403 (BError "Only group admins can remove other members"), db).
Proof.
  intros Hauth Hi Hm.
  unfold deleteMembership, authenticated. rewrite Hauth.
  unfold tryCatch, deleteMembershipAwaits. rewrite !(argInt_Value _ _ Hi).
  cbn [complete]. unfold bind at 1. unfold membership_findUnique.
  cbn [required bind ret query]. rewrite Hm.
  unfold isAdmin, membershipOf.
  destruct (Membership.userId m =? jwt_userId user); cbn [negb orb complete].
  - unfold payment_deleteMany_userId_cycleGroupId, membership_delete.
    cbv beta iota delta [bind ret required]. cbn [set_payments memberships].
    rewrite Hm. reflexivity.
  - unfold membership_findUnique_userId_groupId.
    cbv beta iota delta [bind ret query required].
    destruct (find (isMembership _ _) _) as [um|]; [|reflexivity].
    destruct (String.eqb (Membership.role um) "admin"); [|reflexivity].
    cbn [negb complete].
    unfold payment_deleteMany_userId_cycleGroupId, membership_delete.
    cbv beta iota delta [bind ret required]. cbn [set_payments memberships].
    rewrite Hm. reflexivity.
Qed.

Lemma authMiddleware_rejects req r :
  authMiddleware req = inl r -> status r = 401 /\ exists e, json r = BError e.
Proof.
  unfold authMiddleware.
  destruct (authorization req) as [h|]; [|intros [= <-]; cbn; eauto].
  destruct (String.eqb h ""); [intros [= <-]; cbn; eauto|].
  destruct (nth_error _ 1) as [t|]; [|intros [= <-]; cbn; eauto].
  destruct (String.eqb t ""); [intros [= <-]; cbn; eauto|].
  destruct (jwtVerify t); [discriminate|intros [= <-]; cbn; eauto].
Qed.

(** What [GET /cycles/:cycleId/payments] lists, when it lists. *)
Lemma listPayments_lists req now db ps :
  json (fst (listPayments req now db)) = BPayments ps ->
  exists cid,
    argInt (parseInt (Some (JStr (param req)))) = Value cid
    /\ map PaymentWithUserCycle.payment ps
       = filter (fun p => Payment.cycleId p =? cid) (payments db).
Proof.
  unfold listPayments, authenticated.
  destruct (authMiddleware req) as [r|user] eqn:Hauth.
  { destruct (authMiddleware_rejects _ _ Hauth) as (_ & e & He). cbn. rewrite He.
    discriminate. }
  unfold tryCatch, cycle_findUnique, membership_findUnique_userId_groupId,
    payment_findMany_cycleId.
  destruct (argInt _) as [| |cid|]; try (cbn; discriminate).
  cbv beta iota delta [bind ret query required].
  destruct (findCycle db cid) as [c|]; [|cbn; discriminate].
  destruct (find (isMembership _ _) _); [|cbn; discriminate].
  cbn [fst json]. intros [= <-]. exists cid. split; [reflexivity|].
  rewrite map_map. cbn [PaymentWithUserCycle.payment]. apply map_id.
Qed.

(** *** Cycles: [PUT /cycles/:cycleId] *)

(** The handler in closed form, for an existing Cycle. *)
Lemma updateCycle_eq req now db user c :
  authMiddleware req = inr user ->
  toInt32 (parseInt (Some (JStr (param req)))) = Some (Cycle.id c) ->
  findCycle db (Cycle.id c) = Some c ->
  updateCycle req now db =
    if isAdmin db (jwt_userId user) (Cycle.groupId c) then
      match requestedRecipient req with
      | None => (mkResponse 500 (BError "Failed to update cycle"), db)
      | Some a =>
          if truthy (field "recipientUserId" (body req)) then
            match a with
            | Value ru =>
                match membershipOf db ru (Cycle.groupId c) with
                | Some _ => updateResult db c a (requestedStatus req)
                | None =>
                    (mkResponse 400 (BError "Recipient must be a member of the group"),
                     db)
                end
            | _ => (mkResponse 500 (BError "Failed to update cycle"), db)
            end
          else updateResult db c a (requestedStatus req)
      end
    else (mkResponse 403 (BError "Only group admins can update cycles"), db).
Proof.
  intros Hauth Hid Hc.
  unfold updateCycle, authenticated. rewrite Hauth.
  unfold tryCatch, cycle_findUnique, membership_findUnique_userId_groupId,
    requestedRecipient, requestedStatus, recipientIdOf, isAdmin, membershipOf,
    updateResult, group_findUnique.
  rewrite (argInt_Value _ _ Hid).
  cbv beta iota delta [bind ret required query]. rewrite Hc.
  destruct (find (isMembership _ _) _) as [m|]; [|reflexivity].
  destruct (String.eqb (Membership.role m) "admin"); [|reflexivity]. cbn [negb].
  destruct (truthy (field "recipientUserId" (body req))) eqn:Ht.
  - destruct (field "recipientUserId" (body req)) as [j|]; [|reflexivity].
    destruct (toStringOf j) as [s|]; [|reflexivity].
    cbv beta iota delta [bind ret required throw].
    destruct (argInt (parseInt (Some (JStr s)))) as [| |ru|]; try reflexivity.
    destruct (find (isMembership ru _) _); [|reflexivity].
    rewrite cycle_update_eq, Hc.
    destruct (cycleUpdateOf _ _ c) as [c'|]; [|reflexivity].
    destruct (optUserExists db _); reflexivity.
  - cbv beta iota delta [bind ret required throw].
    rewrite cycle_update_eq, Hc.
    destruct (cycleUpdateOf _ _ c) as [c'|]; [|reflexivity].
    destruct (optUserExists db _); reflexivity.
Qed.

Lemma requestedStatus_cases req :
  (truthy (field "status" (body req)) = false /\ requestedStatus req = Undefined)
  \/ (exists s, field "status" (body req) = Some (JStr s) /\ s <> ""
                /\ requestedStatus req = Value s)
  \/ (truthy (field "status" (body req)) = true /\ requestedStatus req = Invalid).
Proof.
  unfold requestedStatus.
  destruct (truthy (field "status" (body req))) eqn:Ht; [|now left].
  right. destruct (field "status" (body req)) as [[| | |s| |]|]; cbn in *;
    try discriminate; try (right; split; reflexivity).
  left. exists s. repeat split. intros ->. discriminate.
Qed.

(** C4 (as amended).  For an existing Cycle and an authenticated caller:
    the update succeeds only for an admin of the Cycle's Group, anyone else
    gets 403 and nothing changes; a truthy [recipientUserId] that parses to a
    user id with no Membership of the Group is rejected with 400, nothing
    changed; a falsy one ([0], [""], [false], [null]) is not looked up and
    clears the recipient, as an omitted one does; a non-empty string [status]
    is written as it is, whatever the stored status (completed to active
    included). *)
Theorem updateCycle_rules (req : Request) (now : DateTime) (db : DB)
    (user : JwtPayload) (c : Cycle.t) :
  wf db = true ->
  authMiddleware req = inr user ->
  toInt32 (parseInt (Some (JStr (param req)))) = Some (Cycle.id c) ->
  findCycle db (Cycle.id c) = Some c ->
  let r := updateCycle req now db in
  let g := Cycle.groupId c in
  let admin := isAdmin db (jwt_userId user) g in
  let recipientUserId := field "recipientUserId" (body req) in
  (* only admins succeed *)
  (status (fst r) = 200 -> admin = true)
  /\ (admin = false ->
      fst r = mkResponse 403 (BError "Only group admins can update cycles")
      /\ snd r = db)
  (* a truthy recipientUserId must be the user of a Membership of the Group *)
  /\ (forall ru,
        admin = true -> truthy recipientUserId = true ->
        requestedRecipient req = Some (Value ru) ->
        membershipOf db ru g = None ->
        fst r = mkResponse 400 (BError "Recipient must be a member of the group")
        /\ snd r = db)
  (* a falsy one is not looked up: the recipient is cleared *)
  /\ (admin = true -> truthy recipientUserId = false ->
      requestedStatus req <> Invalid ->
      status (fst r) = 200
      /\ findCycle (snd r) (Cycle.id c)
         = Some (withRecipientStatus c None (statusAfter req (Cycle.status c))))
  (* a string status is written as it is, whatever the status was *)
  /\ (forall s ru,
        admin = true ->
        field "status" (body req) = Some (JStr s) -> s <> "" ->
        requestedRecipient req = Some (Value ru) ->
        membershipOf db ru g <> None ->
        status (fst r) = 200
        /\ findCycle (snd r) (Cycle.id c) = Some (withRecipientStatus c (Some ru) s)).
Proof.
  intros Hwf Hauth Hid Hc r g admin rid. subst r.
  rewrite (updateCycle_eq req now db user c Hauth Hid Hc). fold g admin rid.
  assert (forall a st c', cycleUpdateOf a st c = Some c' ->
            optUserExists db (Cycle.recipientUserId c') = true ->
            status (fst (updateResult db c a st)) = 200
            /\ findCycle (snd (updateResult db c a st)) (Cycle.id c) = Some c') as Hupd.
  { intros a st c' Hc' Hu. unfold updateResult. rewrite Hc', Hu. cbn. split; [reflexivity|].
    unfold findCycle in *. apply find_map_replace with (key := Cycle.id) (a := c);
      [exact (cycleUpdateOf_id _ _ _ _ Hc') | exact Hc]. }
  split; [destruct admin; [reflexivity | cbn; discriminate]|].
  split; [intros ->; auto|].
  split.
  { intros ru -> Ht Hr Hm. rewrite Hr, Ht, Hm. auto. }
  split.
  { intros -> Ht Hst. unfold requestedRecipient. fold rid. rewrite Ht.
    apply Hupd; [|reflexivity]. unfold cycleUpdateOf, statusAfter. cbn [updNullableValue].
    destruct (requestedStatus_cases req) as [[_ E]|[(s & _ & _ & E)|[_ E]]];
      rewrite E in *; try reflexivity. congruence. }
  intros s ru -> Hs Hne Hr Hm. rewrite Hr.
  destruct (membershipOf db ru g) as [m|] eqn:Hmem; [|congruence].
  assert (requestedStatus req = Value s) as Hst.
  { unfold requestedStatus. rewrite Hs. cbn.
    destruct (String.eqb s "") eqn:E; [apply String.eqb_eq in E; congruence|reflexivity]. }
  assert (status (fst (updateResult db c (Value ru) (requestedStatus req))) = 200
          /\ findCycle (snd (updateResult db c (Value ru) (requestedStatus req)))
               (Cycle.id c) = Some (withRecipientStatus c (Some ru) s)) as Hres.
  { apply Hupd; [rewrite Hst; reflexivity|]. cbn.
    exact (wf_membership_user _ _ _ _ Hwf Hmem). }
  destruct (truthy rid); exact Hres.
Qed.



(** *** Memberships: [POST /memberships] *)

(** The handler in closed form. *)
Lemma createMembership_eq req now db :
  createMembership req now db =
    match requestedMembership req (nextMembershipId db) now with
    | None => (mkResponse 500 (BError "Failed to create membership"), db)
    | Some m =>
        if userExists db (Membership.userId m) && groupExists db (Membership.groupId m)
           && negb (existsb (isMembership (Membership.userId m) (Membership.groupId m))
                      (memberships db))
        then (mkResponse 201 (BMembership m),
              set_memberships db (memberships db ++ [m]) (nextMembershipId db + 1))
        else (mkResponse 500 (BError "Failed to create membership"),
              set_memberships db (memberships db) (nextMembershipId db + 1))
    end.
Proof.
  unfold createMembership, requestedMembership, tryCatch, membership_create.
  destruct (argInt (parseInt (field "userId" (body req)))) as [| |u|]; try reflexivity.
  destruct (argInt (parseInt (field "groupId" (body req)))) as [| |g|]; try reflexivity.
  destruct (orElse (field "role" (body req)) (JStr "member")) as [| | |r| |];
    try reflexivity.
  cbv beta iota delta [bind ret required withDefault argString argValue].
  cbn [Membership.userId Membership.groupId].
  destruct (userExists db u && groupExists db g && _); reflexivity.
Qed.

(** C5 (as amended).  [POST /memberships] checks nothing about the caller:
    it never answers 401 or 403 and its result does not depend on the
    [Authorization] header, so a request with no valid identity is served
    like any other.  It creates the Membership row, with the role defaulting
    to ["member"], exactly when the store accepts it: [userId] and [groupId]
    parse to the ids of an existing User and Group that have no Membership
    yet.  Otherwise it answers 500 and creates no row. *)
Theorem createMembership_no_authorization (req : Request) (now : DateTime) (db : DB) :
  let r := createMembership req now db in
  (* never an authorization error, and the token is not even read *)
  (status (fst r) = 201 \/ status (fst r) = 500)
  /\ (forall h, createMembership (mkRequest h (param req) (body req)) now db = r)
  (* the row is created exactly when the store accepts it *)
  /\ (status (fst r) = 201 <->
      exists m, requestedMembership req (nextMembershipId db) now = Some m
                /\ userExists db (Membership.userId m) = true
                /\ groupExists db (Membership.groupId m) = true
                /\ membershipOf db (Membership.userId m) (Membership.groupId m) = None)
  /\ (forall m, requestedMembership req (nextMembershipId db) now = Some m ->
        status (fst r) = 201 ->
        fst r = mkResponse 201 (BMembership m)
        /\ memberships (snd r) = (memberships db ++ [m])%list)
  /\ (status (fst r) = 500 -> memberships (snd r) = memberships db).
Proof.
  intros r. subst r.
  assert (forall u g, existsb (isMembership u g) (memberships db) = false
                      <-> membershipOf db u g = None) as Hex.
  { intros u g. unfold membershipOf. split.
    - intros He. destruct (find _ _) as [m|] eqn:F; [|reflexivity].
      apply find_some in F. destruct F as [Hin Hm].
      assert (existsb (isMembership u g) (memberships db) = true)
        by (apply existsb_exists; eauto). congruence.
    - intros F. apply not_true_is_false. intros He. apply existsb_exists in He.
      destruct He as (m & Hin & Hm). apply (find_none _ _ F) in Hin. congruence. }
  split; [|split].
  - rewrite createMembership_eq.
    destruct (requestedMembership _ _ _); [|cbn; auto].
    destruct (_ && _); cbn; auto.
  - intros h. reflexivity.
  - rewrite createMembership_eq.
    destruct (requestedMembership req (nextMembershipId db) now) as [m|].
    2:{ cbn. repeat split; try discriminate; auto. intros (m & [=] & _). }
    destruct (userExists db (Membership.userId m)) eqn:Hu;
      destruct (groupExists db (Membership.groupId m)) eqn:Hg;
      destruct (existsb (isMembership (Membership.userId m) (Membership.groupId m))
                  (memberships db)) eqn:He; cbn.
    all: repeat split; try discriminate; auto.
    all: try (intros (m' & [= <-] & Hu' & Hg' & Hm'); apply Hex in Hm'; congruence).
    all: try (intros m' [= <-]; auto).
    all: try (intros; congruence).
    intros _. exists m. repeat split; auto. now apply Hex.
Qed.

(** *** Payments: [PUT /payments/:paymentId/pay] *)

(** C6.  For every Payment [p] of the store and every authenticated caller
    (whoever it is: no hypothesis relates [user] to [p] or to its Group),
    marking [p] paid answers 200 with [p] carrying [paid = true] and
    [paidAt = now], rewrites that row and nothing else, and does so whatever
    [paid] and [paidAt] were before: an already paid Payment stays paid and
    has its [paidAt] overwritten. *)
Theorem markPaid_unconditional (req : Request) (now : DateTime) (db : DB)
    (user : JwtPayload) (p : Payment.t) :
  wf db = true ->
  authMiddleware req = inr user ->
  toInt32 (parseInt (Some (JStr (param req)))) = Some (Payment.id p) ->
  In p (payments db) ->
  let db' :=
    set_payments db
      (map (fun r => if Payment.id r =? Payment.id p then paidAt_now p now else r)
           (payments db))
      (nextPaymentId db) in
  markPaid req now db = (mkResponse 200 (BPayment (paidAt_now p now)), db')
  /\ find (fun r => Payment.id r =? Payment.id p) (payments db')
     = Some (paidAt_now p now)
  /\ Payment.paid (paidAt_now p now) = true
  /\ Payment.paidAt (paidAt_now p now) = Some now.
Proof.
  intros Hwf Hauth Hid Hin db'.
  assert (find (fun r => Payment.id r =? Payment.id p) (payments db) = Some p) as Hf.
  { apply find_by_id with (key := Payment.id); [|assumption].
    apply wf_primaryKeys in Hwf. unfold primaryKeys in Hwf.
    rewrite !andb_true_iff in Hwf. tauto. }
  repeat split.
  - unfold markPaid, authenticated. rewrite Hauth.
    unfold tryCatch, payment_update. rewrite (argInt_Value _ _ Hid).
    unfold bind, required, query, ret. simpl. rewrite Hf. reflexivity.
  - subst db'. simpl.
    now apply find_map_replace with (key := Payment.id) (a := p).
Qed.

End Properties.

(* ================================================================= *)
(** ** The theorems at work on [db0] *)

(** C1, witness: Alice creates a cycle in her group of three. *)
Lemma createCycle_fan_out_witness :
  wf db0 = true
  /\ authMiddleware (rt := stub) newCycleRequest = inr alice
  /\ toInt32 (parseInt (JsRuntime := stub) (Some (JStr (param newCycleRequest)))) = Some 1
  /\ isAdmin db0 1 1 = true
  /\ exists c rows,
       fst (createCycle (rt := stub) newCycleRequest 5000 db0)
       = mkResponse 201 (BCycleCreated c "Cycle and payment records created successfully.")
       /\ payments (snd (createCycle (rt := stub) newCycleRequest 5000 db0))
          = (payments db0 ++ rows)%list
       /\ List.length rows = 3%nat
       /\ Forall (fun p => Payment.cycleId p = 2 /\ Payment.amount p = 50%float
                           /\ Payment.paid p = false) rows.
Proof.
  pose proof (@createCycle_fan_out stub newCycleRequest 5000 db0 alice 1
                eq_refl eq_refl eq_refl eq_refl) as H.
  cbv zeta in H. destruct H as [_ [H|H]].
  { destruct H as [H _]. vm_compute in H. discriminate. }
  destruct H as (c & rows & Hr & _ & Hid & _ & _ & _ & Hp & _ & Hlen & _ & Hrows).
  do 4 (split; [reflexivity|]).
  exists c, rows. split; [exact Hr|]. split; [exact Hp|]. split; [exact Hlen|].
  eapply Forall_impl; [|exact Hrows]. cbn beta. intros p (H1 & H2 & H3 & _).
  rewrite H1, H2, Hid. repeat split; assumption.
Defined.

(** C1, counterexample: a contribution of 0, which is not null, gives
    Payments of 100. *)
Lemma createCycle_zero_contribution_gets_default :
  exists p,
    updateGroup (rt := stub) zeroContributionRequest 4000 db0
    = (mkResponse 200 (BGroup friendsAtZero), dbZero)
    /\ wf dbZero = true
    /\ findGroup dbZero 2 = Some friendsAtZero
    /\ Group.contribution friendsAtZero = Some 0%float
    /\ isAdmin dbZero 1 2 = true
    /\ status (fst (createCycle (rt := stub) zeroGroupCycleRequest 5000 dbZero)) = 201
    /\ In p (payments (snd (createCycle (rt := stub) zeroGroupCycleRequest 5000 dbZero)))
    /\ Payment.cycleId p = 2
    /\ Payment.amount p = 100%float
    /\ Payment.amount p <> nullishContribution friendsAtZero.
Proof.
  exists (Payment.mk 4 2 1 100%float false None).
  do 6 (split; [reflexivity|]).
  split; [vm_compute; tauto|].
  do 2 (split; [reflexivity|]).
  intros H. apply (f_equal is_zero) in H. vm_compute in H. discriminate.
Qed.

(** C9, witness. *)
Lemma createCycle_not_idempotent_witness :
  wf db0 = true
  /\ authMiddleware (rt := stub) newCycleRequest = inr alice
  /\ toInt32 (parseInt (JsRuntime := stub) (Some (JStr (param newCycleRequest)))) = Some 1
  /\ isAdmin db0 1 1 = true
  /\ status (fst (createCycle (rt := stub) newCycleRequest 5000 db0)) = 201
  /\ exists c1 c2 rows1 rows2,
       Cycle.id c1 <> Cycle.id c2
       /\ Cycle.cycleIndex c2 = Cycle.cycleIndex c1
       /\ cycles (snd (createCycle (rt := stub) newCycleRequest 6000
                         (snd (createCycle (rt := stub) newCycleRequest 5000 db0))))
          = (cycles db0 ++ [c1; c2])%list
       /\ payments (snd (createCycle (rt := stub) newCycleRequest 6000
                           (snd (createCycle (rt := stub) newCycleRequest 5000 db0))))
          = (payments db0 ++ rows1 ++ rows2)%list
       /\ List.length (rows1 ++ rows2)%list = 6%nat.
Proof.
  pose proof (@createCycle_not_idempotent stub newCycleRequest 5000 6000 db0 alice 1
                eq_refl eq_refl eq_refl eq_refl eq_refl) as H.
  cbv zeta in H.
  destruct H as (c1 & c2 & rows1 & rows2 & _ & _ & Hne & _ & _ & Hci & _ & _ & _ & _
                 & Hc & Hp & _ & _ & Hlen & _).
  do 5 (split; [reflexivity|]).
  exists c1, c2, rows1, rows2. repeat split; assumption.
Defined.





(** C4, witness: Dave is in no group and cannot be made the recipient; the
    completed cycle is reopened. *)
Lemma updateCycle_rules_witness :
  wf db0 = true
  /\ authMiddleware (rt := stub) outsiderRecipientRequest = inr alice
  /\ toInt32 (parseInt (JsRuntime := stub) (Some (JStr (param outsiderRecipientRequest))))
     = Some (Cycle.id firstCycle)
  /\ findCycle db0 (Cycle.id firstCycle) = Some firstCycle
  /\ updateCycle (rt := stub) outsiderRecipientRequest 5000 db0
     = (mkResponse 400 (BError "Recipient must be a member of the group"), db0)
  /\ Cycle.status firstCycle = "completed"
  /\ status (fst (updateCycle (rt := stub) reopenRequest 5000 db0)) = 200
  /\ findCycle (snd (updateCycle (rt := stub) reopenRequest 5000 db0)) 1
     = Some (Cycle.mk 1 1 1 None None None "active" 0).
Proof.
  pose proof (@updateCycle_rules stub outsiderRecipientRequest 5000 db0 alice firstCycle
                eq_refl eq_refl eq_refl eq_refl) as H.
  pose proof (@updateCycle_rules stub reopenRequest 5000 db0 alice firstCycle
                eq_refl eq_refl eq_refl eq_refl) as H'.
  cbv zeta in H, H'. destruct H as (_ & _ & H & _). destruct H' as (_ & _ & _ & H' & _).
  do 4 (split; [reflexivity|]).
  split.
  { destruct (H 4 eq_refl eq_refl eq_refl eq_refl) as [Ha Hb].
    apply injective_projections; assumption. }
  split; [reflexivity|].
  assert (requestedStatus reopenRequest <> Invalid) as Hst
    by (vm_compute; discriminate).
  destruct (H' eq_refl eq_refl Hst) as [Ha Hb].
  split; [exact Ha|]. etransitivity; [exact Hb|]. reflexivity.
Defined.

(** C4, counterexample: a supplied recipient that is nobody's Membership is
    not rejected, and the recipient changes. *)
Lemma updateCycle_zero_recipient_accepted :
  field "recipientUserId" (body zeroRecipientRequest) = Some (JNum 0%float)
  /\ membershipOf db0 0 (Cycle.groupId firstCycle) = None
  /\ isAdmin db0 1 (Cycle.groupId firstCycle) = true
  /\ findCycle db0 1 = Some firstCycle
  /\ Cycle.recipientUserId firstCycle = Some 2
  /\ status (fst (updateCycle (rt := stub) zeroRecipientRequest 5000 db0)) = 200
  /\ findCycle (snd (updateCycle (rt := stub) zeroRecipientRequest 5000 db0)) 1
     = Some (Cycle.mk 1 1 1 None None None "completed" 0).
Proof. repeat split. Qed.


(** C5, counterexample: Bob is a member already; no row is created. *)
Lemma createMembership_duplicate_not_created :
  toInt32 (parseInt (JsRuntime := stub) (field "userId" (body addBobAgainRequest)))
  = Some 2
  /\ toInt32 (parseInt (JsRuntime := stub) (field "groupId" (body addBobAgainRequest)))
     = Some 1
  /\ userExists db0 2 = true /\ groupExists db0 1 = true
  /\ fst (createMembership (rt := stub) addBobAgainRequest 5000 db0)
     = mkResponse 500 (BError "Failed to create membership")
  /\ memberships (snd (createMembership (rt := stub) addBobAgainRequest 5000 db0))
     = memberships db0.
Proof. repeat split. Qed.

(** [POST /memberships] serves a request that carries no token. *)
Example createMembership_without_token :
  authorization addDaveRequest = None
  /\ createMembership (rt := stub) addDaveRequest 5000 db0
     = (mkResponse 201 (BMembership (Membership.mk 6 4 1 "member" 5000)),
        set_memberships db0
          (memberships db0 ++ [Membership.mk 6 4 1 "member" 5000]) 7).
Proof. split; reflexivity. Qed.

(** C7, witness: Eve's password is stored as she typed it. *)
Lemma createUser_stores_password_verbatim_witness :
  status (fst (createUser (rt := stub) registerRequest 5000 db0)) = 201
  /\ field "password" (body registerRequest) = Some (JStr "secret")
  /\ exists u,
       users (snd (createUser (rt := stub) registerRequest 5000 db0))
       = (users db0 ++ [u])%list
       /\ User.email u = "eve@example.com"
       /\ User.password u = "secret"
       /\ json (fst (createUser (rt := stub) registerRequest 5000 db0))
          = BObject (omitKey "password" (userObject u)).
Proof.
  destruct (@createUser_stores_password_verbatim stub registerRequest 5000 db0 eq_refl)
    as (u & pw & Hpw & Hu & Hp & Hr & _).
  do 2 (split; [reflexivity|]).
  vm_compute in Hpw. injection Hpw as <-.
  exists u. split; [exact Hu|].
  assert (u = User.mk 5 "eve@example.com" "secret" None None None 5000 5000) as ->.
  { vm_compute in Hu. apply (f_equal (fun l => nth 4 l u)) in Hu. cbn in Hu.
    symmetry. exact Hu. }
  split; [reflexivity|]. split; [reflexivity|]. rewrite Hr. reflexivity.
Defined.

(** C6, witness: Dave, a member of no group, marks Bob's paid payment. *)
Lemma markPaid_unconditional_witness :
  wf db0 = true
  /\ authMiddleware (rt := stub) payRequest = inr dave
  /\ toInt32 (parseInt (JsRuntime := stub) (Some (JStr (param payRequest)))) = Some 2
  /\ In bobsPayment (payments db0)
  /\ membershipOf db0 4 1 = None
  /\ Payment.paid bobsPayment = true
  /\ fst (markPaid (rt := stub) payRequest 5000 db0)
     = mkResponse 200 (BPayment (Payment.mk 2 1 2 50%float true (Some 5000))).
Proof.
  assert (In bobsPayment (payments db0)) as Hin by (right; left; reflexivity).
  pose proof (@markPaid_unconditional stub payRequest 5000 db0 dave bobsPayment
                eq_refl eq_refl eq_refl Hin) as H.
  cbv zeta in H. destruct H as (H & _).
  do 6 (split; [first [reflexivity | exact Hin]|]).
  rewrite H. reflexivity.
Defined.
(** ** The application as a whole *)

Section Application.
Context {rt : JsRuntime} {lib : Libraries}.

Section Keeps.
Variable I : DB -> Prop.

Lemma keeps_ret {A} (a : A) : keeps I (ret a).
Proof. intros db H. exact H. Qed.

Lemma keeps_throw {A} : keeps I (@throw A).
Proof. intros db H. exact H. Qed.

Lemma keeps_query {A} (f : DB -> A) : keeps I (query f).
Proof. intros db H. exact H. Qed.

Lemma keeps_bind {A B} (m : Prisma A) (k : A -> Prisma B) :
  keeps I m -> (forall a, keeps I (k a)) -> keeps I (bind m k).
Proof.
  intros Hm Hk db Hwf. unfold bind. specialize (Hm db Hwf).
  destruct (m db) as [[a|] db']; cbn in *; [apply Hk|]; assumption.
Qed.

Lemma keeps_required {A} (a : Arg A) : keeps I (required a).
Proof. destruct a; intros db H; exact H. Qed.

Lemma keeps_group_findUnique id : keeps I (group_findUnique id).
Proof. destruct id; intros db H; exact H. Qed.

Lemma keeps_membership_findUnique id : keeps I (membership_findUnique id).
Proof. destruct id; intros db H; exact H. Qed.

Lemma keeps_membership_findUnique_pair u g :
  keeps I (membership_findUnique_userId_groupId u g).
Proof. destruct u; try (intros db H; exact H); destruct g; intros db H; exact H. Qed.

Lemma keeps_membership_findMany g : keeps I (membership_findMany_groupId g).
Proof. destruct g; intros db H; exact H. Qed.

Lemma keeps_cycle_findUnique id : keeps I (cycle_findUnique id).
Proof. destruct id; intros db H; exact H. Qed.

Lemma keeps_payment_findMany c : keeps I (payment_findMany_cycleId c).
Proof. destruct c; intros db H; exact H. Qed.

Lemma keeps_tryCatch body e db :
  keeps I body -> I db -> I (snd (tryCatch body e db)).
Proof.
  intros Hb Hwf. specialize (Hb db Hwf). unfold tryCatch.
  destruct (body db) as [[r|] db']; exact Hb.
Qed.

End Keeps.

Lemma keeps_authenticated (I : DB -> Prop) req next db :
  (forall user db, I db -> I (snd (next user db))) ->
  I db -> I (snd (authenticated req next db)).
Proof.
  intros Hn Hwf. unfold authenticated. destruct (authMiddleware req); [exact Hwf|].
  now apply Hn.
Qed.

(** The seventeen constraints of [wf], one by one. *)
Lemma wf_split db :
  wf db = true <->
  ((distinct (map User.id (users db)) = true
    /\ below (nextUserId db) (map User.id (users db)) = true
    /\ distinct (map Group.id (groups db)) = true
    /\ below (nextGroupId db) (map Group.id (groups db)) = true
    /\ distinct (map Membership.id (memberships db)) = true
    /\ below (nextMembershipId db) (map Membership.id (memberships db)) = true
    /\ distinct (map Cycle.id (cycles db)) = true
    /\ below (nextCycleId db) (map Cycle.id (cycles db)) = true
    /\ distinct (map Payment.id (payments db)) = true
    /\ below (nextPaymentId db) (map Payment.id (payments db)) = true)
   /\ (distinctStrings (map User.email (users db)) = true
       /\ uniquePairs (memberships db) = true)
   /\ (forallb (fun m => userExists db (Membership.userId m)
                         && groupExists db (Membership.groupId m)) (memberships db) = true
       /\ forallb (fun c => groupExists db (Cycle.groupId c)
                            && optUserExists db (Cycle.recipientUserId c)) (cycles db) = true
       /\ forallb (fun p => cycleExists db (Payment.cycleId p)
                            && userExists db (Payment.userId p)) (payments db) = true)
   /\ (forallb (fun g => finiteOpt (Group.contribution g)) (groups db) = true
       /\ forallb (fun p => is_finite (Payment.amount p)) (payments db) = true)).
Proof.
  unfold wf, primaryKeys, uniqueKeys, foreignKeys, floatColumns.
  rewrite !andb_true_iff. tauto.
Qed.

Ltac wf_open H :=
  apply wf_split in H;
  destruct H as ((?P1 & ?P2 & ?P3 & ?P4 & ?P5 & ?P6 & ?P7 & ?P8 & ?P9 & ?P10)
                 & (?U1 & ?U2) & (?F1 & ?F2 & ?F3) & (?C1 & ?C2));
  unfold optUserExists in *; unfold userExists, groupExists, cycleExists in *.

Ltac wf_close :=
  apply wf_split;
  unfold optUserExists; unfold userExists, groupExists, cycleExists;
  cbn [users groups memberships cycles payments nextUserId nextGroupId
       nextMembershipId nextCycleId nextPaymentId
       set_users set_groups set_memberships set_cycles set_payments];
  repeat match goal with |- _ /\ _ => split end; try assumption.

(** *** Lists of keys *)

Lemma distinct_notin x l : existsb (Z.eqb x) l = false <-> ~ In x l.
Proof. rewrite <- existsb_eqb_In. destruct (existsb _ _); intuition congruence. Qed.

Lemma distinct_NoDup l : distinct l = true <-> NoDup l.
Proof.
  induction l as [|x l IH]; cbn.
  - split; [constructor | reflexivity].
  - rewrite andb_true_iff, negb_true_iff, distinct_notin, IH. split.
    + intros [H1 H2]. now constructor.
    + intros H. inversion H. tauto.
Qed.

Lemma below_spec n l : below n l = true <-> forall x, In x l -> x < n.
Proof.
  unfold below. rewrite forallb_forall. split; intros H x Hx.
  - apply Z.ltb_lt. auto.
  - apply Z.ltb_lt. auto.
Qed.

Lemma in_map_filter {A} (key : A -> Z) f l x :
  In x (map key (filter f l)) -> In x (map key l).
Proof.
  rewrite !in_map_iff. intros (a & E & Ha). apply filter_In in Ha. exists a. tauto.
Qed.

Lemma distinct_map_filter {A} (key : A -> Z) f (l : list A) :
  distinct (map key l) = true -> distinct (map key (filter f l)) = true.
Proof.
  rewrite !distinct_NoDup. induction l as [|a l IH]; cbn; [auto|].
  intros H. inversion H as [|? ? Hn Hd]; subst. destruct (f a); cbn; [|auto].
  constructor; [|auto]. intros Hx. apply Hn. eapply in_map_filter; eauto.
Qed.

Lemma below_map_filter {A} (key : A -> Z) f (l : list A) n :
  below n (map key l) = true -> below n (map key (filter f l)) = true.
Proof.
  rewrite !below_spec. intros H x Hx. apply H. eapply in_map_filter; eauto.
Qed.

Lemma below_weaken n n' l : n <= n' -> below n l = true -> below n' l = true.
Proof. rewrite !below_spec. intros Hn H x Hx. specialize (H x Hx). lia. Qed.

Lemma distinct_app l1 l2 :
  distinct l1 = true -> distinct l2 = true ->
  (forall x, In x l1 -> In x l2 -> False) -> distinct (l1 ++ l2) = true.
Proof.
  rewrite !distinct_NoDup. intros H1 H2 H. induction l1 as [|a l1 IH]; cbn; [auto|].
  inversion H1; subst. constructor.
  - rewrite in_app_iff. intros [Hx|Hx]; [auto|]. apply (H a); [now left | auto].
  - apply IH; [auto|]. intros x Hx. apply H. now right.
Qed.

Lemma below_app n l1 l2 :
  below n l1 = true -> below n l2 = true -> below n (l1 ++ l2) = true.
Proof. unfold below. rewrite forallb_app. now intros -> ->. Qed.

Lemma map_replace_key {A} (key : A -> Z) i (a' : A) l :
  key a' = i -> map key (map (fun r => if key r =? i then a' else r) l) = map key l.
Proof.
  intros Ha. rewrite map_map. apply map_ext. intros r.
  destruct (key r =? i) eqn:E; [|reflexivity]. apply Z.eqb_eq in E. congruence.
Qed.

Lemma forallb_map_replace {A} (P : A -> bool) (c : A -> bool) (a' : A) l :
  forallb P l = true -> P a' = true ->
  forallb P (map (fun r => if c r then a' else r) l) = true.
Proof.
  rewrite !forallb_forall. intros H Ha x Hx. apply in_map_iff in Hx.
  destruct Hx as (r & <- & Hr). destruct (c r); auto.
Qed.

Lemma forallb_impl {A} (P Q : A -> bool) l :
  (forall x, P x = true -> Q x = true) -> forallb P l = true -> forallb Q l = true.
Proof. rewrite !forallb_forall. auto. Qed.

Lemma existsb_app_l {A} (f : A -> bool) l l2 :
  existsb f l = true -> existsb f (l ++ l2) = true.
Proof. intros H. rewrite existsb_app, H. reflexivity. Qed.

Lemma existsb_map_key {A} (key : A -> Z) (l : list A) x :
  existsb (fun r => key r =? x) l = existsb (Z.eqb x) (map key l).
Proof.
  induction l as [|a l IH]; cbn; [reflexivity|]. now rewrite IH, Z.eqb_sym.
Qed.

Lemma existsb_replace {A} (key : A -> Z) i (a' : A) l x :
  key a' = i ->
  existsb (fun r => key r =? x) (map (fun r => if key r =? i then a' else r) l)
  = existsb (fun r => key r =? x) l.
Proof. intros Ha. now rewrite !existsb_map_key, map_replace_key. Qed.

Lemma uniquePairs_filter f l : uniquePairs l = true -> uniquePairs (filter f l) = true.
Proof.
  induction l as [|m l IH]; cbn; [reflexivity|].
  rewrite andb_true_iff, negb_true_iff. intros [Hm Hu].
  destruct (f m); cbn; [|now apply IH]. rewrite IH by assumption.
  rewrite andb_true_r, negb_true_iff. apply not_true_is_false. intros He.
  apply existsb_exists in He. destruct He as (y & Hy & E). apply filter_In in Hy.
  assert (existsb (isMembership (Membership.userId m) (Membership.groupId m)) l = true)
    by (apply existsb_exists; exists y; tauto). congruence.
Qed.

Lemma uniquePairs_app l m :
  uniquePairs l = true ->
  existsb (isMembership (Membership.userId m) (Membership.groupId m)) l = false ->
  uniquePairs (l ++ [m]) = true.
Proof.
  induction l as [|a l IH]; cbn; [reflexivity|].
  rewrite !andb_true_iff, !negb_true_iff, orb_false_iff. intros [Ha Hu] [Hm Hl].
  split; [|now apply IH]. rewrite existsb_app, Ha. cbn. rewrite orb_false_r.
  apply not_true_is_false. intros E. apply isMembership_spec in E. destruct E as [E1 E2].
  assert (isMembership (Membership.userId m) (Membership.groupId m) a = true)
    by (apply isMembership_spec; split; congruence). congruence.
Qed.

Lemma distinctStrings_app l e :
  distinctStrings l = true -> existsb (fun x => String.eqb x e) l = false ->
  distinctStrings (l ++ [e]) = true.
Proof.
  induction l as [|a l IH]; cbn; [reflexivity|].
  rewrite !andb_true_iff, !negb_true_iff, orb_false_iff. intros [Ha Hu] [Hm Hl].
  split; [|now apply IH]. rewrite existsb_app, Ha. cbn. now rewrite orb_false_r.
Qed.

Lemma distinct_snoc n l : distinct l = true -> below n l = true -> distinct (l ++ [n]) = true.
Proof.
  intros Hd Hb. apply distinct_app; [assumption | reflexivity |].
  intros x Hx [<-|[]]. rewrite below_spec in Hb. specialize (Hb _ Hx). lia.
Qed.

Lemma below_snoc n l : below n l = true -> below (n + 1) (l ++ [n]) = true.
Proof.
  intros Hb. apply below_app; [apply (below_weaken n); [lia | assumption]|].
  cbn. rewrite andb_true_r. apply Z.ltb_lt. lia.
Qed.

(** *** The operations keep the store within its schema *)

Lemma membership_delete_preserves id : preserves (membership_delete id).
Proof.
  unfold membership_delete. apply keeps_bind; [apply keeps_required|].
  intros i db Hwf. destruct (find _ _) as [m|]; [|exact Hwf].
  cbn [snd]. wf_open Hwf. wf_close.
  - now apply distinct_map_filter.
  - now apply below_map_filter.
  - now apply uniquePairs_filter.
  - now apply forallb_filter.
Qed.

Lemma payment_deleteMany_preserves u g :
  preserves (payment_deleteMany_userId_cycleGroupId u g).
Proof.
  intros db Hwf. unfold payment_deleteMany_userId_cycleGroupId.
  destruct u as [| |u|]; try exact Hwf. destruct g as [| |g|]; try exact Hwf.
  cbv beta iota delta [bind ret required]. cbn [snd]. wf_open Hwf. wf_close.
  - now apply distinct_map_filter.
  - now apply below_map_filter.
  - now apply forallb_filter.
  - now apply forallb_filter.
Qed.

Lemma payment_update_preserves id paid paidAt : preserves (payment_update id paid paidAt).
Proof.
  intros db Hwf. unfold payment_update.
  destruct id as [| |i|]; try exact Hwf.
  cbv beta iota delta [bind ret required query].
  destruct (find _ _) as [p|] eqn:F; [|exact Hwf].
  destruct paid as [| |pd|]; try exact Hwf;
    (destruct paidAt as [| |pa|]; try exact Hwf);
    cbv beta iota delta [bind ret throw updRequired updNullable]; cbn [snd];
    apply find_some in F; destruct F as [Hin _];
    wf_open Hwf; wf_close;
    try (rewrite map_replace_key by reflexivity; assumption);
    try (apply forallb_map_replace; [assumption|];
         cbn [Payment.cycleId Payment.userId Payment.amount];
         match goal with
         | H : forallb _ (payments db) = true |- _ =>
             rewrite forallb_forall in H; exact (H _ Hin)
         end).
Qed.

Lemma existsb_email l e :
  existsb (fun r => String.eqb (User.email r) e) l
  = existsb (fun x => String.eqb x e) (map User.email l).
Proof. induction l as [|a l IH]; cbn; [reflexivity|]. now rewrite IH. Qed.

Ltac bump :=
  match goal with
  | H : below ?n ?l = true |- below (?n + 1) ?l = true =>
      apply (below_weaken n); [lia | exact H]
  end.

Lemma forallb_fk_users {A} (l : list A) (us : list User.t) (row : User.t)
    (f : A -> Z) (g : A -> bool) :
  forallb (fun x => existsb (fun r => User.id r =? f x) us && g x) l = true ->
  forallb (fun x => existsb (fun r => User.id r =? f x) (us ++ [row]) && g x) l = true.
Proof.
  apply forallb_impl. intros x Hx. apply andb_true_iff in Hx. destruct Hx as [H1 H2].
  now rewrite existsb_app, H1, H2.
Qed.

Lemma user_create_preserves email password name phone now :
  preserves (user_create email password name phone now).
Proof.
  intros db Hwf. unfold user_create.
  destruct email as [| |e|]; try exact Hwf.
  destruct password as [| |pw|]; try exact Hwf.
  assert (forall n ph,
    wf (snd (let row := User.mk (nextUserId db) e pw n ph None now now in
             if existsb (fun r => String.eqb (User.email r) e) (users db)
             then (@Rejected User.t, set_users db (users db) (nextUserId db + 1))
             else (Resolved row, set_users db (users db ++ [row]) (nextUserId db + 1))))
    = true) as Hins.
  { intros n ph. cbv zeta.
    destruct (existsb _ (users db)) eqn:E; cbn [snd]; wf_open Hwf; wf_close.
    - bump.
    - rewrite map_app. now apply distinct_snoc.
    - rewrite map_app. now apply below_snoc.
    - rewrite map_app. cbn [map User.email]. apply distinctStrings_app;
        [assumption | now rewrite <- existsb_email].
    - eapply forallb_impl; [|exact F1]. cbn beta. intros m Hm.
      apply andb_true_iff in Hm. destruct Hm as [Hm1 Hm2].
      now rewrite existsb_app, Hm1, Hm2.
    - eapply forallb_impl; [|exact F2]. cbn beta. intros c Hc.
      apply andb_true_iff in Hc. destruct Hc as [Hc1 Hc2]. rewrite Hc1.
      destruct (Cycle.recipientUserId c); [|reflexivity].
      now rewrite existsb_app, Hc2.
    - eapply forallb_impl; [|exact F3]. cbn beta. intros p Hp.
      apply andb_true_iff in Hp. destruct Hp as [Hp1 Hp2].
      now rewrite existsb_app, Hp1, Hp2. }
  destruct name as [| |n|]; try exact Hwf;
    (destruct phone as [| |ph|]; try exact Hwf);
    cbv beta iota delta [bind ret throw required optional]; apply Hins.
Qed.

Lemma group_update_preserves id name description contribution frequency maxMembers now :
  finiteArg contribution = true ->
  preserves (group_update id name description contribution frequency maxMembers now).
Proof.
  intros Hfin db Hwf. destruct id as [| |i|]; try exact Hwf.
  rewrite group_update_eq. destruct (findGroup db i) as [g|] eqn:F; [|exact Hwf].
  destruct (groupRowOf _ _ _ _ _ g now) as [g'|] eqn:R; [|exact Hwf].
  cbn [snd]. unfold findGroup in F. pose proof (find_id_eq Group.id _ _ _ F) as Hid.
  apply find_some in F. destruct F as [Hin _].
  assert (Group.id g' = i /\ finiteOpt (Group.contribution g') = true) as [Hid' Hc'].
  { unfold groupRowOf in R.
    destruct (updRequiredValue name (Group.name g)); [|discriminate].
    destruct (updNullableValue description (Group.description g)); [|discriminate].
    destruct (updNullableValue contribution (Group.contribution g)) eqn:Hc;
      [|discriminate].
    destruct (updNullableValue frequency (Group.frequency g)); [|discriminate].
    destruct (updNullableValue maxMembers (Group.maxMembers g)); [|discriminate].
    injection R as <-. cbn. split; [assumption|].
    wf_open Hwf. rewrite forallb_forall in C1. specialize (C1 _ Hin).
    destruct contribution; cbn in Hc; try discriminate; injection Hc as <-;
      [assumption | reflexivity | exact Hfin]. }
  wf_open Hwf. wf_close.
  - rewrite map_replace_key; assumption.
  - rewrite map_replace_key; assumption.
  - eapply forallb_impl; [|exact F1]. cbn beta. intros m Hm.
    now rewrite existsb_replace.
  - eapply forallb_impl; [|exact F2]. cbn beta. intros c Hc.
    now rewrite existsb_replace.
  - apply forallb_map_replace; assumption.
Qed.

Lemma membership_create_preserves userId groupId role now :
  preserves (membership_create userId groupId role now).
Proof.
  intros db Hwf. unfold membership_create.
  destruct userId as [| |u|]; try exact Hwf.
  destruct groupId as [| |g|]; try exact Hwf.
  assert (forall r,
    wf (snd (let row := Membership.mk (nextMembershipId db) u g r now in
             if userExists db u && groupExists db g
                && negb (existsb (isMembership u g) (memberships db))
             then (Resolved row,
                   set_memberships db (memberships db ++ [row]) (nextMembershipId db + 1))
             else (Rejected,
                   set_memberships db (memberships db) (nextMembershipId db + 1))))
    = true) as Hins.
  { intros r. cbv zeta.
    destruct (userExists db u && groupExists db g && _) eqn:E; cbn [snd].
    - apply andb_true_iff in E. destruct E as [E E3]. apply andb_true_iff in E.
      destruct E as [E1 E2]. apply negb_true_iff in E3.
      wf_open Hwf. wf_close.
      + rewrite map_app. now apply distinct_snoc.
      + rewrite map_app. now apply below_snoc.
      + now apply uniquePairs_app.
      + rewrite forallb_app, F1. cbn. now rewrite E1, E2.
    - wf_open Hwf. wf_close. bump. }
  destruct role as [| |r|]; try exact Hwf;
    cbv beta iota delta [bind ret throw required withDefault]; apply Hins.
Qed.

Lemma cycle_create_preserves groupId cycleIndex startDate endDate recipientUserId status now :
  preserves (cycle_create groupId cycleIndex startDate endDate recipientUserId status now).
Proof.
  intros db Hwf. rewrite cycle_create_eq.
  destruct (cycleRowOf _ _ _ _ _ _ _ _) as [c|] eqn:R; [|exact Hwf].
  destruct (cycleRowOf_Some _ _ _ _ _ _ _ _ _ R) as (Hid & _).
  destruct (groupExists db (Cycle.groupId c) && _) eqn:E; cbn [snd].
  - apply andb_true_iff in E. destruct E as [E1 E2].
    wf_open Hwf. wf_close.
    + rewrite map_app. cbn [map]. rewrite Hid. now apply distinct_snoc.
    + rewrite map_app. cbn [map]. rewrite Hid. now apply below_snoc.
    + rewrite forallb_app, F2. cbn. now rewrite E1, E2.
    + eapply forallb_impl; [|exact F3]. cbn beta. intros p Hp.
      apply andb_true_iff in Hp. destruct Hp as [Hp1 Hp2].
      now rewrite existsb_app, Hp1, Hp2.
  - wf_open Hwf. wf_close. bump.
Qed.

Lemma cycle_update_preserves id recipientUserId status :
  preserves (cycle_update id recipientUserId status).
Proof.
  intros db Hwf. destruct id as [| |i|]; try exact Hwf.
  rewrite cycle_update_eq. destruct (findCycle db i) as [c|] eqn:F; [|exact Hwf].
  destruct (cycleUpdateOf _ _ c) as [c'|] eqn:R; [|exact Hwf].
  destruct (optUserExists db (Cycle.recipientUserId c')) eqn:E; [|exact Hwf].
  cbn [snd]. unfold findCycle in F. pose proof (find_id_eq Cycle.id _ _ _ F) as Hid.
  apply find_some in F. destruct F as [Hin _].
  pose proof (cycleUpdateOf_id _ _ _ _ R) as Hid'. rewrite Hid in Hid'.
  assert (Cycle.groupId c' = Cycle.groupId c) as Hg.
  { unfold cycleUpdateOf in R.
    destruct (updNullableValue recipientUserId (Cycle.recipientUserId c)); [|discriminate].
    destruct (updRequiredValue status (Cycle.status c)); [|discriminate].
    now injection R as <-. }
  wf_open Hwf. wf_close.
  - rewrite map_replace_key; assumption.
  - rewrite map_replace_key; assumption.
  - apply forallb_map_replace; [assumption|]. rewrite Hg, E.
    rewrite forallb_forall in F2. specialize (F2 _ Hin).
    apply andb_true_iff in F2. destruct F2 as [-> _]. reflexivity.
  - eapply forallb_impl; [|exact F3]. cbn beta. intros p Hp.
    now rewrite existsb_replace.
Qed.

Lemma paymentRows_ids id data rows :
  paymentRows id data = Some rows ->
  distinct (map Payment.id rows) = true
  /\ (forall x, In x (map Payment.id rows) ->
               id <= x < id + Z.of_nat (List.length rows)).
Proof.
  revert id rows. induction data as [|d data IH]; intros id rows; cbn.
  - intros [= <-]. split; [reflexivity | intros x []].
  - destruct (argValue (PaymentCreateManyInput.cycleId d)); [|discriminate].
    destruct (argValue (PaymentCreateManyInput.userId d)); [|discriminate].
    destruct (argValue (PaymentCreateManyInput.amount d)); [|discriminate].
    destruct (paymentRows (id + 1) data) as [rs|] eqn:R; [|discriminate].
    intros [= <-]. destruct (IH _ _ R) as [Hd Hr]. cbn [map distinct List.length Payment.id].
    split.
    + rewrite Hd, andb_true_r, negb_true_iff. apply distinct_notin. intros Hx.
      specialize (Hr _ Hx). lia.
    + intros x [<-|Hx]; [lia|]. specialize (Hr _ Hx). lia.
Qed.

Lemma paymentRows_finite id data rows :
  forallb (fun d => finiteArg (PaymentCreateManyInput.amount d)) data = true ->
  paymentRows id data = Some rows ->
  forallb (fun p => is_finite (Payment.amount p)) rows = true.
Proof.
  revert id rows. induction data as [|d data IH]; intros id rows; cbn.
  - intros _ [= <-]. reflexivity.
  - rewrite andb_true_iff. intros [Hf Hfs].
    destruct (argValue (PaymentCreateManyInput.cycleId d)); [|discriminate].
    destruct (argValue (PaymentCreateManyInput.userId d)); [|discriminate].
    destruct (PaymentCreateManyInput.amount d) as [| |x|]; cbn; try discriminate.
    destruct (paymentRows (id + 1) data) as [rs|] eqn:R; [|discriminate].
    intros [= <-]. cbn. cbn in Hf. rewrite Hf. exact (IH _ _ Hfs R).
Qed.

Lemma payment_createMany_preserves data :
  forallb (fun d => finiteArg (PaymentCreateManyInput.amount d)) data = true ->
  preserves (payment_createMany data).
Proof.
  intros Hfin db Hwf. unfold payment_createMany.
  destruct (paymentRows (nextPaymentId db) data) as [rows|] eqn:R; [|exact Hwf].
  destruct (paymentRows_ids _ _ _ R) as [Hd Hr].
  pose proof (paymentRows_finite _ _ _ Hfin R) as Hf.
  destruct (forallb (fun p => cycleExists db (Payment.cycleId p) && _) rows) eqn:E;
    cbn [snd]; wf_open Hwf; wf_close.
  - rewrite map_app. apply distinct_app; [assumption | assumption |].
    intros x Hx Hx'. rewrite below_spec in P10. specialize (P10 _ Hx).
    specialize (Hr _ Hx'). lia.
  - rewrite map_app. apply below_app.
    + apply (below_weaken (nextPaymentId db)); [lia | assumption].
    + apply below_spec. intros x Hx. specialize (Hr _ Hx). lia.
  - rewrite forallb_app, F3. exact E.
  - rewrite forallb_app, C2. exact Hf.
  - apply (below_weaken (nextPaymentId db)); [lia | assumption].
Qed.

Lemma finiteArg_argFloat x : finiteArg (argFloat x) = true.
Proof. unfold argFloat. destruct (is_finite x) eqn:E; [exact E | reflexivity]. Qed.

Lemma finiteArg_ifTruthy v x : finiteArg (ifTruthy v (argFloat x)) = true.
Proof. unfold ifTruthy. destruct (truthy v); [apply finiteArg_argFloat | reflexivity]. Qed.

(** *** The other operations keep the store within its schema *)

Lemma keeps_user_findUnique (I : DB -> Prop) id : keeps I (user_findUnique id).
Proof. destruct id; intros db H; exact H. Qed.

Lemma keeps_user_findUnique_email (I : DB -> Prop) e : keeps I (user_findUnique_email e).
Proof. destruct e; intros db H; exact H. Qed.

Lemma keeps_group_findUnique_withMembers (I : DB -> Prop) id :
  keeps I (group_findUnique_withMembers id).
Proof. destruct id; intros db H; exact H. Qed.

Lemma keeps_membership_findMany_userId (I : DB -> Prop) u :
  keeps I (membership_findMany_userId_withGroup u).
Proof. destruct u; intros db H; exact H. Qed.

Lemma keeps_membership_findMany_where (I : DB -> Prop) u g :
  keeps I (membership_findMany_where u g).
Proof. destruct u; try (intros db H; exact H); destruct g; intros db H; exact H. Qed.

Lemma keeps_cycle_findMany_ids (I : DB -> Prop) g : keeps I (cycle_findMany_groupId_ids g).
Proof. destruct g; intros db H; exact H. Qed.

Lemma keeps_forEach (I : DB -> Prop) {A B} (xs : list A) (f : A -> Prisma B) :
  (forall x, keeps I (f x)) -> keeps I (forEach xs f).
Proof.
  intros Hf. induction xs as [|x xs IH]; cbn [forEach].
  - apply keeps_ret.
  - apply keeps_bind; [apply Hf | intros _; exact IH].
Qed.

Lemma keeps_tryCatchReply (I : DB -> Prop) body e db :
  keeps I body -> I db -> I (snd (tryCatchReply body e db)).
Proof.
  intros Hb Hwf. specialize (Hb db Hwf). unfold tryCatchReply.
  destruct (body db) as [[r|] db']; exact Hb.
Qed.

Lemma keeps_withAuth (I : DB -> Prop) req next db :
  (forall user db, I db -> I (snd (next user db))) ->
  I db -> I (snd (withAuth req next db)).
Proof.
  intros Hn Hwf. unfold withAuth. destruct (authMiddleware req); [exact Hwf|].
  now apply Hn.
Qed.

Lemma existsb_find {A} (f : A -> bool) l :
  existsb f l = true -> exists a, find f l = Some a.
Proof.
  induction l as [|a l IH]; cbn; [discriminate|]. destruct (f a); eauto.
Qed.

Lemma existsb_filter_other {A} (key : A -> Z) (l : list A) x i :
  x <> i ->
  existsb (fun r => key r =? x) (filter (fun r => negb (key r =? i)) l)
  = existsb (fun r => key r =? x) l.
Proof.
  intros Hx. induction l as [|a l IH]; cbn; [reflexivity|].
  destruct (key a =? i) eqn:E; cbn.
  - apply Z.eqb_eq in E. rewrite IH. destruct (key a =? x) eqn:E'; [|reflexivity].
    apply Z.eqb_eq in E'. congruence.
  - now rewrite IH.
Qed.

Lemma existsb_filter_le {A} (f g : A -> bool) l :
  existsb f (filter g l) = true -> existsb f l = true.
Proof.
  rewrite !existsb_exists. intros (x & Hx & Hf). apply filter_In in Hx.
  exists x. tauto.
Qed.

Lemma distinctStrings_map_filter {A} (key : A -> string) f (l : list A) :
  distinctStrings (map key l) = true -> distinctStrings (map key (filter f l)) = true.
Proof.
  induction l as [|a l IH]; cbn; [reflexivity|].
  rewrite andb_true_iff, negb_true_iff. intros [Ha Hd].
  destruct (f a); cbn; [|now apply IH]. rewrite IH by assumption.
  rewrite andb_true_r, negb_true_iff. apply not_true_is_false. intros E.
  apply existsb_exists in E. destruct E as (y & Hy & Ey).
  apply in_map_iff in Hy. destruct Hy as (b & <- & Hb). apply filter_In in Hb.
  assert (existsb (String.eqb (key a)) (map key l) = true) as Hx
    by (apply existsb_exists; exists (key b); split; [apply in_map; tauto | exact Ey]).
  congruence.
Qed.

Lemma map_key_kept {A} (key : A -> Z) (f : A -> A) l :
  (forall r, key (f r) = key r) -> map key (map f l) = map key l.
Proof. intros H. rewrite map_map. apply map_ext. exact H. Qed.

Lemma clearRecipient_id u c : Cycle.id (clearRecipient u c) = Cycle.id c.
Proof.
  unfold clearRecipient. destruct (Cycle.recipientUserId c) as [r|]; [|reflexivity].
  destruct (r =? u); reflexivity.
Qed.

Lemma clearRecipient_groupId u c : Cycle.groupId (clearRecipient u c) = Cycle.groupId c.
Proof.
  unfold clearRecipient. destruct (Cycle.recipientUserId c) as [r|]; [|reflexivity].
  destruct (r =? u); reflexivity.
Qed.

Lemma existsb_pair_replace i (m' : Membership.t) l u g :
  (forall m, In m l -> Membership.id m = i ->
             Membership.userId m' = Membership.userId m
             /\ Membership.groupId m' = Membership.groupId m) ->
  existsb (isMembership u g) (map (fun x => if Membership.id x =? i then m' else x) l)
  = existsb (isMembership u g) l.
Proof.
  induction l as [|a l IH]; intros Hm; cbn; [reflexivity|].
  rewrite IH by (intros m Hin; apply Hm; now right). f_equal.
  destruct (Membership.id a =? i) eqn:E; [|reflexivity]. apply Z.eqb_eq in E.
  destruct (Hm a (or_introl eq_refl) E) as [E1 E2].
  unfold isMembership. now rewrite E1, E2.
Qed.

Lemma uniquePairs_replace i (m' : Membership.t) l :
  (forall m, In m l -> Membership.id m = i ->
             Membership.userId m' = Membership.userId m
             /\ Membership.groupId m' = Membership.groupId m) ->
  uniquePairs l = true ->
  uniquePairs (map (fun x => if Membership.id x =? i then m' else x) l) = true.
Proof.
  induction l as [|a l IH]; intros Hm; cbn; [reflexivity|].
  rewrite !andb_true_iff, !negb_true_iff. intros [Ha Hu]. split.
  - rewrite existsb_pair_replace by (intros m Hin; apply Hm; now right).
    destruct (Membership.id a =? i) eqn:E; [|exact Ha]. apply Z.eqb_eq in E.
    destruct (Hm a (or_introl eq_refl) E) as [-> ->]. exact Ha.
  - apply IH; [|exact Hu]. intros m Hin. apply Hm. now right.
Qed.

Lemma find_unique_row {A} (key : A -> Z) (l : list A) i a r :
  distinct (map key l) = true ->
  find (fun x => key x =? i) l = Some a -> In r l -> key r = i -> r = a.
Proof.
  intros Hd F Hin Hk. pose proof (find_by_id key l r Hd Hin) as F'.
  rewrite Hk, F in F'. congruence.
Qed.

Lemma map_replace_same {A B} (key : A -> Z) (proj : A -> B) (l : list A) i a a' :
  distinct (map key l) = true ->
  find (fun x => key x =? i) l = Some a ->
  proj a' = proj a ->
  map proj (map (fun r => if key r =? i then a' else r) l) = map proj l.
Proof.
  intros Hd F Hp. rewrite map_map. apply map_ext_in. intros r Hin. cbn beta.
  destruct (key r =? i) eqn:E; [|reflexivity]. apply Z.eqb_eq in E.
  rewrite (find_unique_row key l i a r Hd F Hin E). exact Hp.
Qed.

Lemma user_update_preserves id password name phone pushToken now :
  preserves (user_update id password name phone pushToken now).
Proof.
  intros db Hwf. unfold user_update. destruct id as [| |i|]; try exact Hwf.
  cbv beta iota delta [bind ret required query]. unfold findUser.
  destruct (find _ (users db)) as [u|] eqn:F; [|exact Hwf].
  assert (forall u', User.id u' = i -> User.email u' = User.email u ->
    wf (set_users db (map (fun r => if User.id r =? i then u' else r) (users db))
          (nextUserId db)) = true) as Hset.
  { intros u' Hid He. wf_open Hwf. wf_close.
    - rewrite map_replace_key; assumption.
    - rewrite map_replace_key; assumption.
    - rewrite (map_replace_same User.id User.email _ i u u' P1 F He). assumption.
    - eapply forallb_impl; [|exact F1]. cbn beta. intros m Hm.
      now rewrite existsb_replace.
    - eapply forallb_impl; [|exact F2]. cbn beta. intros c Hc.
      destruct (Cycle.recipientUserId c); [|exact Hc]. now rewrite existsb_replace.
    - eapply forallb_impl; [|exact F3]. cbn beta. intros p Hp.
      now rewrite existsb_replace. }
  destruct password as [| |pw|]; try exact Hwf;
    (destruct name as [| |n|]; try exact Hwf);
    (destruct phone as [| |ph|]; try exact Hwf);
    (destruct pushToken as [| |pt|]; try exact Hwf);
    cbv beta iota delta [bind ret throw updRequired updNullable]; cbn [snd];
    apply Hset; reflexivity.
Qed.

Lemma user_delete_preserves id : preserves (user_delete id).
Proof.
  intros db Hwf. unfold user_delete. destruct id as [| |i|]; try exact Hwf.
  cbv beta iota delta [bind ret required]. unfold findUser.
  destruct (find _ (users db)) as [u|] eqn:F; [|exact Hwf].
  cbn [snd]. wf_open Hwf. wf_close.
  - now apply distinct_map_filter.
  - now apply below_map_filter.
  - now apply distinct_map_filter.
  - now apply below_map_filter.
  - rewrite map_key_kept by apply clearRecipient_id. assumption.
  - rewrite map_key_kept by apply clearRecipient_id. assumption.
  - now apply distinct_map_filter.
  - now apply below_map_filter.
  - now apply distinctStrings_map_filter.
  - now apply uniquePairs_filter.
  - rewrite forallb_forall. intros m Hm. apply filter_In in Hm. destruct Hm as [Hm Hne].
    apply negb_true_iff, Z.eqb_neq in Hne.
    rewrite forallb_forall in F1. specialize (F1 _ Hm).
    now rewrite existsb_filter_other.
  - rewrite forallb_forall. intros c' Hc. apply in_map_iff in Hc.
    destruct Hc as (c & <- & Hc). rewrite forallb_forall in F2. specialize (F2 _ Hc).
    apply andb_true_iff in F2. destruct F2 as [Hg Hu].
    rewrite clearRecipient_groupId, Hg. unfold clearRecipient.
    destruct (Cycle.recipientUserId c) as [r|] eqn:Er; [|now rewrite Er].
    destruct (r =? i) eqn:E; [reflexivity|]. rewrite Er.
    apply Z.eqb_neq in E. now rewrite existsb_filter_other.
  - rewrite forallb_forall. intros p Hp. apply filter_In in Hp. destruct Hp as [Hp Hne].
    apply negb_true_iff, Z.eqb_neq in Hne.
    rewrite forallb_forall in F3. specialize (F3 _ Hp).
    rewrite existsb_filter_other by assumption.
    rewrite !existsb_map_key in *. rewrite map_key_kept by apply clearRecipient_id.
    exact F3.
  - now apply forallb_filter.
Qed.

Lemma group_create_preserves name description contribution frequency maxMembers now :
  finiteArg contribution = true ->
  preserves (group_create name description contribution frequency maxMembers now).
Proof.
  intros Hfin db Hwf. unfold group_create.
  destruct name as [| |n|]; try exact Hwf.
  assert (forall d c f mm, finiteOpt c = true ->
    wf (mkDB (users db)
          (groups db ++ [Group.mk (nextGroupId db) n d c f mm now now])
          (memberships db) (cycles db) (payments db)
          (nextUserId db) (nextGroupId db + 1) (nextMembershipId db)
          (nextCycleId db) (nextPaymentId db)) = true) as Hins.
  { intros d c f mm Hc. wf_open Hwf. wf_close.
    - rewrite map_app. now apply distinct_snoc.
    - rewrite map_app. now apply below_snoc.
    - eapply forallb_impl; [|exact F1]. cbn beta. intros m Hm.
      apply andb_true_iff in Hm. destruct Hm as [Hm1 Hm2].
      now rewrite existsb_app, Hm1, Hm2.
    - eapply forallb_impl; [|exact F2]. cbn beta. intros x Hx.
      apply andb_true_iff in Hx. destruct Hx as [Hx1 Hx2].
      now rewrite existsb_app, Hx1, Hx2.
    - rewrite forallb_app, C1. cbn. now rewrite Hc. }
  destruct description as [| |d|]; try exact Hwf;
    (destruct contribution as [| |c|]; try exact Hwf);
    (destruct frequency as [| |f|]; try exact Hwf);
    (destruct maxMembers as [| |mm|]; try exact Hwf);
    cbv beta iota delta [bind ret throw required optional]; cbn [snd];
    apply Hins; first [reflexivity | exact Hfin].
Qed.

(** The Payments left when the Cycles of a Group go. *)
Lemma payments_of_other_groups db i :
  wf db = true ->
  forallb (fun p =>
             existsb (fun r => Cycle.id r =? Payment.cycleId p)
               (filter (fun c => negb (Cycle.groupId c =? i)) (cycles db))
             && existsb (fun r => User.id r =? Payment.userId p) (users db))
          (filter (fun p => negb (cycleInGroup db i p)) (payments db)) = true.
Proof.
  intros Hwf. wf_open Hwf. rewrite forallb_forall. intros p Hp.
  apply filter_In in Hp. destruct Hp as [Hp Hc]. apply negb_true_iff in Hc.
  rewrite forallb_forall in F3. specialize (F3 _ Hp). apply andb_true_iff in F3.
  destruct F3 as [Hcy Hu]. rewrite Hu, andb_true_r.
  destruct (existsb_find _ _ Hcy) as (c & Fc).
  unfold cycleInGroup, findCycle in Hc. rewrite Fc in Hc.
  apply find_some in Fc. destruct Fc as [Hin Hid].
  apply existsb_exists. exists c. split; [|exact Hid].
  apply filter_In. split; [exact Hin | now rewrite Hc].
Qed.

Lemma group_delete_preserves id : preserves (group_delete id).
Proof.
  intros db Hwf. unfold group_delete. destruct id as [| |i|]; try exact Hwf.
  cbv beta iota delta [bind ret required].
  destruct (find _ (groups db)) as [g|] eqn:F; [|exact Hwf].
  cbn [snd]. pose proof (payments_of_other_groups db i Hwf) as Hpay.
  wf_open Hwf. wf_close.
  - now apply distinct_map_filter.
  - now apply below_map_filter.
  - now apply distinct_map_filter.
  - now apply below_map_filter.
  - now apply distinct_map_filter.
  - now apply below_map_filter.
  - now apply distinct_map_filter.
  - now apply below_map_filter.
  - now apply uniquePairs_filter.
  - rewrite forallb_forall. intros m Hm. apply filter_In in Hm. destruct Hm as [Hm Hne].
    apply negb_true_iff, Z.eqb_neq in Hne.
    rewrite forallb_forall in F1. specialize (F1 _ Hm).
    now rewrite existsb_filter_other.
  - rewrite forallb_forall. intros c Hc. apply filter_In in Hc. destruct Hc as [Hc Hne].
    apply negb_true_iff, Z.eqb_neq in Hne.
    rewrite forallb_forall in F2. specialize (F2 _ Hc).
    now rewrite existsb_filter_other.
  - now apply forallb_filter.
  - now apply forallb_filter.
Qed.

Lemma cycle_deleteMany_preserves g : preserves (cycle_deleteMany_groupId g).
Proof.
  intros db Hwf. unfold cycle_deleteMany_groupId. destruct g as [| |i|]; try exact Hwf.
  cbv beta iota delta [bind ret required]. cbn [snd].
  pose proof (payments_of_other_groups db i Hwf) as Hpay.
  wf_open Hwf. wf_close.
  - now apply distinct_map_filter.
  - now apply below_map_filter.
  - now apply distinct_map_filter.
  - now apply below_map_filter.
  - now apply forallb_filter.
  - now apply forallb_filter.
Qed.

Lemma cycle_delete_preserves id : preserves (cycle_delete id).
Proof.
  intros db Hwf. unfold cycle_delete. destruct id as [| |i|]; try exact Hwf.
  cbv beta iota delta [bind ret required].
  destruct (findCycle db i) as [c|] eqn:F; [|exact Hwf].
  cbn [snd]. wf_open Hwf. wf_close.
  - now apply distinct_map_filter.
  - now apply below_map_filter.
  - now apply distinct_map_filter.
  - now apply below_map_filter.
  - now apply forallb_filter.
  - rewrite forallb_forall. intros p Hp. apply filter_In in Hp. destruct Hp as [Hp Hne].
    apply negb_true_iff, Z.eqb_neq in Hne.
    rewrite forallb_forall in F3. specialize (F3 _ Hp).
    now rewrite existsb_filter_other.
  - now apply forallb_filter.
Qed.

Lemma membership_deleteMany_userId_preserves u :
  preserves (membership_deleteMany_userId u).
Proof.
  intros db Hwf. unfold membership_deleteMany_userId. destruct u as [| |u|]; try exact Hwf.
  cbv beta iota delta [bind ret required]. cbn [snd]. wf_open Hwf. wf_close.
  - now apply distinct_map_filter.
  - now apply below_map_filter.
  - now apply uniquePairs_filter.
  - now apply forallb_filter.
Qed.

Lemma membership_deleteMany_groupId_preserves g :
  preserves (membership_deleteMany_groupId g).
Proof.
  intros db Hwf. unfold membership_deleteMany_groupId. destruct g as [| |g|]; try exact Hwf.
  cbv beta iota delta [bind ret required]. cbn [snd]. wf_open Hwf. wf_close.
  - now apply distinct_map_filter.
  - now apply below_map_filter.
  - now apply uniquePairs_filter.
  - now apply forallb_filter.
Qed.

Lemma payment_deleteMany_cycleId_preserves c : preserves (payment_deleteMany_cycleId c).
Proof.
  intros db Hwf. unfold payment_deleteMany_cycleId. destruct c as [| |c|]; try exact Hwf.
  cbv beta iota delta [bind ret required]. cbn [snd]. wf_open Hwf. wf_close.
  - now apply distinct_map_filter.
  - now apply below_map_filter.
  - now apply forallb_filter.
  - now apply forallb_filter.
Qed.

Lemma payment_deleteMany_userId_preserves u : preserves (payment_deleteMany_userId u).
Proof.
  intros db Hwf. unfold payment_deleteMany_userId. destruct u as [| |u|]; try exact Hwf.
  cbv beta iota delta [bind ret required]. cbn [snd]. wf_open Hwf. wf_close.
  - now apply distinct_map_filter.
  - now apply below_map_filter.
  - now apply forallb_filter.
  - now apply forallb_filter.
Qed.

Lemma membership_update_preserves id role : preserves (membership_update id role).
Proof.
  intros db Hwf. unfold membership_update. destruct id as [| |i|]; try exact Hwf.
  cbv beta iota delta [bind ret required query]. unfold findMembership.
  destruct (find _ (memberships db)) as [m|] eqn:F; [|exact Hwf].
  assert (forall r,
    wf (set_memberships db
          (map (fun x => if Membership.id x =? i
                         then Membership.mk i (Membership.userId m) (Membership.groupId m)
                                r (Membership.joinedAt m)
                         else x) (memberships db))
          (nextMembershipId db)) = true) as Hset.
  { intros r. pose proof F as Fin. apply find_some in Fin. destruct Fin as [Hin _].
    wf_open Hwf. wf_close.
    - rewrite map_replace_key by reflexivity. assumption.
    - rewrite map_replace_key by reflexivity. assumption.
    - apply uniquePairs_replace; [|assumption]. intros x Hx Hid.
      rewrite (find_unique_row Membership.id _ i m x P5 F Hx Hid). auto.
    - apply forallb_map_replace; [assumption|]. cbn [Membership.userId Membership.groupId].
      rewrite forallb_forall in F1. exact (F1 _ Hin). }
  destruct role as [| |r|]; try exact Hwf;
    cbv beta iota delta [bind ret throw updRequired]; cbn [snd]; apply Hset.
Qed.

(** *** Handlers that go on after a response *)

Section KeepsSent.
Variable I : DB -> Prop.

Lemma keepsSent_pass : keepsSent I pass.
Proof. intros x H. exact H. Qed.

Lemma keepsSent_andThen {A B} (m : Express A) (k : A -> Express B) :
  keepsSent I m -> (forall a, keepsSent I (k a)) -> keepsSent I (andThen m k).
Proof.
  intros Hm Hk x H. unfold andThen. specialize (Hm x H).
  destruct (m x) as [[a|] x']; cbn in *; [apply Hk|]; assumption.
Qed.

Lemma keepsSent_await {A} (m : Prisma A) : keeps I m -> keepsSent I (await m).
Proof.
  intros Hm x H. unfold await. specialize (Hm (store x) H).
  destruct (m (store x)) as [o db']. exact Hm.
Qed.

Lemma keepsSent_res_json r : keepsSent I (res_json r).
Proof. intros x H. unfold res_json. destruct (sent x); exact H. Qed.

Lemma keepsSent_sendWhen c r : keepsSent I (sendWhen c r).
Proof. destruct c; [apply keepsSent_res_json | apply keepsSent_pass]. Qed.

Lemma keeps_tryCatchSent body e db :
  keepsSent I body -> I db -> I (snd (tryCatchSent body e db)).
Proof.
  intros Hb H. unfold tryCatchSent. specialize (Hb (mkExchange db None) H).
  destruct (body _) as [[u|] x]; exact Hb.
Qed.

End KeepsSent.

(** *** Every route keeps the store within its schema *)

Ltac head t := lazymatch t with ?f _ => head f | _ => t end.

(* One step through a computation that only reads the store. *)
Ltac keep_read m :=
  let h := head m in
  lazymatch h with
  | @ret => apply keeps_ret
  | @throw => apply keeps_throw
  | @query => apply keeps_query
  | @required => apply keeps_required
  | @bind => apply keeps_bind; [|intros ?]
  | @forEach => apply keeps_forEach; intros ?
  | @complete =>
      lazymatch m with
      | complete ?f =>
          lazymatch f with
          | match ?x with _ => _ end => destruct x
          | _ => cbv zeta; cbn [complete]
          end
      end
  | group_findUnique => apply keeps_group_findUnique
  | group_findUnique_withMembers => apply keeps_group_findUnique_withMembers
  | membership_findUnique => apply keeps_membership_findUnique
  | membership_findUnique_userId_groupId => apply keeps_membership_findUnique_pair
  | membership_findMany_groupId => apply keeps_membership_findMany
  | membership_findMany_userId_withGroup => apply keeps_membership_findMany_userId
  | membership_findMany_where => apply keeps_membership_findMany_where
  | cycle_findUnique => apply keeps_cycle_findUnique
  | cycle_findMany_groupId_ids => apply keeps_cycle_findMany_ids
  | payment_findMany_cycleId => apply keeps_payment_findMany
  | user_findUnique => apply keeps_user_findUnique
  | user_findUnique_email => apply keeps_user_findUnique_email
  | _ =>
      lazymatch m with
      | match ?x with _ => _ end => destruct x
      | let _ := _ in _ => cbv zeta
      end
  end.

(* One step through a write, for the schema. *)
Ltac wf_write m :=
  let h := head m in
  lazymatch h with
  | user_create => apply user_create_preserves
  | user_update => apply user_update_preserves
  | user_delete => apply user_delete_preserves
  | group_create => apply group_create_preserves; apply finiteArg_ifTruthy
  | group_update => apply group_update_preserves; apply finiteArg_ifTruthy
  | group_delete => apply group_delete_preserves
  | membership_create => apply membership_create_preserves
  | membership_update => apply membership_update_preserves
  | membership_delete => apply membership_delete_preserves
  | membership_deleteMany_userId => apply membership_deleteMany_userId_preserves
  | membership_deleteMany_groupId => apply membership_deleteMany_groupId_preserves
  | cycle_create => apply cycle_create_preserves
  | cycle_update => apply cycle_update_preserves
  | cycle_delete => apply cycle_delete_preserves
  | cycle_deleteMany_groupId => apply cycle_deleteMany_preserves
  | payment_update => apply payment_update_preserves
  | payment_deleteMany_userId_cycleGroupId => apply payment_deleteMany_preserves
  | payment_deleteMany_cycleId => apply payment_deleteMany_cycleId_preserves
  | payment_deleteMany_userId => apply payment_deleteMany_userId_preserves
  end.

(* Through the body of a handler, with [write] at the writes. *)
Ltac through write :=
  repeat match goal with
         | |- keeps _ ?m => first [write m | keep_read m]
         | |- keepsSent _ (andThen _ _) => apply keepsSent_andThen; [|intros ?]
         | |- keepsSent _ (await _) => apply keepsSent_await
         | |- keepsSent _ (sendWhen _ _) => apply keepsSent_sendWhen
         | |- keepsSent _ (res_json _) => apply keepsSent_res_json
         end.

(* From the invariant [I] before a handler to [I] after it: past the
   middleware and the [try], then through the body. *)
Ltac handler I write :=
  let H := fresh "H" in
  intros H; cbv zeta;
  first [ apply (keeps_authenticated I); [clear H; intros ? ? H | exact H]
        | apply (keeps_withAuth I); [clear H; intros ? ? H | exact H]
        | match goal with
          | |- context [match authMiddleware ?r with _ => _ end] =>
              destruct (authMiddleware r); [exact H|]
          end
        | idtac ];
  cbv zeta;
  first [ apply (keeps_tryCatch I)
        | apply (keeps_tryCatchReply I)
        | apply (keeps_tryCatchSent I) ]; [ | exact H];
  through write.

Ltac pres := through wf_write.

Ltac schema := handler constr:(fun db : DB => wf db = true) wf_write.

Lemma createUser_preserves_wf req now db :
  wf db = true -> wf (snd (createUser req now db)) = true.
Proof. unfold createUser. schema. Qed.

Lemma updateGroup_preserves_wf req now db :
  wf db = true -> wf (snd (updateGroup req now db)) = true.
Proof. unfold updateGroup. schema. Qed.

Lemma createMembership_preserves_wf req now db :
  wf db = true -> wf (snd (createMembership req now db)) = true.
Proof. unfold createMembership. schema. Qed.

Lemma deleteMembership_preserves_wf req now db :
  wf db = true -> wf (snd (deleteMembership req now db)) = true.
Proof. unfold deleteMembership, deleteMembershipAwaits. schema. Qed.

Lemma createCycle_preserves_wf req now db :
  wf db = true -> wf (snd (createCycle req now db)) = true.
Proof.
  unfold createCycle. schema.
  apply payment_createMany_preserves. rewrite forallb_forall. intros d Hd.
  apply in_map_iff in Hd. destruct Hd as (m & <- & _). apply finiteArg_argFloat.
Qed.

Lemma updateCycle_preserves_wf req now db :
  wf db = true -> wf (snd (updateCycle req now db)) = true.
Proof. unfold updateCycle, recipientIdOf. schema. Qed.

Lemma markPaid_preserves_wf req now db :
  wf db = true -> wf (snd (markPaid req now db)) = true.
Proof. unfold markPaid. schema. Qed.

Lemma listPayments_preserves_wf req now db :
  wf db = true -> wf (snd (listPayments req now db)) = true.
Proof. unfold listPayments. schema. Qed.

Lemma getUser_preserves_wf req now db :
  wf db = true -> wf (snd (getUser req now db)) = true.
Proof. unfold getUser. schema. Qed.

Lemma searchUsers_preserves_wf req q now db :
  wf db = true -> wf (snd (searchUsers req q now db)) = true.
Proof. unfold searchUsers. schema. Qed.

Lemma updateUser_preserves_wf req q now db :
  wf db = true -> wf (snd (updateUser req q now db)) = true.
Proof. unfold updateUser. schema. Qed.

Lemma updatePassword_preserves_wf req now db :
  wf db = true -> wf (snd (updatePassword req now db)) = true.
Proof. unfold updatePassword. schema. Qed.

Lemma deleteUser_preserves_wf req q now db :
  wf db = true -> wf (snd (deleteUser req q now db)) = true.
Proof. unfold deleteUser. schema. Qed.

Lemma updateSettings_preserves_wf req q now db :
  wf db = true -> wf (snd (updateSettings req q now db)) = true.
Proof. unfold updateSettings. schema. Qed.

Lemma updatePushToken_preserves_wf req q now db :
  wf db = true -> wf (snd (updatePushToken req q now db)) = true.
Proof. unfold updatePushToken. schema. Qed.

Lemma loginHandler_preserves_wf req q now db :
  wf db = true -> wf (snd (loginHandler req q now db)) = true.
Proof. unfold loginHandler. schema. Qed.

Lemma createGroup_preserves_wf req q now db :
  wf db = true -> wf (snd (createGroup req q now db)) = true.
Proof. unfold createGroup. schema. Qed.

Lemma listGroups_preserves_wf req q now db :
  wf db = true -> wf (snd (listGroups req q now db)) = true.
Proof. unfold listGroups. schema. Qed.

Lemma getGroup_preserves_wf req q now db :
  wf db = true -> wf (snd (getGroup req q now db)) = true.
Proof. unfold getGroup. schema. Qed.

Lemma deleteGroup_preserves_wf req q now db :
  wf db = true -> wf (snd (deleteGroup req q now db)) = true.
Proof. unfold deleteGroup. schema. Qed.

Lemma listMemberships_preserves_wf req q now db :
  wf db = true -> wf (snd (listMemberships req q now db)) = true.
Proof. unfold listMemberships. schema. Qed.

Lemma updateMembership_preserves_wf req q now db :
  wf db = true -> wf (snd (updateMembership req q now db)) = true.
Proof. unfold updateMembership. schema. Qed.

Lemma listCycles_preserves_wf req q now db :
  wf db = true -> wf (snd (listCycles req q now db)) = true.
Proof. unfold listCycles. schema. Qed.

Lemma getCycle_preserves_wf req q now db :
  wf db = true -> wf (snd (getCycle req q now db)) = true.
Proof. unfold getCycle. schema. Qed.

Lemma deleteCycle_preserves_wf req q now db :
  wf db = true -> wf (snd (deleteCycle req q now db)) = true.
Proof. unfold deleteCycle. schema. Qed.

Lemma handlerOf_preserves_wf r req q now db :
  wf db = true -> wf (snd (handlerOf r req q now db)) = true.
Proof.
  destruct r; cbn [handlerOf]; unfold ofHandler, ofEndpoint; cbn [snd];
    auto using createUser_preserves_wf, updateGroup_preserves_wf,
      createMembership_preserves_wf, deleteMembership_preserves_wf,
      createCycle_preserves_wf, updateCycle_preserves_wf, markPaid_preserves_wf,
      listPayments_preserves_wf, getUser_preserves_wf, searchUsers_preserves_wf,
      updateUser_preserves_wf, updatePassword_preserves_wf, deleteUser_preserves_wf,
      updateSettings_preserves_wf, updatePushToken_preserves_wf,
      loginHandler_preserves_wf, createGroup_preserves_wf, listGroups_preserves_wf,
      getGroup_preserves_wf, deleteGroup_preserves_wf, listMemberships_preserves_wf,
      updateMembership_preserves_wf, listCycles_preserves_wf, getCycle_preserves_wf,
      deleteCycle_preserves_wf.
Qed.

Lemma serve_preserves_wf h now db :
  wf db = true -> wf (snd (serve h now db)) = true.
Proof.
  intros H. unfold serve. destruct (routeOf _ _) as [r p| |]; [|exact H|exact H].
  now apply handlerOf_preserves_wf.
Qed.

(** *** Payments and Cycles come from cycle creation only *)

Lemma samePayment_refl p : samePayment p p.
Proof. repeat split. Qed.

Lemma sameCycle_refl c : sameCycle c c.
Proof. repeat split. Qed.

Lemma samePayment_trans p1 p2 p3 :
  samePayment p1 p2 -> samePayment p2 p3 -> samePayment p1 p3.
Proof. unfold samePayment. intuition congruence. Qed.

Lemma sameCycle_trans c1 c2 c3 : sameCycle c1 c2 -> sameCycle c2 c3 -> sameCycle c1 c3.
Proof. unfold sameCycle. intuition congruence. Qed.

Lemma later_refl db : later db db.
Proof. split; eauto using samePayment_refl, sameCycle_refl. Qed.

Lemma later_trans db1 db2 db3 : later db1 db2 -> later db2 db3 -> later db1 db3.
Proof.
  intros [Hp Hc] [Hp' Hc']. split.
  - intros p3 H3. destruct (Hp' _ H3) as (p2 & H2 & E).
    destruct (Hp _ H2) as (p1 & H1 & E'). eauto using samePayment_trans.
  - intros c3 H3. destruct (Hc' _ H3) as (c2 & H2 & E).
    destruct (Hc _ H2) as (c1 & H1 & E'). eauto using sameCycle_trans.
Qed.

Lemma later_sub db db' :
  (forall p, In p (payments db') -> In p (payments db)) ->
  (forall c, In c (cycles db') -> In c (cycles db)) ->
  later db db'.
Proof. intros Hp Hc. split; eauto using samePayment_refl, sameCycle_refl. Qed.

Lemma later_same db db' :
  payments db' = payments db -> cycles db' = cycles db -> later db db'.
Proof. intros Hp Hc. apply later_sub; intros x Hx; congruence. Qed.

(** A computation after which the store holds no new Payment and no new
    Cycle keeps every store it started from behind it. *)
Lemma later_keeps {A} (m : Prisma A) db0 :
  (forall db, later db (snd (m db))) -> keeps (later db0) m.
Proof. intros Hm db H. eapply later_trans; [exact H | apply Hm]. Qed.

Lemma noPaymentOf_later u g db db' :
  wf db = true -> later db db' -> noPaymentOf u g db -> noPaymentOf u g db'.
Proof.
  intros Hwf [Hp Hc] Hno p' Hin. apply not_true_is_false. intros E.
  unfold paymentOf, cycleInGroup, findCycle in E. apply andb_true_iff in E.
  destruct E as [Eu Eg].
  destruct (find _ (cycles db')) as [c'|] eqn:F; [|discriminate].
  pose proof (find_id_eq Cycle.id _ _ _ F) as Hid. apply find_some in F.
  destruct F as [Hc' _]. destruct (Hc _ Hc') as (c & Hcin & E1 & E2 & _).
  destruct (Hp _ Hin) as (p & Hpin & _ & E3 & E4 & _).
  specialize (Hno _ Hpin). unfold paymentOf, cycleInGroup, findCycle in Hno.
  pose proof (proj1 (wf_split db) Hwf) as ((_ & _ & _ & _ & _ & _ & P7 & _) & _).
  pose proof (find_by_id Cycle.id _ _ P7 Hcin) as Fc.
  rewrite <- E1, Hid, E3 in Fc. rewrite Fc, <- E2, <- E4, Eu, Eg in Hno. discriminate.
Qed.

Ltac same_tables := apply later_same; reflexivity.

Lemma user_create_later email password name phone now db :
  later db (snd (user_create email password name phone now db)).
Proof.
  unfold user_create.
  destruct email as [| |e|]; try apply later_refl.
  destruct password as [| |pw|]; try apply later_refl.
  destruct name as [| |n|]; try apply later_refl;
    (destruct phone as [| |ph|]; try apply later_refl);
    cbv beta iota delta [bind ret throw required optional];
    destruct (existsb _ (users db)); same_tables.
Qed.

Lemma user_update_later id password name phone pushToken now db :
  later db (snd (user_update id password name phone pushToken now db)).
Proof.
  unfold user_update. destruct id as [| |i|]; try apply later_refl.
  cbv beta iota delta [bind ret required query].
  destruct (findUser db i) as [u|]; [|apply later_refl].
  destruct password as [| |pw|]; try apply later_refl;
    (destruct name as [| |n|]; try apply later_refl);
    (destruct phone as [| |ph|]; try apply later_refl);
    (destruct pushToken as [| |pt|]; try apply later_refl);
    cbv beta iota delta [bind ret throw updRequired updNullable]; same_tables.
Qed.

Lemma user_delete_later id db : later db (snd (user_delete id db)).
Proof.
  unfold user_delete. destruct id as [| |i|]; try apply later_refl.
  cbv beta iota delta [bind ret required].
  destruct (findUser db i) as [u|]; [|apply later_refl]. cbn [snd]. split.
  - intros p Hp. cbn in Hp. apply filter_In in Hp. exists p.
    split; [tauto | apply samePayment_refl].
  - intros c' Hc. cbn in Hc. apply in_map_iff in Hc. destruct Hc as (c & <- & Hc).
    exists c. split; [exact Hc|]. unfold clearRecipient.
    destruct (Cycle.recipientUserId c) as [r|]; [|apply sameCycle_refl].
    destruct (r =? i); [repeat split | apply sameCycle_refl].
Qed.

Lemma group_create_later name description contribution frequency maxMembers now db :
  later db (snd (group_create name description contribution frequency maxMembers now db)).
Proof.
  unfold group_create. destruct name as [| |n|]; try apply later_refl.
  destruct description as [| |d|]; try apply later_refl;
    (destruct contribution as [| |c|]; try apply later_refl);
    (destruct frequency as [| |f|]; try apply later_refl);
    (destruct maxMembers as [| |mm|]; try apply later_refl);
    cbv beta iota delta [bind ret throw required optional]; same_tables.
Qed.

Lemma group_update_later id name description contribution frequency maxMembers now db :
  later db (snd (group_update id name description contribution frequency maxMembers now db)).
Proof.
  destruct id as [| |i|]; try apply later_refl. rewrite group_update_eq.
  destruct (findGroup db i) as [g|]; [|apply later_refl].
  destruct (groupRowOf _ _ _ _ _ g now) as [g'|]; [|apply later_refl].
  same_tables.
Qed.

Lemma group_delete_later id db : later db (snd (group_delete id db)).
Proof.
  unfold group_delete. destruct id as [| |i|]; try apply later_refl.
  cbv beta iota delta [bind ret required].
  destruct (find _ (groups db)) as [g|]; [|apply later_refl]. cbn [snd].
  apply later_sub; intros x Hx; cbn in Hx; apply filter_In in Hx; tauto.
Qed.

Lemma membership_create_later userId groupId role now db :
  later db (snd (membership_create userId groupId role now db)).
Proof.
  unfold membership_create.
  destruct userId as [| |u|]; try apply later_refl.
  destruct groupId as [| |g|]; try apply later_refl.
  destruct role as [| |r|]; try apply later_refl;
    cbv beta iota delta [bind ret throw required withDefault];
    destruct (userExists db u && groupExists db g && _); same_tables.
Qed.

Lemma membership_update_later id role db : later db (snd (membership_update id role db)).
Proof.
  unfold membership_update. destruct id as [| |i|]; try apply later_refl.
  cbv beta iota delta [bind ret required query].
  destruct (findMembership db i) as [m|]; [|apply later_refl].
  destruct role as [| |r|]; try apply later_refl;
    cbv beta iota delta [bind ret throw updRequired]; same_tables.
Qed.

Lemma membership_delete_later id db : later db (snd (membership_delete id db)).
Proof.
  unfold membership_delete. destruct id as [| |i|]; try apply later_refl.
  cbv beta iota delta [bind ret required].
  destruct (find _ _) as [m|]; [|apply later_refl]. same_tables.
Qed.

Lemma membership_deleteMany_userId_later u db :
  later db (snd (membership_deleteMany_userId u db)).
Proof.
  unfold membership_deleteMany_userId. destruct u as [| |u|]; try apply later_refl.
  same_tables.
Qed.

Lemma membership_deleteMany_groupId_later g db :
  later db (snd (membership_deleteMany_groupId g db)).
Proof.
  unfold membership_deleteMany_groupId. destruct g as [| |g|]; try apply later_refl.
  same_tables.
Qed.

Lemma cycle_update_later id recipientUserId status db :
  later db (snd (cycle_update id recipientUserId status db)).
Proof.
  destruct id as [| |i|]; try apply later_refl. rewrite cycle_update_eq.
  destruct (findCycle db i) as [c|] eqn:F; [|apply later_refl].
  destruct (cycleUpdateOf _ _ c) as [c'|] eqn:R; [|apply later_refl].
  destruct (optUserExists db _); [|apply later_refl]. cbn [snd].
  pose proof (find_id_eq Cycle.id _ _ _ F) as Hi.
  assert (sameCycle c c') as Hg.
  { unfold cycleUpdateOf in R.
    destruct (updNullableValue recipientUserId (Cycle.recipientUserId c)); [|discriminate].
    destruct (updRequiredValue status (Cycle.status c)); [|discriminate].
    injection R as <-. repeat split. }
  unfold findCycle in F. apply find_some in F. destruct F as [Hin _].
  split; [intros p Hp; exists p; auto using samePayment_refl|].
  intros x Hx. cbn in Hx. apply in_map_iff in Hx. destruct Hx as (r & <- & Hr).
  destruct (Cycle.id r =? i); [exists c | exists r]; auto using sameCycle_refl.
Qed.

Lemma cycle_delete_later id db : later db (snd (cycle_delete id db)).
Proof.
  unfold cycle_delete. destruct id as [| |i|]; try apply later_refl.
  cbv beta iota delta [bind ret required].
  destruct (findCycle db i) as [c|]; [|apply later_refl]. cbn [snd].
  apply later_sub; intros x Hx; cbn in Hx; apply filter_In in Hx; tauto.
Qed.

Lemma cycle_deleteMany_later g db : later db (snd (cycle_deleteMany_groupId g db)).
Proof.
  unfold cycle_deleteMany_groupId. destruct g as [| |g|]; try apply later_refl.
  cbv beta iota delta [bind ret required]. cbn [snd].
  apply later_sub; intros x Hx; cbn in Hx; apply filter_In in Hx; tauto.
Qed.

Lemma payment_update_later id paid paidAt db :
  later db (snd (payment_update id paid paidAt db)).
Proof.
  unfold payment_update. destruct id as [| |i|]; try apply later_refl.
  cbv beta iota delta [bind ret required query].
  destruct (find _ _) as [p|] eqn:F; [|apply later_refl].
  pose proof (find_id_eq Payment.id _ _ _ F) as Hid.
  apply find_some in F. destruct F as [Hin _].
  destruct paid as [| |pd|]; try apply later_refl;
    (destruct paidAt as [| |pa|]; try apply later_refl);
    cbv beta iota delta [bind ret throw updRequired updNullable]; cbn [snd];
    (split;
     [ intros p' Hp'; cbn in Hp'; apply in_map_iff in Hp';
       destruct Hp' as (q & <- & Hq); destruct (Payment.id q =? i);
       [exists p; split; [exact Hin | repeat split; cbn; congruence]
       | exists q; auto using samePayment_refl]
     | intros c Hc; exists c; auto using sameCycle_refl ]).
Qed.

Lemma payment_deleteMany_later u g db :
  later db (snd (payment_deleteMany_userId_cycleGroupId u g db)).
Proof.
  unfold payment_deleteMany_userId_cycleGroupId.
  destruct u as [| |u|]; try apply later_refl. destruct g as [| |g|]; try apply later_refl.
  cbv beta iota delta [bind ret required]. cbn [snd].
  apply later_sub; intros x Hx; cbn in Hx; [apply filter_In in Hx|]; tauto.
Qed.

Lemma payment_deleteMany_cycleId_later c db :
  later db (snd (payment_deleteMany_cycleId c db)).
Proof.
  unfold payment_deleteMany_cycleId. destruct c as [| |c|]; try apply later_refl.
  cbv beta iota delta [bind ret required]. cbn [snd].
  apply later_sub; intros x Hx; cbn in Hx; [apply filter_In in Hx|]; tauto.
Qed.

Lemma payment_deleteMany_userId_later u db :
  later db (snd (payment_deleteMany_userId u db)).
Proof.
  unfold payment_deleteMany_userId. destruct u as [| |u|]; try apply later_refl.
  cbv beta iota delta [bind ret required]. cbn [snd].
  apply later_sub; intros x Hx; cbn in Hx; [apply filter_In in Hx|]; tauto.
Qed.

(* One step through a write that creates no Payment and no Cycle. *)
Ltac later_write m :=
  let h := head m in
  lazymatch h with
  | user_create => apply later_keeps; intros ?; apply user_create_later
  | user_update => apply later_keeps; intros ?; apply user_update_later
  | user_delete => apply later_keeps; intros ?; apply user_delete_later
  | group_create => apply later_keeps; intros ?; apply group_create_later
  | group_update => apply later_keeps; intros ?; apply group_update_later
  | group_delete => apply later_keeps; intros ?; apply group_delete_later
  | membership_create => apply later_keeps; intros ?; apply membership_create_later
  | membership_update => apply later_keeps; intros ?; apply membership_update_later
  | membership_delete => apply later_keeps; intros ?; apply membership_delete_later
  | membership_deleteMany_userId =>
      apply later_keeps; intros ?; apply membership_deleteMany_userId_later
  | membership_deleteMany_groupId =>
      apply later_keeps; intros ?; apply membership_deleteMany_groupId_later
  | cycle_update => apply later_keeps; intros ?; apply cycle_update_later
  | cycle_delete => apply later_keeps; intros ?; apply cycle_delete_later
  | cycle_deleteMany_groupId => apply later_keeps; intros ?; apply cycle_deleteMany_later
  | payment_update => apply later_keeps; intros ?; apply payment_update_later
  | payment_deleteMany_userId_cycleGroupId =>
      apply later_keeps; intros ?; apply payment_deleteMany_later
  | payment_deleteMany_cycleId =>
      apply later_keeps; intros ?; apply payment_deleteMany_cycleId_later
  | payment_deleteMany_userId =>
      apply later_keeps; intros ?; apply payment_deleteMany_userId_later
  end.

Ltac nothing_new db0 := handler constr:(later db0) later_write.

Lemma handlerOf_later r req q now db0 db :
  r <> PostGroupCycles ->
  later db0 db -> later db0 (snd (handlerOf r req q now db)).
Proof.
  intros Hr. destruct r; cbn [handlerOf]; unfold ofHandler, ofEndpoint; cbn [snd];
    try (now contradiction Hr).
  - unfold hello. cbn [snd]. auto.
  - unfold createUser. nothing_new db0.
  - unfold getUser. nothing_new db0.
  - unfold searchUsers. nothing_new db0.
  - unfold updateUser. nothing_new db0.
  - unfold updatePassword. nothing_new db0.
  - unfold deleteUser. nothing_new db0.
  - unfold updateSettings. nothing_new db0.
  - unfold updatePushToken. nothing_new db0.
  - unfold loginHandler. nothing_new db0.
  - unfold createGroup. nothing_new db0.
  - unfold listGroups. nothing_new db0.
  - unfold getGroup. nothing_new db0.
  - unfold updateGroup. nothing_new db0.
  - unfold deleteGroup. nothing_new db0.
  - unfold createMembership. nothing_new db0.
  - unfold listMemberships. nothing_new db0.
  - unfold updateMembership. nothing_new db0.
  - unfold deleteMembership, deleteMembershipAwaits. nothing_new db0.
  - unfold listCycles. nothing_new db0.
  - unfold getCycle. nothing_new db0.
  - unfold updateCycle, recipientIdOf. nothing_new db0.
  - unfold deleteCycle. nothing_new db0.
  - unfold markPaid. nothing_new db0.
  - unfold listPayments. nothing_new db0.
  - unfold health. cbn [snd]. auto.
Qed.

Lemma find_none_app {A} (f : A -> bool) l l2 :
  find f l = None -> find f (l ++ l2) = find f l2.
Proof.
  induction l as [|b l IH]; cbn; [reflexivity|]. destruct (f b); [discriminate | exact IH].
Qed.

Lemma find_app_found {A} (f : A -> bool) l l2 a :
  find f l = Some a -> find f (l ++ l2) = Some a.
Proof.
  induction l as [|b l IH]; cbn; [discriminate|]. destruct (f b); [auto | exact IH].
Qed.

Lemma wf_payment_cycle db p :
  wf db = true -> In p (payments db) -> exists c, findCycle db (Payment.cycleId p) = Some c.
Proof.
  intros Hwf Hin. wf_open Hwf. rewrite forallb_forall in F3. specialize (F3 _ Hin).
  apply andb_true_iff in F3. destruct F3 as [Hc _]. now apply existsb_find.
Qed.

Lemma wf_next_cycle_free db : wf db = true -> findCycle db (nextCycleId db) = None.
Proof.
  intros Hwf. apply wf_split in Hwf.
  destruct Hwf as ((_ & _ & _ & _ & _ & _ & _ & Hb & _) & _).
  unfold findCycle. destruct (find _ (cycles db)) as [c|] eqn:F; [|reflexivity].
  pose proof (find_id_eq Cycle.id _ _ _ F) as Hid. apply find_some in F. destruct F as [Hin _].
  unfold below in Hb. rewrite forallb_forall in Hb.
  specialize (Hb _ (in_map Cycle.id _ _ Hin)). apply Z.ltb_lt in Hb. lia.
Qed.

Lemma fanOut_ids id c a ms p : In p (fanOut id c a ms) -> id <= Payment.id p.
Proof.
  revert id. induction ms as [|m ms IH]; intros id; cbn; [contradiction|].
  intros [<-|Hp]; [cbn; lia|]. specialize (IH _ Hp). lia.
Qed.

(** What a call of [createCycle] leaves in the store: nothing new, a spent
    Cycle id, or one Cycle of some Group with the fan-out over that Group's
    Memberships. *)
Lemma createCycle_store req now db :
  wf db = true ->
  let db' := snd (createCycle req now db) in
  db' = db
  \/ db' = set_cycles db (cycles db) (nextCycleId db + 1)
  \/ exists c a,
       Cycle.id c = nextCycleId db
       /\ db' = set_payments (set_cycles db (cycles db ++ [c]) (nextCycleId db + 1))
                  (payments db
                   ++ fanOut (nextPaymentId db) (Cycle.id c) a
                        (membersOf db (Cycle.groupId c)))
                  (nextPaymentId db + Z.of_nat (List.length (membersOf db (Cycle.groupId c)))).
Proof.
  intros Hwf db'. subst db'.
  destruct (authMiddleware req) as [r|user] eqn:Hauth.
  { left. unfold createCycle, authenticated. now rewrite Hauth. }
  destruct (argInt (parseInt (Some (JStr (param req))))) as [| |g|] eqn:Hg;
    try (left; unfold createCycle, authenticated; rewrite Hauth;
         unfold tryCatch; rewrite Hg; reflexivity).
  destruct (membershipOf db (jwt_userId user) g) as [m|] eqn:Hm.
  2:{ left. unfold createCycle, authenticated. rewrite Hauth.
      unfold tryCatch. rewrite Hg.
      unfold bind at 1. unfold membership_findUnique_userId_groupId.
      cbn [required bind ret query]. unfold membershipOf in Hm. now rewrite Hm. }
  destruct (String.eqb (Membership.role m) "admin") eqn:Hrole.
  2:{ left. unfold createCycle, authenticated. rewrite Hauth.
      unfold tryCatch. rewrite Hg.
      unfold bind at 1. unfold membership_findUnique_userId_groupId.
      cbn [required bind ret query]. unfold membershipOf in Hm. rewrite Hm, Hrole.
      reflexivity. }
  apply String.eqb_eq in Hrole.
  rewrite (createCycle_eq_arg req now db user g m Hauth Hg Hm Hrole
             (wf_member_users _ Hwf) (wf_finite_contributions _ Hwf)).
  destruct (requestedCycle req (nextCycleId db) now) as [c|] eqn:Hc; [|now left].
  destruct (groupExists db g && optUserExists db (Cycle.recipientUserId c));
    [|right; left; reflexivity].
  right. right. exists c, (groupContributionOf (findGroup db g)).
  unfold requestedCycle in Hc.
  destruct (cycleRowOf_Some _ _ _ _ _ _ _ _ _ Hc) as (Hid & Hgc & _).
  rewrite Hg in Hgc. cbn [argValue] in Hgc. injection Hgc as Hgc.
  rewrite Hgc. split; [exact Hid | reflexivity].
Qed.

(** After any request, a row is one the store had or carries a fresh id. *)
Lemma serve_rows h now db :
  wf db = true ->
  let db' := snd (serve h now db) in
  (forall p', In p' (payments db') ->
     (exists p, In p (payments db) /\ samePayment p p') \/ nextPaymentId db <= Payment.id p')
  /\ (forall c', In c' (cycles db') ->
        (exists c, In c (cycles db) /\ sameCycle c c') \/ nextCycleId db <= Cycle.id c').
Proof.
  intros Hwf db'. subst db'. unfold serve.
  assert (forall d : DB, payments d = payments db -> cycles d = cycles db ->
    (forall p', In p' (payments d) ->
       (exists p, In p (payments db) /\ samePayment p p')
       \/ nextPaymentId db <= Payment.id p')
    /\ (forall c', In c' (cycles d) ->
          (exists c, In c (cycles db) /\ sameCycle c c')
          \/ nextCycleId db <= Cycle.id c')) as Hsame.
  { intros d Ep Ec. rewrite Ep, Ec. split; intros x Hx; left; exists x;
      auto using samePayment_refl, sameCycle_refl. }
  destruct (routeOf _ _) as [r p| |]; [|now apply Hsame|now apply Hsame].
  assert (r <> PostGroupCycles ->
    (forall p', In p' (payments (snd (handlerOf r
         (mkRequest (http_authorization h) p (http_body h)) (http_query h) now db))) ->
       (exists p, In p (payments db) /\ samePayment p p')
       \/ nextPaymentId db <= Payment.id p')
    /\ (forall c', In c' (cycles (snd (handlerOf r
         (mkRequest (http_authorization h) p (http_body h)) (http_query h) now db))) ->
          (exists c, In c (cycles db) /\ sameCycle c c')
          \/ nextCycleId db <= Cycle.id c')) as Hother.
  { intros Hr.
    destruct (handlerOf_later r (mkRequest (http_authorization h) p (http_body h))
                (http_query h) now db db Hr (later_refl db)) as [Hp Hc].
    split; intros x Hx; left; [apply Hp | apply Hc]; exact Hx. }
  destruct r; try (apply Hother; discriminate). clear Hother.
  cbn [handlerOf]. unfold ofHandler. cbn [snd].
  destruct (createCycle_store (mkRequest (http_authorization h) p (http_body h)) now db Hwf)
    as [-> | [-> | (c & a & Hid & ->)]]; [now apply Hsame | now apply Hsame |].
  cbn [payments cycles set_payments set_cycles]. split; intros x Hx;
    apply in_app_or in Hx; destruct Hx as [Hx|Hx];
    try (left; exists x; split; [exact Hx|];
         first [apply samePayment_refl | apply sameCycle_refl]).
  - right. exact (fanOut_ids _ _ _ _ _ Hx).
  - right. destruct Hx as [<-|[]]. lia.
Qed.

Lemma createCycle_keeps_cleared u g req now db :
  membershipOf db u g = None ->
  cleared u g db -> cleared u g (snd (createCycle req now db)).
Proof.
  intros Hout [Hwf Hno]. split; [now apply createCycle_preserves_wf|].
  destruct (createCycle_store req now db Hwf) as [-> | [-> | (c & a & Hid & ->)]].
  - exact Hno.
  - intros p Hp. exact (Hno p Hp).
  - intros p Hp. cbn [payments set_payments] in Hp.
    unfold paymentOf, cycleInGroup, findCycle.
    cbn [cycles set_cycles set_payments].
    apply in_app_or in Hp. destruct Hp as [Hp | Hp].
    + destruct (wf_payment_cycle db p Hwf Hp) as (c0 & F).
      unfold findCycle in F. rewrite (find_app_found _ _ _ _ F).
      specialize (Hno p Hp). unfold paymentOf, cycleInGroup, findCycle in Hno.
      now rewrite F in Hno.
    + pose proof (fanOut_rows (nextPaymentId db) (Cycle.id c) a
                    (membersOf db (Cycle.groupId c))) as Hr.
      rewrite Forall_forall in Hr. destruct (Hr p Hp) as (Hcp & _).
      rewrite Hcp, Hid. pose proof (wf_next_cycle_free db Hwf) as Hfree.
      unfold findCycle in Hfree. rewrite (find_none_app _ _ _ Hfree).
      cbn [find]. rewrite Hid, Z.eqb_refl.
      apply not_true_is_false. intros E. apply andb_true_iff in E.
      destruct E as [Eu Eg]. apply Z.eqb_eq in Eu. apply Z.eqb_eq in Eg.
      pose proof (in_map Payment.userId _ _ Hp) as Hu. rewrite fanOut_userIds in Hu.
      apply in_map_iff in Hu. destruct Hu as (m & Hmu & Hm).
      unfold membersOf in Hm. apply filter_In in Hm. destruct Hm as [Hm Hmg].
      apply Z.eqb_eq in Hmg.
      pose proof (proj1 (wf_split db) Hwf) as (_ & (_ & Hpairs) & _).
      pose proof (find_membership _ m Hpairs Hm) as F.
      unfold membershipOf in Hout. congruence.
Qed.

Lemma serve_keeps_cleared u g h now db :
  membershipOf db u g = None -> cleared u g db -> cleared u g (snd (serve h now db)).
Proof.
  intros Hout Hcl. unfold serve.
  destruct (routeOf _ _) as [r p| |]; [|exact Hcl|exact Hcl].
  assert (r <> PostGroupCycles ->
          cleared u g (snd (handlerOf r (mkRequest (http_authorization h) p (http_body h))
                              (http_query h) now db))) as Hother.
  { intros Hr. destruct Hcl as [Hwf Hno]. split; [now apply handlerOf_preserves_wf|].
    apply (noPaymentOf_later u g db); [exact Hwf | | exact Hno].
    apply handlerOf_later; [exact Hr | apply later_refl]. }
  destruct r; try (apply Hother; discriminate).
  cbn [handlerOf]. unfold ofHandler. cbn [snd]. now apply createCycle_keeps_cleared.
Qed.

Lemma run_keeps_cleared u g calls db :
  staysOut u g calls db -> cleared u g db -> cleared u g (run calls db).
Proof.
  revert db. induction calls as [|[h now] calls IH]; intros db Hs H; cbn [run]; [exact H|].
  destruct Hs as [Hout Hs]. apply IH; [exact Hs|]. now apply serve_keeps_cleared.
Qed.

(** A permitted removal leaves the user without Membership and without
    Payment in the Group. *)
Lemma deleteMembership_clears req now db user m :
  wf db = true ->
  authMiddleware req = inr user ->
  toInt32 (parseInt (Some (JStr (param req)))) = Some (Membership.id m) ->
  In m (memberships db) ->
  status (fst (deleteMembership req now db)) = 200 ->
  let db' := snd (deleteMembership req now db) in
  cleared (Membership.userId m) (Membership.groupId m) db'
  /\ membershipOf db' (Membership.userId m) (Membership.groupId m) = None.
Proof.
  intros Hwf Hauth Hi Hin Hs db'.
  pose proof (deleteMembership_preserves_wf req now db Hwf) as Hwf'.
  pose proof (find_by_id Membership.id _ _ (wf_membership_ids _ Hwf) Hin) as Hm.
  subst db'. revert Hs Hwf'.
  rewrite (deleteMembership_eq req now db user _ m Hauth Hi Hm).
  destruct (_ || _); cbn [fst snd status]; [|discriminate]. intros _ Hwf'.
  split; [split; [exact Hwf'|]|].
  - intros p Hp. cbn [withoutMembership withoutPayments payments set_payments
                       set_memberships] in Hp.
    apply filter_In in Hp. destruct Hp as [_ Hp]. apply negb_true_iff in Hp. exact Hp.
  - unfold membershipOf. cbn [withoutMembership memberships set_memberships withoutPayments
                               set_payments].
    destruct (find _ (filter _ _)) as [m'|] eqn:F; [|reflexivity].
    apply find_some in F. destruct F as [F1 F2]. apply filter_In in F1.
    destruct F1 as [F1 F3]. apply negb_true_iff, Z.eqb_neq in F3.
    pose proof (proj1 (wf_split db) Hwf) as (_ & (_ & Hpairs) & _).
    pose proof (find_membership _ m Hpairs Hin) as Fm.
    pose proof (find_membership _ m' Hpairs F1) as Fm'.
    unfold isMembership in F2. apply andb_true_iff in F2. destruct F2 as [E1 E2].
    apply Z.eqb_eq in E1. apply Z.eqb_eq in E2. rewrite E1, E2 in Fm'. congruence.
Qed.

(** With no Payment of [u] in [g] in the store, no listing of a Cycle of
    [g] shows one. *)
Lemma cleared_listPayments u g db req now ps cid c pw :
  noPaymentOf u g db ->
  toInt32 (parseInt (Some (JStr (param req)))) = Some cid ->
  findCycle db cid = Some c ->
  Cycle.groupId c = g ->
  json (fst (listPayments req now db)) = BPayments ps ->
  In pw ps ->
  Payment.userId (PaymentWithUserCycle.payment pw) <> u.
Proof.
  intros Hno Hcid Hc Hcg Hps Hpw.
  destruct (listPayments_lists _ _ _ _ Hps) as (cid' & Hcid' & Hmap).
  rewrite (argInt_Value _ _ Hcid) in Hcid'. injection Hcid' as <-.
  pose proof (in_map PaymentWithUserCycle.payment _ _ Hpw) as Hf.
  rewrite Hmap in Hf.
  apply filter_In in Hf. destruct Hf as [Hf1 Hf2]. apply Z.eqb_eq in Hf2.
  specialize (Hno _ Hf1). unfold paymentOf, cycleInGroup in Hno.
  rewrite Hf2, Hc, Hcg, Z.eqb_refl, andb_true_r in Hno.
  now apply Z.eqb_neq in Hno.
Qed.

(** *** The invariants of the application *)

(** X1. Whatever requests are served, in whatever order and by whatever caller,
    the store stays within [schema.prisma]: ids are unique and below their
    sequences, emails and (user, group) pairs are unique, every foreign key
    points at a row, and the [Float] columns hold finite numbers.  In
    particular the deletions, which the handlers do by hand and outside a
    transaction, never leave a Membership, Cycle or Payment without its
    parent, at whatever step they stop. *)
Theorem run_preserves_wf (calls : list (HttpRequest * DateTime)) (db : DB) :
  wf db = true -> wf (run calls db) = true.
Proof.
  revert db. induction calls as [|[h now] calls IH]; intros db H; cbn [run]; [exact H|].
  apply IH, serve_preserves_wf, H.
Qed.

(** X2. No route but [POST /groups/:groupId/cycles] creates a Payment or a
    Cycle: after any other request, every Payment of the store is one it had
    before, with the same id, cycle, user and amount, and every Cycle is one
    it had before, with the same id, group, index and dates. *)
Theorem only_cycle_creation_adds_rows (h : HttpRequest) (now : DateTime) (db : DB) :
  (forall p, routeOf (http_method h) (http_path h) <> Routed PostGroupCycles p) ->
  later db (snd (serve h now db)).
Proof.
  intros Hr. unfold serve.
  destruct (routeOf _ _) as [r p| |]; [|apply later_refl|apply later_refl].
  apply handlerOf_later; [|apply later_refl]. intros ->. now apply (Hr p).
Qed.

(** X3. No request changes the cycle, the user or the amount of a Payment: in a
    store within its schema, a Payment found after a request under the id of
    a Payment of before carries the same three values. *)
Theorem payment_amount_is_immutable (h : HttpRequest) (now : DateTime) (db : DB)
    (p p' : Payment.t) :
  wf db = true ->
  In p (payments db) ->
  In p' (payments (snd (serve h now db))) ->
  Payment.id p' = Payment.id p ->
  samePayment p p'.
Proof.
  intros Hwf Hp Hp' Hid. pose proof (proj1 (wf_split db) Hwf) as (Hk & _).
  destruct Hk as (_ & _ & _ & _ & _ & _ & _ & _ & P9 & P10).
  destruct (proj1 (serve_rows h now db Hwf) p' Hp') as [(p0 & Hp0 & Hs) | Hfresh].
  - destruct Hs as (E & Hs). pose proof (find_by_id Payment.id _ _ P9 Hp) as F.
    pose proof (find_by_id Payment.id _ _ P9 Hp0) as F0.
    rewrite <- E, Hid, F in F0. injection F0 as ->. split; assumption.
  - rewrite below_spec in P10. specialize (P10 _ (in_map Payment.id _ _ Hp)). lia.
Qed.

(** X4. No request moves a Cycle to another Group or changes its index or its
    dates: in a store within its schema, a Cycle found after a request under
    the id of a Cycle of before differs from it in recipient and status at
    most. *)
Theorem cycle_group_is_immutable (h : HttpRequest) (now : DateTime) (db : DB)
    (c c' : Cycle.t) :
  wf db = true ->
  In c (cycles db) ->
  In c' (cycles (snd (serve h now db))) ->
  Cycle.id c' = Cycle.id c ->
  sameCycle c c'.
Proof.
  intros Hwf Hc Hc' Hid. pose proof (proj1 (wf_split db) Hwf) as (Hk & _).
  destruct Hk as (_ & _ & _ & _ & _ & _ & P7 & P8 & _).
  destruct (proj2 (serve_rows h now db Hwf) c' Hc') as [(c0 & Hc0 & Hs) | Hfresh].
  - destruct Hs as (E & Hs). pose proof (find_by_id Cycle.id _ _ P7 Hc) as F.
    pose proof (find_by_id Cycle.id _ _ P7 Hc0) as F0.
    rewrite <- E, Hid, F in F0. injection F0 as ->. split; assumption.
  - rewrite below_spec in P8. specialize (P8 _ (in_map Cycle.id _ _ Hc)). lia.
Qed.

(** X5. After a permitted removal of a Membership, and through any later
    requests to the application before which the user has not been made a
    member again, no listing of a Cycle of the Group shows a Payment of the
    removed user: neither an old one nor one of a Cycle created since. *)
Theorem removed_member_stays_unlisted (req : Request) (now : DateTime) (db : DB)
    (user : JwtPayload) (m : Membership.t) (calls : list (HttpRequest * DateTime))
    (req' : Request) (now' : DateTime) (ps : list PaymentWithUserCycle.t)
    (cid : Z) (c : Cycle.t) (pw : PaymentWithUserCycle.t) :
  wf db = true ->
  authMiddleware req = inr user ->
  toInt32 (parseInt (Some (JStr (param req)))) = Some (Membership.id m) ->
  In m (memberships db) ->
  status (fst (deleteMembership req now db)) = 200 ->
  let u := Membership.userId m in
  let g := Membership.groupId m in
  let db' := run calls (snd (deleteMembership req now db)) in
  staysOut u g calls (snd (deleteMembership req now db)) ->
  toInt32 (parseInt (Some (JStr (param req')))) = Some cid ->
  findCycle db' cid = Some c ->
  Cycle.groupId c = g ->
  json (fst (listPayments req' now' db')) = BPayments ps ->
  In pw ps ->
  Payment.userId (PaymentWithUserCycle.payment pw) <> u.
Proof.
  intros Hwf Hauth Hi Hin Hs u g db' Hout Hcid Hc Hcg Hps Hpw.
  destruct (deleteMembership_clears req now db user m Hwf Hauth Hi Hin Hs) as [Hcl _].
  destruct (run_keeps_cleared u g calls _ Hout Hcl) as [_ Hno].
  exact (cleared_listPayments u g db' req' now' ps cid c pw Hno Hcid Hc Hcg Hps Hpw).
Qed.
(** C3 (as amended).  The removal of an existing Membership is permitted
    (200) exactly when the caller is its own user or holds an admin
    Membership of its Group; otherwise it is refused with 403 and nothing
    changes.  When it is permitted, the calls the handler awaits leave these
    stores, in this order: the store as it was (the reads), then the store
    without any Payment of that user in the Cycles of that Group, in which
    the Membership is still there, then the store without the Membership.
    From then on, through any later requests before each of which the user
    holds no Membership of the Group, listing the Payments of any Cycle of
    that Group, for any caller, returns no Payment of that user. *)
Theorem deleteMembership_permission_and_cleanup (req : Request) (now : DateTime)
    (db : DB) (user : JwtPayload) (m : Membership.t) :
  wf db = true ->
  authMiddleware req = inr user ->
  toInt32 (parseInt (Some (JStr (param req)))) = Some (Membership.id m) ->
  In m (memberships db) ->
  let u := jwt_userId user in
  let g := Membership.groupId m in
  let permitted := Membership.userId m = u \/ holdsRole db u g "admin" in
  let r := deleteMembership req now db in
  let db1 := withoutPayments (Membership.userId m) g db in
  (status (fst r) = 200 <-> permitted)
  /\ (~ permitted ->
      fst r = mkResponse 403 (BError "Only group admins can remove other members")
      /\ snd r = db)
  /\ (permitted ->
      (exists reads,
         storesOf (deleteMembershipAwaits req user) db = (reads ++ [db1; snd r])%list
         /\ Forall (eq db) reads)
      /\ In m (memberships db1)
      /\ noPaymentOf (Membership.userId m) g db1
      /\ snd r = withoutMembership (Membership.id m) db1
      /\ ~ In m (memberships (snd r))
      /\ payments (snd r) = payments db1
      /\ cycles (snd r) = cycles db
      /\ (forall calls req' now' ps cid c pw,
            staysOut (Membership.userId m) g calls (snd r) ->
            toInt32 (parseInt (Some (JStr (param req')))) = Some cid ->
            findCycle (run calls (snd r)) cid = Some c ->
            Cycle.groupId c = g ->
            json (fst (listPayments req' now' (run calls (snd r)))) = BPayments ps ->
            In pw ps ->
            Payment.userId (PaymentWithUserCycle.payment pw) <> Membership.userId m)).
Proof.
  intros Hwf Hauth Hi Hin u g permitted r db1.
  pose proof (find_by_id Membership.id _ _ (wf_membership_ids _ Hwf) Hin) as Hm.
  assert (permitted <->
          (Membership.userId m =? u) || isAdmin db u g = true) as Hperm.
  { subst permitted. rewrite orb_true_iff, Z.eqb_eq.
    now rewrite (isAdmin_holdsRole db u g Hwf). }
  pose proof (deleteMembership_clears req now db user m Hwf Hauth Hi Hin) as Hclears.
  fold r in Hclears. cbv zeta in Hclears.
  assert (fst r = fst (deleteMembership req now db)) as Hfst by reflexivity.
  assert (r = deleteMembership req now db) as Hr by reflexivity.
  rewrite (deleteMembership_eq req now db user _ m Hauth Hi Hm) in Hr.
  fold u g in Hr. rewrite Hperm. clear Hfst.
  destruct ((Membership.userId m =? u) || isAdmin db u g) eqn:Hp.
  2:{ rewrite Hr. cbn [fst snd status]. split; [split; discriminate|].
      split; [auto|]. discriminate. }
  assert (status (fst r) = 200) as Hs by (rewrite Hr; reflexivity).
  split; [tauto|]. split; [intros Hn; now contradiction Hn|]. intros _.
  assert (snd r = withoutMembership (Membership.id m) db1) as Hsnd
    by (rewrite Hr; reflexivity).
  split.
  { unfold deleteMembershipAwaits. rewrite !(argInt_Value _ _ Hi).
    cbn [storesOf]. unfold membership_findUnique at 1.
    cbv beta iota delta [bind ret query required]. rewrite Hm. fold u g.
    assert (storesOf
              (payment_deleteMany_userId_cycleGroupId (Value (Membership.userId m))
                 (Value g) ~;;
               membership_delete (Value (Membership.id m)) ~;;
               Return (mkResponse 200 (BMessage "Member removed successfully"))) db
            = [db1; snd r]) as Hremove.
    { cbn [storesOf]. unfold payment_deleteMany_userId_cycleGroupId, membership_delete.
      cbv beta iota delta [bind ret query required]. cbn [memberships set_payments].
      rewrite Hm. cbn [storesOf]. rewrite Hsnd. reflexivity. }
    unfold isAdmin, membershipOf in Hp.
    destruct (Membership.userId m =? u); cbn [negb orb] in *.
    - exists [db]. split; [|repeat constructor]. cbn [app]. now rewrite Hremove.
    - cbn [storesOf]. unfold membership_findUnique_userId_groupId.
      cbv beta iota delta [bind ret query required].
      destruct (find (isMembership u g) (memberships db)) as [um|]; [|discriminate].
      rewrite Hp. cbn [negb]. exists [db; db]. split; [|repeat constructor].
      cbn [app]. now rewrite Hremove. }
  split; [exact Hin|].
  split.
  { intros p Hp1. subst db1. unfold withoutPayments in Hp1.
    cbn [payments set_payments] in Hp1.
    apply filter_In in Hp1. destruct Hp1 as [_ Hp1]. apply negb_true_iff in Hp1.
    exact Hp1. }
  split; [exact Hsnd|].
  split.
  { rewrite Hsnd. cbn [withoutMembership memberships set_memberships]. intros Hx.
    apply filter_In in Hx. destruct Hx as [_ Hx]. rewrite Z.eqb_refl in Hx. discriminate. }
  split; [rewrite Hsnd; reflexivity|]. split; [rewrite Hsnd; reflexivity|].
  intros calls req' now' ps cid c pw Hout Hcid Hc Hcg Hps Hpw.
  destruct (Hclears Hs) as [Hcl _].
  destruct (run_keeps_cleared _ _ calls _ Hout Hcl) as [_ Hno].
  exact (cleared_listPayments _ _ _ req' now' ps cid c pw Hno Hcid Hc Hcg Hps Hpw).
Qed.

(** ** Properties of the other routes *)

Lemma toInt32_integerOf x z : toInt32 x = Some z -> integerOf x = Some z.
Proof.
  unfold toInt32, integerOf. destruct (Prim2SF x) as [s|s| |s m e]; try discriminate;
    [trivial|]. cbv zeta. destruct (_ || _); cbn [andb]; [|discriminate].
  destruct (_ && _); [trivial | discriminate].
Qed.

Lemma sameNumber_toInt32 x z n : toInt32 x = Some z -> sameNumber x n = (z =? n).
Proof. intros H. unfold sameNumber. now rewrite (toInt32_integerOf _ _ H). Qed.

(** *** Users: [PUT /users/:userId/password] *)

(** X6. The current password is not needed to change one's own password.  When
    the caller names its own account and sends a string as [new_password],
    the new password is stored whatever [current_password] is: with a wrong
    one the handler answers 401 and, having not returned, goes on to the
    update. *)
Theorem updatePassword_own_account (req : Request) (now : DateTime) (db : DB)
    (requester : JwtPayload) (u : User.t) (new_password : string) :
  authMiddleware req = inr requester ->
  toInt32 (parseInt (Some (JStr (param req)))) = Some (jwt_userId requester) ->
  findUser db (jwt_userId requester) = Some u ->
  field "new_password" (body req) = Some (JStr new_password) ->
  let r := updatePassword req now db in
  fst r = Some (if sameString (field "current_password" (body req)) (User.password u)
                then jsonReply 200 (messageOut "Password updated successfully")
                else jsonReply 401 (errorOut "Current password is incorrect"))
  /\ snd r = replaceUser db (withPassword u new_password now)
  /\ findUser (snd r) (jwt_userId requester) = Some (withPassword u new_password now).
Proof.
  intros Hauth Hi Hu Hnew r. subst r.
  pose proof (find_id_eq User.id _ _ _ Hu) as Hid.
  assert (updatePassword req now db
          = (Some (if sameString (field "current_password" (body req)) (User.password u)
                   then jsonReply 200 (messageOut "Password updated successfully")
                   else jsonReply 401 (errorOut "Current password is incorrect")),
             replaceUser db (withPassword u new_password now))) as E.
  { unfold updatePassword. rewrite Hauth.
    unfold tryCatchSent, andThen, sendWhen, await, res_json, pass, user_findUnique,
      user_update.
    rewrite (argInt_Value _ _ Hi), (sameNumber_toInt32 _ _ _ Hi), Z.eqb_refl, Hnew.
    unfold replaceUser, withPassword. rewrite Hid.
    repeat (cbv beta iota delta [bind ret required query negb store sent argString
                                 updRequired updNullable isUndefined andb];
            rewrite ?Hu).
    destruct (sameString _ _);
      repeat (cbv beta iota delta [bind ret required query negb store sent argString
                                   updRequired updNullable isUndefined andb];
              rewrite ?Hu); reflexivity. }
  rewrite E. cbn [fst snd]. split; [reflexivity|]. split; [reflexivity|].
  unfold replaceUser, findUser. cbn [users set_users withPassword User.id].
  rewrite Hid. apply (find_map_replace User.id _ _ u); [exact Hid | exact Hu].
Qed.

Ltac evaluate :=
  cbv beta iota zeta
      delta [bind ret throw required query optional withDefault whereKey negb store sent
             updRequired updNullable isUndefined andb orb tryCatchReply tryCatchSent
             andThen sendWhen await res_json pass withAuth].

(** X7. A 403 for another account does not stop the handler either: it goes on
    to compare the current password and, when that is the right one, stores
    the new password of the other user; with a wrong one the attempt to
    answer 401 throws, and the store is left as it was. *)
Theorem updatePassword_other_account (req : Request) (now : DateTime) (db : DB)
    (requester : JwtPayload) (i : Z) (v : User.t) (new_password : string) :
  authMiddleware req = inr requester ->
  toInt32 (parseInt (Some (JStr (param req)))) = Some i ->
  i <> jwt_userId requester ->
  findUser db i = Some v ->
  field "new_password" (body req) = Some (JStr new_password) ->
  let r := updatePassword req now db in
  fst r = Some (jsonReply 403 (errorOut "You can only update your own password"))
  /\ snd r = if sameString (field "current_password" (body req)) (User.password v)
             then replaceUser db (withPassword v new_password now)
             else db.
Proof.
  intros Hauth Hi Hne Hv Hnew r. subst r.
  pose proof (find_id_eq User.id _ _ _ Hv) as Hid. apply Z.eqb_neq in Hne.
  unfold updatePassword. rewrite Hauth. unfold user_findUnique, user_update.
  rewrite (argInt_Value _ _ Hi), (sameNumber_toInt32 _ _ _ Hi), Hne, Hnew.
  unfold replaceUser, withPassword. rewrite Hid.
  repeat (evaluate; rewrite ?Hv).
  destruct (sameString _ _); repeat (evaluate; cbn [argString]; rewrite ?Hv);
    split; reflexivity.
Qed.

(** *** Users: [GET /users/:userId] *)

(** X8. A caller gets its own profile only.  For any other id the answer is 403,
    and what the handler does after it (it does not return) cannot replace
    that answer; for its own id the answer is the [id], [name], [email] and
    [phone] of the row, without the password, or 404.  The store is not
    written. *)
Theorem getUser_own_profile_only (req : Request) (now : DateTime) (db : DB)
    (requester : JwtPayload) :
  authMiddleware req = inr requester ->
  let x := parseInt (Some (JStr (param req))) in
  let r := getUser req now db in
  snd r = db
  /\ (sameNumber x (jwt_userId requester) = false ->
      fst r = Some (jsonReply 403 (errorOut "You can only view your own profile")))
  /\ (toInt32 x = Some (jwt_userId requester) ->
      fst r = Some (match findUser db (jwt_userId requester) with
                    | Some u => jsonReply 200 (rowOut (profileObject u))
                    | None => jsonReply 404 (errorOut "User not found")
                    end)
      /\ forall u, member "password" (rowOut (profileObject u)) = None).
Proof.
  intros Hauth x r. subst x r. unfold getUser. rewrite Hauth. unfold user_findUnique.
  split; [|split].
  - destruct (sameNumber _ _); destruct (argInt _) as [| |i|]; evaluate;
      try reflexivity; destruct (findUser db i); reflexivity.
  - intros ->. destruct (argInt _) as [| |i|]; evaluate; try reflexivity.
    destruct (findUser db i); reflexivity.
  - intros Hi. rewrite (argInt_Value _ _ Hi), (sameNumber_toInt32 _ _ _ Hi), Z.eqb_refl.
    evaluate. split; [|reflexivity].
    destruct (findUser db (jwt_userId requester)); reflexivity.
Qed.

(** *** Users: [PUT /users/:userId] *)




(** *** Users: [DELETE /users/:userId] *)

Lemma filter_twice {A} (f g : A -> bool) l :
  (forall a, g a = f a) -> filter f (filter g l) = filter f l.
Proof.
  intros H. induction l as [|a l IH]; cbn; [reflexivity|]. rewrite H.
  destruct (f a) eqn:E; cbn; [rewrite E|]; now rewrite IH.
Qed.

(** X10. A caller deletes its own account only: for any other id the answer is
    403 and nothing is written.  The deletion of one's own account removes
    the user, every Membership and every Payment of the user, and clears the
    recipient of the Cycles the user was to receive; Groups and Cycles stay,
    also those the user was the only admin of.  With a token whose user is
    gone the answer is 500 and nothing is written. *)
Theorem deleteUser_own_account_only (req : Request) (q : list (string * Json))
    (now : DateTime) (db : DB) (requester : JwtPayload) :
  wf db = true ->
  authMiddleware req = inr requester ->
  let x := parseInt (Some (JStr (param req))) in
  let me := jwt_userId requester in
  let r := deleteUser req q now db in
  (sameNumber x me = false ->
   r = (jsonReply 403 (errorOut "You can only delete your own account"), db))
  /\ (toInt32 x = Some me ->
      r = match findUser db me with
          | Some _ =>
              (jsonReply 200 (messageOut "Account deleted successfully"),
               withoutUser me db)
          | None => (jsonReply 500 (errorOut "Failed to delete user"), db)
          end).
Proof.
  intros Hwf Hauth x me r. subst x me r. unfold deleteUser. split.
  - intros Hx. evaluate. rewrite Hauth, Hx. reflexivity.
  - intros Hi. evaluate. rewrite Hauth.
    unfold membership_deleteMany_userId, payment_deleteMany_userId, user_delete.
    rewrite (argInt_Value _ _ Hi), (sameNumber_toInt32 _ _ _ Hi), Z.eqb_refl.
    evaluate. unfold findUser. cbn [users set_payments set_memberships].
    destruct (find _ (users db)) as [u|] eqn:Hu.
    + unfold withoutUser.
      cbn [users groups memberships cycles payments nextUserId nextGroupId
           nextMembershipId nextCycleId nextPaymentId set_payments set_memberships].
      f_equal. f_equal; apply filter_twice; reflexivity.
    + f_equal. wf_open Hwf.
      assert (existsb (fun r => User.id r =? jwt_userId requester) (users db) = false)
        as Hno.
      { apply not_true_is_false. intros E. apply existsb_exists in E.
        destruct E as (a & Ha & Ea). apply (find_none _ _ Hu) in Ha. congruence. }
      destruct db as [us gs ms cs ps n1 n2 n3 n4 n5]. unfold set_payments, set_memberships.
      cbn [users groups memberships cycles payments nextUserId nextGroupId
           nextMembershipId nextCycleId nextPaymentId] in *.
      f_equal.
      * apply filter_all. rewrite forallb_forall. intros m Hm.
        rewrite forallb_forall in F1. specialize (F1 _ Hm).
        apply andb_true_iff in F1. destruct F1 as [F1 _].
        apply negb_true_iff, Z.eqb_neq. intros E. rewrite E in F1. congruence.
      * apply filter_all. rewrite forallb_forall. intros p Hp.
        rewrite forallb_forall in F3. specialize (F3 _ Hp).
        apply andb_true_iff in F3. destruct F3 as [_ F3].
        apply negb_true_iff, Z.eqb_neq. intros E. rewrite E in F3. congruence.
Qed.

(** *** Users: [POST /auth/login] *)

(** X11. The login answers 200 exactly when a user carries the email of the
    request, lowercased, and the password of the request is the stored one,
    character for character (and the token can be signed); the reply then
    holds the token and the [id], [email] and [name] of the user.  An unknown
    email and a wrong password get the same 401, an email that is not a
    string a 500.  The store is never written. *)
Theorem loginHandler_rules (req : Request) (q : list (string * Json)) (now : DateTime)
    (db : DB) :
  let r := loginHandler req q now db in
  snd r = db
  /\ (forall e, field "email" (body req) = Some (JStr e) ->
      match find (fun u => String.eqb (User.email u) (toLowerCase e)) (users db) with
      | None => fst r = jsonReply 401 (errorOut "Invalid email or password")
      | Some u =>
          if sameString (field "password" (body req)) (User.password u)
          then match jwtSign (mkJwtPayload (User.id u) (User.email u)) now with
               | Some token =>
                   fst r = jsonReply 200
                             (OObject
                                [ ("token", OScalar (SStr token));
                                  ("user", rowOut [ ("id", SInt (User.id u));
                                                    ("email", SStr (User.email u));
                                                    ("name", optScalar SStr (User.name u)) ])
                                ])
               | None => fst r = jsonReply 500 (errorOut "Login failed")
               end
          else fst r = jsonReply 401 (errorOut "Invalid email or password")
      end)
  /\ ((forall e, field "email" (body req) <> Some (JStr e)) ->
      fst r = jsonReply 500 (errorOut "Login failed")).
Proof.
  intros r. subst r. unfold loginHandler, user_findUnique_email. split; [|split].
  - destruct (field "email" (body req)) as [[| | |e| |]|]; evaluate; try reflexivity.
    destruct (find _ (users db)) as [u|]; [|reflexivity].
    destruct (sameString _ _); [|reflexivity].
    destruct (jwtSign _ _); reflexivity.
  - intros e ->. evaluate. destruct (find _ (users db)) as [u|]; [|reflexivity].
    destruct (sameString _ _); [|reflexivity].
    destruct (jwtSign _ _); reflexivity.
  - intros Hne. destruct (field "email" (body req)) as [[| | |e| |]|];
      try reflexivity. now contradiction (Hne e).
Qed.

(** X12. Registration and login agree: once [POST /users] has answered 201 for
    a body, [POST /auth/login] with the same body answers 200 with the id the
    registration gave and a token signed for it, however the email was
    capitalised, as long as no request in between wrote the users and the
    signing does not fail. *)
Theorem register_then_login (req : Request) (q : list (string * Json))
    (now now' : DateTime) (db : DB) :
  wf db = true ->
  status (fst (createUser req now db)) = 201 ->
  (forall p, jwtSign p now' <> None) ->
  exists u token,
    In u (users (snd (createUser req now db)))
    /\ User.id u = nextUserId db
    /\ jwtSign (mkJwtPayload (User.id u) (User.email u)) now' = Some token
    /\ fst (loginHandler req q now' (snd (createUser req now db)))
       = jsonReply 200
           (OObject
              [ ("token", OScalar (SStr token));
                ("user", rowOut [ ("id", SInt (User.id u));
                                  ("email", SStr (User.email u));
                                  ("name", optScalar SStr (User.name u)) ]) ]).
Proof.
  intros Hwf H201 Hsign. revert H201. rewrite createUser_eq.
  destruct (requestedUser req (nextUserId db) now) as [u|] eqn:Hu; [|cbn; discriminate].
  destruct (existsb _ (users db)) eqn:Hnew; [cbn; discriminate|]. intros _.
  cbn [snd]. unfold requestedUser in Hu.
  destruct (field "email" (body req)) as [[| | |e| |]|] eqn:He; try discriminate.
  destruct (field "password" (body req)) as [[| | |pw| |]|] eqn:Hpw; try discriminate.
  destruct (optionalValue (argString (field "name" (body req)))) as [n|]; try discriminate.
  destruct (optionalValue (argString (field "phone" (body req)))) as [ph|]; try discriminate.
  injection Hu as <-.
  destruct (jwtSign (mkJwtPayload (nextUserId db) (toLowerCase e)) now') as [token|] eqn:Ht;
    [|exfalso; exact (Hsign _ Ht)].
  eexists. exists token. cbn [users set_users User.id User.email User.name] in *.
  split; [apply in_or_app; right; now left|]. split; [reflexivity|].
  split; [exact Ht|].
  unfold loginHandler, user_findUnique_email. rewrite He, Hpw. evaluate.
  cbn [users set_users].
  assert (find (fun r => String.eqb (User.email r) (toLowerCase e)) (users db) = None) as F.
  { destruct (find _ (users db)) as [a|] eqn:F; [|reflexivity].
    apply find_some in F. destruct F as [Ha Ea].
    assert (existsb (fun r => String.eqb (User.email r) (toLowerCase e)) (users db) = true)
      by (apply existsb_exists; eauto). congruence. }
  rewrite (find_none_app _ _ _ F). cbn [find User.email User.password sameString].
  rewrite !String.eqb_refl. cbn [negb User.id User.email]. rewrite Ht. reflexivity.
Qed.

(** *** The middleware on the routes *)

(** X13. Every route but [GET /], [POST /users], [POST /auth/login],
    [POST /memberships], [GET /memberships] and [GET /api/health] is behind
    [authMiddleware]: a request the middleware rejects (no header, no token
    after the first space, a token that does not verify) is answered 401 by
    it, and the handler does not run: nothing is read or written. *)
Theorem protected_routes_require_token (r : Route) (req : Request)
    (q : list (string * Json)) (now : DateTime) (db : DB) (resp : Response) :
  protected r = true ->
  authMiddleware req = inl resp ->
  handlerOf r req q now db = (Some (replyOf resp), db) /\ status resp = 401.
Proof.
  intros Hr Hauth. split; [|exact (proj1 (authMiddleware_rejects _ _ Hauth))].
  destruct r; try discriminate Hr; cbn [handlerOf];
    unfold ofHandler, ofEndpoint, getUser, searchUsers, updateUser, updatePassword,
      deleteUser, updateSettings, updatePushToken, createGroup, listGroups, getGroup,
      updateGroup, deleteGroup, updateMembership, deleteMembership, createCycle,
      listCycles, getCycle, updateCycle, deleteCycle, markPaid, listPayments,
      withAuth, authenticated;
    rewrite Hauth; reflexivity.
Qed.

(** X14. The other six routes run without a token, [POST /memberships] and
    [GET /memberships] among them: their answer and their effect on the
    store do not depend on the [Authorization] header. *)
Theorem public_routes_ignore_token (r : Route) (a a' : option string) (p : string)
    (b q : list (string * Json)) (now : DateTime) (db : DB) :
  protected r = false ->
  handlerOf r (mkRequest a p b) q now db = handlerOf r (mkRequest a' p b) q now db.
Proof.
  intros Hr. destruct r; try discriminate Hr; reflexivity.
Qed.

(** *** The router *)

Lemma routeIn_cons m' pattern r rest m segments :
  routeIn ((m', pattern, r) :: rest) m segments =
  match matchSegments pattern segments with
  | None => routeIn rest m segments
  | Some None => if sameMethod m' m then Routed r "" else routeIn rest m segments
  | Some (Some raw) =>
      match decodeURIComponent raw with
      | None => ParamError
      | Some p => if sameMethod m' m then Routed r p else routeIn rest m segments
      end
  end.
Proof. reflexivity. Qed.

(** A request goes to a route whose line of the table takes its path and its
    method. *)
Lemma routeIn_Routed table m segments r p :
  routeIn table m segments = Routed r p ->
  exists m' pattern,
    In (m', pattern, r) table /\ sameMethod m' m = true
    /\ matchSegments pattern segments <> None.
Proof.
  induction table as [|[[m' pattern] r'] rest IH]; [discriminate|].
  rewrite routeIn_cons.
  destruct (matchSegments pattern segments) as [[raw|]|] eqn:Hm.
  - destruct (decodeURIComponent raw); [|discriminate].
    destruct (sameMethod m' m) eqn:E.
    + intros [= <- <-]. exists m', pattern. rewrite Hm.
      split; [now left|]. split; [exact E | discriminate].
    + intros H. destruct (IH H) as (m0 & p0 & Hin & H1 & H2). exists m0, p0. auto with datatypes.
  - destruct (sameMethod m' m) eqn:E.
    + intros [= <- <-]. exists m', pattern. rewrite Hm.
      split; [now left|]. split; [exact E | discriminate].
    + intros H. destruct (IH H) as (m0 & p0 & Hin & H1 & H2). exists m0, p0. auto with datatypes.
  - intros H. destruct (IH H) as (m0 & p0 & Hin & H1 & H2). exists m0, p0. auto with datatypes.
Qed.

(** The first five lines of the table decide a [PUT] of two segments under
    [/users], whatever lines follow. *)
Lemma put_users_segment rest s1 s2 r p :
  sameLiteral "users" s1 = true -> String.eqb s2 "" = false ->
  routeIn ((GET, [], GetRoot) :: (POST, [Lit "users"], PostUsers)
           :: (GET, [Lit "users"; Par], GetUser) :: (GET, [Lit "users"], GetUsers)
           :: (PUT, [Lit "users"; Par], PutUser) :: rest) PUT [s1; s2]
  = Routed r p ->
  r = PutUser.
Proof.
  intros E1 E3. cbn [routeIn matchSegments sameMethod]. rewrite E1, E3.
  destruct (decodeURIComponent s2); [|discriminate]. now intros [= <- _].
Qed.

(** X15. [PUT /users/push-token] is never served by its handler: the route is
    registered after [PUT /users/:userId], whose pattern takes every path
    the later one takes, with ["push-token"] for the user id.  So a client
    cannot store a push token. *)
Theorem push_token_route_is_shadowed (m : Method) (path p : string) :
  routeOf m path <> Routed PutUserPushToken p.
Proof.
  unfold routeOf. destruct (segmentsOf path) as [segments|]; [|discriminate].
  intros H. destruct (routeIn_Routed _ _ _ _ _ H) as (m' & pattern & Hin & Hm & Hp).
  unfold routes in Hin. cbn [In] in Hin.
  repeat (destruct Hin as [Hin|Hin]; [try discriminate Hin|]); [|contradiction].
  injection Hin as <- <-. destruct m; try discriminate Hm.
  destruct segments as [|s1 [|s2 [|s3 rest]]]; cbn [matchSegments] in Hp;
    try (exfalso; apply Hp;
         repeat match goal with
                | |- context [sameLiteral ?a ?b] => destruct (sameLiteral a b)
                end;
         reflexivity).
  destruct (sameLiteral "users" s1) eqn:E1; [|exfalso; apply Hp; reflexivity].
  destruct (sameLiteral "push-token" s2) eqn:E2; [|exfalso; apply Hp; reflexivity].
  assert (String.eqb s2 "" = false) as E3.
  { destruct (String.eqb s2 "") eqn:E; [|reflexivity].
    apply String.eqb_eq in E. subst s2. discriminate E2. }
  unfold routes in H. apply (put_users_segment _ _ _ _ _ E1 E3) in H. discriminate H.
Qed.

(** *** Groups: [POST /groups] *)

Lemma group_create_eq name description contribution frequency maxMembers now db :
  group_create name description contribution frequency maxMembers now db =
  match newGroupRowOf name description contribution frequency maxMembers
          (nextGroupId db) now with
  | Some g => (Resolved g, withGroup db g)
  | None => (Rejected, db)
  end.
Proof.
  unfold group_create, newGroupRowOf.
  destruct name; try reflexivity; destruct description; try reflexivity;
    destruct contribution; try reflexivity; destruct frequency; try reflexivity;
    destruct maxMembers; reflexivity.
Qed.

Lemma newGroupRowOf_id name description contribution frequency maxMembers id now g :
  newGroupRowOf name description contribution frequency maxMembers id now = Some g ->
  Group.id g = id.
Proof.
  unfold newGroupRowOf.
  destruct (argValue name); [|discriminate].
  destruct (optionalValue description); [|discriminate].
  destruct (optionalValue contribution); [|discriminate].
  destruct (optionalValue frequency); [|discriminate].
  destruct (optionalValue maxMembers); [|discriminate]. now intros [= <-].
Qed.

(** No Membership of a store within its schema is in the Group the next
    [POST /groups] creates. *)
Lemma wf_next_group_empty db :
  wf db = true ->
  forall m, In m (memberships db) -> (Membership.groupId m =? nextGroupId db) = false.
Proof.
  intros Hwf m Hm. wf_open Hwf. rewrite forallb_forall in F1. specialize (F1 _ Hm).
  apply andb_true_iff in F1. destruct F1 as [_ Hg]. rewrite existsb_map_key in Hg.
  apply existsb_eqb_In in Hg. rewrite below_spec in P4. specialize (P4 _ Hg).
  apply Z.eqb_neq. lia.
Qed.

Lemma createGroup_eq req q now db requester :
  wf db = true ->
  authMiddleware req = inr requester ->
  createGroup req q now db =
  match requestedNewGroup req (nextGroupId db) now with
  | None => (jsonReply 500 (errorOut "Failed to create group"), db)
  | Some g =>
      let owner := Membership.mk (nextMembershipId db) (jwt_userId requester)
                     (Group.id g) "admin" now in
      if userExists db (jwt_userId requester)
      then (jsonReply 201 (rowOut (groupObject g)),
            set_memberships (withGroup db g) (memberships db ++ [owner])
              (nextMembershipId db + 1))
      else (jsonReply 500 (errorOut "Failed to create group"),
            set_memberships (withGroup db g) (memberships db) (nextMembershipId db + 1))
  end.
Proof.
  intros Hwf Hauth. unfold createGroup, requestedNewGroup. evaluate. rewrite Hauth.
  rewrite group_create_eq.
  destruct (newGroupRowOf _ _ _ _ _ _ _) as [g|] eqn:Hg; [|reflexivity].
  pose proof (newGroupRowOf_id _ _ _ _ _ _ _ _ Hg) as Hid.
  unfold membership_create. evaluate.
  unfold userExists, groupExists, withGroup.
  cbn [users groups memberships nextMembershipId].
  assert (existsb (fun r => Group.id r =? Group.id g) (groups db ++ [g]) = true) as ->.
  { rewrite existsb_app. cbn. now rewrite Z.eqb_refl, !orb_true_r. }
  assert (existsb (isMembership (jwt_userId requester) (Group.id g)) (memberships db)
          = false) as ->.
  { apply not_true_is_false. intros E. apply existsb_exists in E.
    destruct E as (m & Hm & E). apply isMembership_spec in E. destruct E as [_ E].
    pose proof (wf_next_group_empty db Hwf m Hm) as Hn. apply Z.eqb_neq in Hn. congruence. }
  destruct (existsb _ (users db)); reflexivity.
Qed.

(** X17. Whoever creates a Group is its admin.  After a 201 the store has one
    more Group, under the next id of the sequence, and one more Membership:
    that of the caller in the new Group, with role ["admin"]; it is the only
    Membership of the Group. *)
Theorem createGroup_creator_is_admin (req : Request) (q : list (string * Json))
    (now : DateTime) (db : DB) (requester : JwtPayload) :
  wf db = true ->
  authMiddleware req = inr requester ->
  let r := createGroup req q now db in
  code (fst r) = 201 ->
  exists g owner,
    fst r = jsonReply 201 (rowOut (groupObject g))
    /\ Group.id g = nextGroupId db
    /\ groups (snd r) = (groups db ++ [g])%list
    /\ memberships (snd r) = (memberships db ++ [owner])%list
    /\ owner = Membership.mk (nextMembershipId db) (jwt_userId requester) (Group.id g)
                 "admin" now
    /\ membersOf (snd r) (Group.id g) = [owner]
    /\ isAdmin (snd r) (jwt_userId requester) (Group.id g) = true.
Proof.
  intros Hwf Hauth r. subst r. rewrite (createGroup_eq req q now db requester Hwf Hauth).
  destruct (requestedNewGroup req (nextGroupId db) now) as [g|] eqn:Hg;
    [|cbn; discriminate].
  cbv zeta. destruct (userExists db (jwt_userId requester)); [|cbn; discriminate].
  intros _. cbn [fst snd]. unfold requestedNewGroup in Hg.
  pose proof (newGroupRowOf_id _ _ _ _ _ _ _ _ Hg) as Hid.
  eexists. eexists. split; [reflexivity|]. split; [exact Hid|].
  split; [reflexivity|]. split; [reflexivity|]. split; [reflexivity|].
  assert (filter (fun m => Membership.groupId m =? Group.id g) (memberships db) = []) as Hnone.
  { apply filter_none. intros m Hm. rewrite Hid.
    exact (wf_next_group_empty db Hwf m Hm). }
  split.
  - unfold membersOf. cbn [memberships set_memberships withGroup].
    rewrite filter_app, Hnone. cbn. now rewrite Z.eqb_refl.
  - unfold isAdmin, membershipOf. cbn [memberships set_memberships withGroup].
    rewrite find_none_app.
    + cbn. unfold isMembership. cbn. now rewrite !Z.eqb_refl.
    + destruct (find _ (memberships db)) as [m|] eqn:F; [|reflexivity].
      apply find_some in F. destruct F as [Hm E]. apply isMembership_spec in E.
      destruct E as [_ E]. pose proof (wf_next_group_empty db Hwf m Hm) as Hn.
      apply Z.eqb_neq in Hn. congruence.
Qed.

(** X18. The two writes of [POST /groups] are not one: with a token whose user is
    not in the store any more, the Group is created, the Membership of the
    creator is refused by the foreign key, and the answer is 500.  The Group
    stays, with no Membership: nobody can read it, change it or delete it. *)
Theorem createGroup_without_user_leaves_group (req : Request) (q : list (string * Json))
    (now : DateTime) (db : DB) (requester : JwtPayload) (g : Group.t) :
  wf db = true ->
  authMiddleware req = inr requester ->
  userExists db (jwt_userId requester) = false ->
  requestedNewGroup req (nextGroupId db) now = Some g ->
  let r := createGroup req q now db in
  fst r = jsonReply 500 (errorOut "Failed to create group")
  /\ groups (snd r) = (groups db ++ [g])%list
  /\ membersOf (snd r) (Group.id g) = []
  /\ forall u, isAdmin (snd r) u (Group.id g) = false.
Proof.
  intros Hwf Hauth Hu Hg r. subst r.
  rewrite (createGroup_eq req q now db requester Hwf Hauth), Hg. cbv zeta. rewrite Hu.
  cbn [fst snd]. unfold requestedNewGroup in Hg.
  pose proof (newGroupRowOf_id _ _ _ _ _ _ _ _ Hg) as Hid.
  split; [reflexivity|]. split; [reflexivity|].
  assert (filter (fun m => Membership.groupId m =? Group.id g) (memberships db) = []) as Hnone.
  { apply filter_none. intros m Hm. rewrite Hid.
    exact (wf_next_group_empty db Hwf m Hm). }
  split; [exact Hnone|].
  intros u. unfold isAdmin, membershipOf. cbn [memberships set_memberships withGroup].
  destruct (find _ (memberships db)) as [m|] eqn:F; [|reflexivity].
  apply find_some in F. destruct F as [Hm E]. apply isMembership_spec in E.
  destruct E as [_ E]. pose proof (wf_next_group_empty db Hwf m Hm) as Hn.
  apply Z.eqb_neq in Hn. congruence.
Qed.

(** *** Groups: [DELETE /groups/:groupId] *)

Lemma filter_filter_and {A} (f g : A -> bool) l :
  filter g (filter f l) = filter (fun a => f a && g a) l.
Proof.
  induction l as [|a l IH]; cbn; [reflexivity|].
  destruct (f a); cbn; [destruct (g a)|]; now rewrite IH.
Qed.

(** The loop over the Cycles of the Group deletes the Payments of each. *)
Lemma forEach_payment_deleteMany ids db :
  forEach ids (fun c => payment_deleteMany_cycleId (Value c)) db =
  (Resolved tt,
   mkDB (users db) (groups db) (memberships db) (cycles db)
        (filter (fun p => negb (existsb (Z.eqb (Payment.cycleId p)) ids)) (payments db))
        (nextUserId db) (nextGroupId db) (nextMembershipId db)
        (nextCycleId db) (nextPaymentId db)).
Proof.
  revert db. induction ids as [|x ids IH]; intros db.
  - cbn. rewrite filter_all; [now destruct db|]. now apply forallb_forall.
  - cbn [forEach]. unfold bind at 1. unfold payment_deleteMany_cycleId at 1.
    evaluate. rewrite IH. unfold set_payments.
    cbn [users groups memberships cycles payments nextUserId nextGroupId
         nextMembershipId nextCycleId nextPaymentId].
    rewrite filter_filter_and. do 2 f_equal. apply filter_ext. intros p. cbn [existsb].
    destruct (Payment.cycleId p =? x); reflexivity.
Qed.

(** In a store within its schema the Payments of the Cycles of a Group are
    those whose Cycle is listed for the Group. *)
Lemma cycleInGroup_ids db g p :
  wf db = true -> In p (payments db) ->
  existsb (Z.eqb (Payment.cycleId p))
          (map Cycle.id (filter (fun c => Cycle.groupId c =? g) (cycles db)))
  = cycleInGroup db g p.
Proof.
  intros Hwf Hp. destruct (wf_payment_cycle db p Hwf Hp) as [c Hc].
  unfold cycleInGroup. rewrite Hc. unfold findCycle in Hc.
  pose proof (find_id_eq Cycle.id _ _ _ Hc) as Hid.
  pose proof (find_some _ _ Hc) as [Hin _].
  apply eq_true_iff_eq. rewrite existsb_eqb_In, in_map_iff, Z.eqb_eq. split.
  - intros (c' & E & Hc'). apply filter_In in Hc'. destruct Hc' as [Hin' Hg].
    apply Z.eqb_eq in Hg. wf_open Hwf.
    assert (c' = c) as -> by (apply (find_unique_row Cycle.id (cycles db) _ c c' P7 Hc Hin'); congruence).
    exact Hg.
  - intros Hg. exists c. split; [congruence|]. apply filter_In. split; [exact Hin|].
    now apply Z.eqb_eq.
Qed.

(** X19. Only an admin of the Group deletes it: anyone else gets 403 and nothing
    is written.  For an admin the answer is 200 and the store is the one
    without the Group, its Memberships, its Cycles and the Payments of these
    Cycles; every other row, and every sequence, is as before. *)
Theorem deleteGroup_rules (req : Request) (q : list (string * Json))
    (now : DateTime) (db : DB) (requester : JwtPayload) (g : Z) :
  wf db = true ->
  authMiddleware req = inr requester ->
  toInt32 (parseInt (Some (JStr (param req)))) = Some g ->
  deleteGroup req q now db =
  if isAdmin db (jwt_userId requester) g
  then (jsonReply 200 (messageOut "Group deleted successfully"), withoutGroup g db)
  else (jsonReply 403 (errorOut "Only group admins can delete the group"), db).
Proof.
  intros Hwf Hauth Hg. unfold deleteGroup. evaluate. rewrite Hauth.
  rewrite (argInt_Value _ _ Hg). unfold membership_findUnique_userId_groupId. evaluate.
  unfold isAdmin, membershipOf.
  destruct (find (isMembership (jwt_userId requester) g) (memberships db)) as [m|] eqn:Hm;
    [|reflexivity].
  destruct (String.eqb (Membership.role m) "admin"); [|reflexivity].
  unfold cycle_findMany_groupId_ids. evaluate. rewrite forEach_payment_deleteMany.
  unfold cycle_deleteMany_groupId, membership_deleteMany_groupId, group_delete. evaluate.
  unfold set_memberships.
  cbn [users groups memberships cycles payments nextUserId nextGroupId
       nextMembershipId nextCycleId nextPaymentId].
  assert (exists r, find (fun r => Group.id r =? g) (groups db) = Some r) as [r ->].
  { apply find_some in Hm. destruct Hm as [Hin E]. apply isMembership_spec in E.
    destruct E as [_ E]. pose proof Hwf as Hwf'. wf_open Hwf'.
    rewrite forallb_forall in F1. specialize (F1 _ Hin). apply andb_true_iff in F1.
    destruct F1 as [_ F1]. rewrite E in F1. now apply existsb_find. }
  unfold withoutGroup. f_equal. f_equal.
  - apply filter_twice. reflexivity.
  - apply filter_twice. reflexivity.
  - set (ps := filter _ (payments db)).
    assert (ps = filter (fun p => negb (cycleInGroup db g p)) (payments db)) as ->.
    { subst ps. apply filter_ext_in. intros p Hp.
      rewrite (cycleInGroup_ids db g p Hwf Hp). reflexivity. }
    rewrite !filter_filter_and. apply filter_ext. intros p.
    unfold cycleInGroup, findCycle.
    cbn [users groups memberships cycles payments nextUserId nextGroupId
         nextMembershipId nextCycleId nextPaymentId].
    destruct (find _ (cycles db)) as [c|] eqn:Hc.
    + destruct (Cycle.groupId c =? g) eqn:E; cbn; [reflexivity|].
      destruct (find _ (filter _ (cycles db))) as [c'|] eqn:Hc'; [|reflexivity].
      apply find_some in Hc'. destruct Hc' as [Hin _]. apply filter_In in Hin.
      destruct Hin as [_ Hn]. now rewrite Hn.
    + cbn. destruct (find _ (filter _ (cycles db))) as [c'|] eqn:Hc'; [|reflexivity].
      apply find_some in Hc'. destruct Hc' as [Hin _]. apply filter_In in Hin.
      destruct Hin as [_ Hn]. now rewrite Hn.
Qed.

(** *** Cycles: [DELETE /cycles/:cycleId] *)

(** X20. Only an admin of the Group of a Cycle deletes it: 404 for an id that is
    no Cycle, 403 for anyone else, and nothing is written in both cases.
    For an admin the answer is 200 and the store is the one without the
    Cycle and its Payments.  The Cycles that follow keep their
    [cycleIndex]. *)
Theorem deleteCycle_rules (req : Request) (q : list (string * Json))
    (now : DateTime) (db : DB) (requester : JwtPayload) (i : Z) :
  authMiddleware req = inr requester ->
  toInt32 (parseInt (Some (JStr (param req)))) = Some i ->
  deleteCycle req q now db =
  match findCycle db i with
  | None => (jsonReply 404 (errorOut "Cycle not found"), db)
  | Some c =>
      if isAdmin db (jwt_userId requester) (Cycle.groupId c)
      then (jsonReply 200 (messageOut "Cycle deleted successfully"), withoutCycle i db)
      else (jsonReply 403 (errorOut "Only group admins can delete cycles"), db)
  end.
Proof.
  intros Hauth Hi. unfold deleteCycle. evaluate. rewrite Hauth.
  rewrite (argInt_Value _ _ Hi). unfold cycle_findUnique. evaluate.
  destruct (findCycle db i) as [c|] eqn:Hc; [|reflexivity].
  unfold membership_findUnique_userId_groupId. evaluate. unfold isAdmin, membershipOf.
  destruct (find _ (memberships db)) as [m|]; [|reflexivity].
  destruct (String.eqb (Membership.role m) "admin"); [|reflexivity].
  unfold payment_deleteMany_cycleId, cycle_delete. evaluate. unfold findCycle in *.
  unfold set_payments.
  cbn [users groups memberships cycles payments nextUserId nextGroupId
       nextMembershipId nextCycleId nextPaymentId].
  rewrite Hc. unfold withoutCycle. f_equal. f_equal. apply filter_twice. reflexivity.
Qed.

(** *** Memberships: [PUT /memberships/:membershipId] *)

Lemma updateMembership_eq req q now db requester i s :
  authMiddleware req = inr requester ->
  field "role" (body req) = Some (JStr s) ->
  s = "admin" \/ s = "member" ->
  toInt32 (parseInt (Some (JStr (param req)))) = Some i ->
  updateMembership req q now db =
  match findMembership db i with
  | None => (jsonReply 404 (errorOut "Membership not found"), db)
  | Some m =>
      if isAdmin db (jwt_userId requester) (Membership.groupId m)
      then let db' := replaceMembership db (withRole m s) in
           (jsonReply 200 (updatedMembershipOut db' (withRole m s)), db')
      else (jsonReply 403 (errorOut "Only group admins can update membership roles"), db)
  end.
Proof.
  intros Hauth Hrole Hs Hi. unfold updateMembership. evaluate. rewrite Hauth, Hrole.
  unfold sameString.
  assert ((if if String.eqb s "admin" then false else true
           then if String.eqb s "member" then false else true else false) = false) as ->.
  { destruct Hs as [-> | ->]; reflexivity. }
  rewrite (argInt_Value _ _ Hi). unfold membership_findUnique. evaluate.
  unfold findMembership.
  destruct (find (fun m => Membership.id m =? i) (memberships db)) as [m|] eqn:Hm;
    [|reflexivity].
  unfold membership_findUnique_userId_groupId. evaluate. unfold isAdmin, membershipOf.
  destruct (find (isMembership _ _) (memberships db)) as [um|]; [|reflexivity].
  destruct (String.eqb (Membership.role um) "admin"); [|reflexivity].
  unfold membership_update. evaluate. unfold findMembership. rewrite Hm.
  cbn [argString]. evaluate.
  pose proof (find_id_eq Membership.id _ _ _ Hm) as Hid.
  unfold replaceMembership, withRole. cbn [Membership.id]. rewrite Hid. reflexivity.
Qed.

(** X21. The role of a Membership is changed by an admin of its Group only, and
    only to ["admin"] or ["member"]: any other role is answered 400 before
    anything is looked up; then 404 for an id that is no Membership, 403 for
    a caller who is no admin of the Group of the Membership; nothing is
    written in these cases.  For an admin the row gets the role, and nothing
    else in the store changes. *)
Theorem updateMembership_rules (req : Request) (q : list (string * Json))
    (now : DateTime) (db : DB) (requester : JwtPayload) :
  authMiddleware req = inr requester ->
  let role := field "role" (body req) in
  let r := updateMembership req q now db in
  (sameString role "admin" || sameString role "member" = false ->
   r = (jsonReply 400
          (errorOut ("Invalid role. Must be " ++ quote ++ "admin" ++ quote
                     ++ " or " ++ quote ++ "member" ++ quote)), db))
  /\ (forall i,
      sameString role "admin" || sameString role "member" = true ->
      toInt32 (parseInt (Some (JStr (param req)))) = Some i ->
      match findMembership db i with
      | None => r = (jsonReply 404 (errorOut "Membership not found"), db)
      | Some m =>
          if isAdmin db (jwt_userId requester) (Membership.groupId m)
          then exists s, role = Some (JStr s)
                 /\ code (fst r) = 200
                 /\ snd r = replaceMembership db (withRole m s)
          else r = (jsonReply 403
                      (errorOut "Only group admins can update membership roles"), db)
      end).
Proof.
  intros Hauth role r. subst role r. split.
  - intros Hr. apply orb_false_iff in Hr. destruct Hr as [H1 H2].
    unfold updateMembership. evaluate. rewrite Hauth, H1, H2. reflexivity.
  - intros i Hr Hi.
    assert (exists s, field "role" (body req) = Some (JStr s)
                      /\ (s = "admin" \/ s = "member")) as (s & Hs & Hor).
    { unfold sameString in Hr. destruct (field "role" (body req)) as [[]|]; try discriminate.
      eexists. split; [reflexivity|]. apply orb_true_iff in Hr.
      destruct Hr as [E|E]; apply String.eqb_eq in E; auto. }
    rewrite (updateMembership_eq req q now db requester i s Hauth Hs Hor Hi).
    destruct (findMembership db i) as [m|]; [|reflexivity].
    destruct (isAdmin db (jwt_userId requester) (Membership.groupId m)); [|reflexivity].
    exists s. repeat split. exact Hs.
Qed.

Lemma find_map_stable {A} (P : A -> bool) (f : A -> A) l :
  (forall a, In a l -> P (f a) = P a) -> find P (map f l) = option_map f (find P l).
Proof.
  induction l as [|a l IH]; intros H; cbn; [reflexivity|].
  rewrite (H a (or_introl eq_refl)).
  destruct (P a); [reflexivity|]. apply IH. intros x Hx. apply H. now right.
Qed.

(** X22. Nothing keeps a Group from losing its last admin: the only admin of a
    Group who sets the role of its own Membership to ["member"] is answered
    200, and from then on the Group has no admin at all, so none of the
    routes for admins serves anyone for this Group. *)
Theorem sole_admin_can_demote_itself (req : Request) (q : list (string * Json))
    (now : DateTime) (db : DB) (requester : JwtPayload) (m : Membership.t) :
  wf db = true ->
  authMiddleware req = inr requester ->
  field "role" (body req) = Some (JStr "member") ->
  toInt32 (parseInt (Some (JStr (param req)))) = Some (Membership.id m) ->
  membershipOf db (jwt_userId requester) (Membership.groupId m) = Some m ->
  Membership.role m = "admin" ->
  (forall u, isAdmin db u (Membership.groupId m) = true -> u = jwt_userId requester) ->
  let r := updateMembership req q now db in
  code (fst r) = 200
  /\ forall u, isAdmin (snd r) u (Membership.groupId m) = false.
Proof.
  intros Hwf Hauth Hrole Hi Hown Hadmin Hsole r. subst r.
  pose proof Hwf as Hwf'. wf_open Hwf'.
  assert (In m (memberships db)) as Hin.
  { unfold membershipOf in Hown. now apply find_some in Hown. }
  assert (findMembership db (Membership.id m) = Some m) as Hm.
  { unfold findMembership. now apply (find_by_id Membership.id). }
  rewrite (updateMembership_eq req q now db requester (Membership.id m) "member"
             Hauth Hrole (or_intror eq_refl) Hi), Hm.
  assert (isAdmin db (jwt_userId requester) (Membership.groupId m) = true) as ->.
  { unfold isAdmin. rewrite Hown, Hadmin. reflexivity. }
  cbv zeta. cbn [fst snd]. split; [reflexivity|]. intros u.
  unfold isAdmin, membershipOf, replaceMembership. cbn [memberships set_memberships].
  rewrite find_map_stable.
  - destruct (find _ (memberships db)) as [x|] eqn:Hx; [|reflexivity]. cbn [option_map].
    cbn [withRole Membership.id].
    destruct (Membership.id x =? Membership.id m) eqn:E; [reflexivity|].
    destruct (String.eqb (Membership.role x) "admin") eqn:Hr; [|reflexivity].
    assert (isAdmin db u (Membership.groupId m) = true) as Hu.
    { unfold isAdmin, membershipOf. now rewrite Hx, Hr. }
    apply Hsole in Hu. subst u. unfold membershipOf in Hown. rewrite Hown in Hx.
    injection Hx as <-. now rewrite Z.eqb_refl in E.
  - intros a Ha. cbn [withRole Membership.id].
    destruct (Membership.id a =? Membership.id m) eqn:E; [|reflexivity].
    apply Z.eqb_eq in E.
    assert (a = m) as -> by exact (find_unique_row Membership.id _ _ m a P5 Hm Ha E).
    reflexivity.
Qed.

(** *** Reading: [GET /memberships], [GET /groups] and the reads of a Group *)

(** X23. [GET /memberships] is registered without [authMiddleware] and includes
    the whole User row: whatever the request carries, and with no filter in
    the query, the answer lists every Membership of the store, and the item
    of a Membership shows the stored password of its user. *)
Theorem listMemberships_exposes_passwords (req : Request)
    (search : list (string * Json)) (now : DateTime) (db : DB)
    (m : Membership.t) (u : User.t) :
  truthy (field "userId" search) = false ->
  truthy (field "groupId" search) = false ->
  In m (memberships db) ->
  findUser db (Membership.userId m) = Some u ->
  exists items item,
    listMemberships req search now db = (jsonReply 200 (OArray items), db)
    /\ List.length items = List.length (memberships db)
    /\ In item items
    /\ member "id" item = Some (OScalar (SInt (Membership.id m)))
    /\ (match member "user" item with
        | Some user => member "password" user
        | None => None
        end) = Some (OScalar (SStr (User.password u))).
Proof.
  intros Hu Hg Hm Hfind. unfold listMemberships, whenTruthy. rewrite Hu, Hg.
  unfold membership_findMany_where. evaluate. cbn [matchesKey].
  rewrite filter_all by now apply forallb_forall.
  eexists. eexists. split; [reflexivity|]. split; [now rewrite !length_map|].
  split.
  - rewrite map_map. apply in_map_iff. exists m. split; [reflexivity | exact Hm].
  - unfold membershipWithUserGroupOut.
    cbn [MembershipWithUserGroup.membership MembershipWithUserGroup.user
         MembershipWithUserGroup.group].
    rewrite Hfind. split; reflexivity.
Qed.

Lemma groupObject_id g g' :
  rowOut (groupObject g) = rowOut (groupObject g') -> Group.id g = Group.id g'.
Proof. unfold rowOut, groupObject. cbn. now intros [= ->]. Qed.

(** The Groups of a list of Memberships, one per Membership: under the
    foreign key of [Membership.groupId] each has its Group. *)
Lemma groups_of_memberships db l :
  wf db = true -> incl l (memberships db) ->
  exists gs,
    map (fun m => optOut (fun g => rowOut (groupObject g))
                    (find (fun r => Group.id r =? Membership.groupId m) (groups db))) l
    = map (fun g => rowOut (groupObject g)) gs
    /\ List.length gs = List.length l
    /\ forall g, In g gs <->
         exists m, In m l
                   /\ find (fun r => Group.id r =? Membership.groupId m) (groups db) = Some g.
Proof.
  intros Hwf. induction l as [|m l IH]; intros Hl.
  - exists []. split; [reflexivity|]. split; [reflexivity|]. intros g. split.
    + contradiction.
    + intros (m & [] & _).
  - destruct IH as (gs & E & Hlen & Hgs).
    { intros x Hx. apply Hl. now right. }
    assert (exists g, find (fun r => Group.id r =? Membership.groupId m) (groups db) = Some g)
      as [g Hg].
    { pose proof Hwf as Hwf'. wf_open Hwf'. rewrite forallb_forall in F1.
      specialize (F1 m (Hl m (or_introl eq_refl))). apply andb_true_iff in F1.
      destruct F1 as [_ F1]. now apply existsb_find. }
    exists (g :: gs). split; [cbn [map]; now rewrite E, Hg|].
    split; [cbn; now rewrite Hlen|]. intros g'. cbn [In]. rewrite Hgs. split.
    + intros [<- | (x & Hx & F)].
      * exists m. split; [now left | exact Hg].
      * exists x. split; [now right | exact F].
    + intros (x & [<- | Hx] & F).
      * left. congruence.
      * right. now exists x.
Qed.

(** X24. [GET /groups] lists the Groups of the caller and no other: one item per
    Membership of the caller, each the row of a Group of the store, and a
    Group of the store is listed exactly when the caller has a Membership of
    it. *)
Theorem listGroups_lists_own_groups (req : Request) (q : list (string * Json))
    (now : DateTime) (db : DB) (requester : JwtPayload) :
  wf db = true ->
  authMiddleware req = inr requester ->
  exists gs,
    listGroups req q now db
    = (jsonReply 200 (OArray (map (fun g => rowOut (groupObject g)) gs)), db)
    /\ List.length gs
       = List.length (filter (fun m => Membership.userId m =? jwt_userId requester)
                        (memberships db))
    /\ forall g, In g gs <->
         In g (groups db)
         /\ membershipOf db (jwt_userId requester) (Group.id g) <> None.
Proof.
  intros Hwf Hauth. unfold listGroups. evaluate. rewrite Hauth.
  unfold membership_findMany_userId_withGroup. evaluate. rewrite !map_map. cbn [snd].
  set (mine := filter (fun m => Membership.userId m =? jwt_userId requester) (memberships db)).
  destruct (groups_of_memberships db mine Hwf) as (gs & E & Hlen & Hgs).
  { intros x Hx. subst mine. now apply filter_In in Hx. }
  exists gs. split; [now rewrite E|]. split; [exact Hlen|]. intros g. rewrite Hgs. split.
  - intros (m & Hm & F). subst mine. apply filter_In in Hm. destruct Hm as [Hin Hme].
    pose proof (find_id_eq Group.id _ _ _ F) as Hid. apply find_some in F.
    destruct F as [Hg _]. split; [exact Hg|]. unfold membershipOf. intros Hnone.
    apply (find_none _ _ Hnone) in Hin. unfold isMembership in Hin.
    rewrite Hme, Hid, Z.eqb_refl in Hin. discriminate.
  - intros [Hg Hsome]. unfold membershipOf in Hsome.
    destruct (find _ (memberships db)) as [m|] eqn:F; [|congruence].
    apply find_some in F. destruct F as [Hin E']. apply isMembership_spec in E'.
    destruct E' as [E1 E2]. exists m. split.
    + subst mine. apply filter_In. split; [exact Hin | now apply Z.eqb_eq].
    + rewrite E2. pose proof Hwf as Hwf'. wf_open Hwf'.
      now apply (find_by_id Group.id).
Qed.

(** X25. The reads of a Group are for its members.  [GET /groups/:groupId],
    [GET /groups/:groupId/cycles] and [GET /cycles/:cycleId] answer 403 to
    an authenticated caller with no Membership of the Group, and 200 to a
    member; a member is never answered 404 for the Group, since the
    Membership implies the Group.  None of the three writes. *)
Theorem group_reads_are_for_members (req : Request) (q : list (string * Json))
    (now : DateTime) (db : DB) (requester : JwtPayload) (i : Z) :
  wf db = true ->
  authMiddleware req = inr requester ->
  toInt32 (parseInt (Some (JStr (param req)))) = Some i ->
  let me := jwt_userId requester in
  let status (r : Reply * DB) g :=
    code (fst r) = match membershipOf db me g with Some _ => 200 | None => 403 end in
  (status (getGroup req q now db) i /\ snd (getGroup req q now db) = db)
  /\ (status (listCycles req q now db) i /\ snd (listCycles req q now db) = db)
  /\ (forall c, findCycle db i = Some c ->
      status (getCycle req q now db) (Cycle.groupId c))
  /\ snd (getCycle req q now db) = db.
Proof.
  intros Hwf Hauth Hi me status. subst me status. cbv beta.
  unfold getGroup, listCycles, getCycle. evaluate. rewrite Hauth.
  rewrite (argInt_Value _ _ Hi).
  unfold membership_findUnique_userId_groupId, group_findUnique_withMembers,
    cycle_findUnique. evaluate. unfold membershipOf.
  repeat split.
  - destruct (find (isMembership _ i) (memberships db)) as [m|] eqn:Hm; [|reflexivity].
    assert (exists r, find (fun r => Group.id r =? i) (groups db) = Some r) as [r ->].
    { apply find_some in Hm. destruct Hm as [Hin E]. apply isMembership_spec in E.
      destruct E as [_ E]. pose proof Hwf as Hwf'. wf_open Hwf'.
      rewrite forallb_forall in F1. specialize (F1 _ Hin). apply andb_true_iff in F1.
      destruct F1 as [_ F1]. rewrite E in F1. now apply existsb_find. }
    reflexivity.
  - destruct (find (isMembership _ i) (memberships db)); [|reflexivity].
    destruct (find (fun r => Group.id r =? i) (groups db)); reflexivity.
  - destruct (find (isMembership _ i) (memberships db)); reflexivity.
  - destruct (find (isMembership _ i) (memberships db)); reflexivity.
  - intros c Hc. rewrite Hc.
    destruct (find (isMembership _ (Cycle.groupId c)) (memberships db)); reflexivity.
  - destruct (findCycle db i) as [c|]; [|reflexivity].
    destruct (find (isMembership _ (Cycle.groupId c)) (memberships db)); reflexivity.
Qed.

(** *** The request for a push token *)

Lemma routeOf_push_token :
  decodeURIComponent "push-token" = Some "push-token" ->
  routeOf PUT "/users/push-token" = Routed PutUser "push-token".
Proof.
  intros Hdec. unfold routeOf.
  change (segmentsOf "/users/push-token") with (Some ["users"; "push-token"]).
  unfold routes.
  change (routeIn ?t PUT ["users"; "push-token"])
    with (match decodeURIComponent "push-token" with
          | None => ParamError
          | Some p =>
              match decodeURIComponent "push-token" with
              | None => ParamError
              | Some p' => Routed PutUser p'
              end
          end).
  now rewrite Hdec.
Qed.

(** X16. What a client gets that sends its push token: [PUT /users/push-token]
    goes to the handler of [PUT /users/:userId] with ["push-token"] for the
    user id, which [parseInt] turns into [NaN]; [NaN] is not the id of the
    caller, so the answer is 403 and nothing is stored. *)
Theorem push_token_request_is_refused (h : HttpRequest) (now : DateTime) (db : DB)
    (requester : JwtPayload) :
  http_method h = PUT ->
  http_path h = "/users/push-token" ->
  decodeURIComponent "push-token" = Some "push-token" ->
  integerOf (parseInt (Some (JStr "push-token"))) = None ->
  authMiddleware (mkRequest (http_authorization h) "push-token" (http_body h))
  = inr requester ->
  serve h now db
  = (Some (jsonReply 403 (errorOut "You can only update your own profile")), db).
Proof.
  intros Hm Hp Hdec Hnan Hauth. unfold serve. rewrite Hm, Hp.
  rewrite (routeOf_push_token Hdec). cbn [handlerOf]. unfold ofEndpoint, updateUser.
  evaluate. rewrite Hauth. cbn [param]. unfold sameNumber. rewrite Hnan. reflexivity.
Qed.

End Application.

(* ================================================================= *)
(** ** The properties of the application on the example store *)

(** X1, witness: Eve registers, Alice opens a third group and deletes the first, Bob
    leaves the second and Carol deletes her account: the store stays within
    its schema. *)
Lemma run_preserves_wf_witness :
  wf db0 = true
  /\ wf (run (rt := stub) (lib := stubLib) someCalls db0) = true
  /\ map User.id (users (run (rt := stub) (lib := stubLib) someCalls db0)) = [1; 2; 4; 5]
  /\ map Group.id (groups (run (rt := stub) (lib := stubLib) someCalls db0)) = [2; 3].
Proof.
  split; [reflexivity|]. split; [|split; reflexivity].
  apply (@run_preserves_wf stub stubLib someCalls db0). reflexivity.
Defined.

(** X2, witness: Alice deletes the only cycle: no Payment and no Cycle is new. *)
Lemma only_cycle_creation_adds_rows_witness :
  (forall p, routeOf (lib := stubLib) (http_method deleteCycleCall)
               (http_path deleteCycleCall) <> Routed PostGroupCycles p)
  /\ later db0 (snd (serve (rt := stub) (lib := stubLib) deleteCycleCall 5000 db0))
  /\ payments (snd (serve (rt := stub) (lib := stubLib) deleteCycleCall 5000 db0)) = [].
Proof.
  assert (forall p, routeOf (lib := stubLib) (http_method deleteCycleCall)
                      (http_path deleteCycleCall) <> Routed PostGroupCycles p) as H.
  { intros p. vm_compute. discriminate. }
  split; [exact H|]. split; [|reflexivity].
  exact (@only_cycle_creation_adds_rows stub stubLib deleteCycleCall 5000 db0 H).
Defined.

(** X3, witness: Dave marks the first payment as paid: it is paid, for the amount, the
    cycle and the user it had. *)
Lemma payment_amount_is_immutable_witness :
  let p := Payment.mk 1 1 1 50%float false None in
  let p' := Payment.mk 1 1 1 50%float true (Some 5000) in
  wf db0 = true
  /\ In p (payments db0)
  /\ In p' (payments (snd (serve (rt := stub) (lib := stubLib) payCall 5000 db0)))
  /\ Payment.id p' = Payment.id p
  /\ samePayment p p'.
Proof.
  cbv zeta.
  assert (In (Payment.mk 1 1 1 50%float false None) (payments db0)) as Hp
    by (left; reflexivity).
  assert (In (Payment.mk 1 1 1 50%float true (Some 5000))
             (payments (snd (serve (rt := stub) (lib := stubLib) payCall 5000 db0)))) as Hp'
    by (left; reflexivity).
  split; [reflexivity|]. split; [exact Hp|]. split; [exact Hp'|]. split; [reflexivity|].
  exact (@payment_amount_is_immutable stub stubLib payCall 5000 db0 _ _
           eq_refl Hp Hp' eq_refl).
Defined.

(** X4, witness: Alice reopens the first cycle: the status and the recipient change, the
    group, the index and the dates do not. *)
Lemma cycle_group_is_immutable_witness :
  let c' := Cycle.mk 1 1 1 None None None "active" 0 in
  wf db0 = true
  /\ In firstCycle (cycles db0)
  /\ In c' (cycles (snd (serve (rt := stub) (lib := stubLib) reopenCall 5000 db0)))
  /\ Cycle.id c' = Cycle.id firstCycle
  /\ sameCycle firstCycle c'.
Proof.
  cbv zeta.
  assert (In firstCycle (cycles db0)) as Hc by (left; reflexivity).
  assert (In (Cycle.mk 1 1 1 None None None "active" 0)
             (cycles (snd (serve (rt := stub) (lib := stubLib) reopenCall 5000 db0)))) as Hc'
    by (left; reflexivity).
  split; [reflexivity|]. split; [exact Hc|]. split; [exact Hc'|]. split; [reflexivity|].
  exact (@cycle_group_is_immutable stub stubLib reopenCall 5000 db0 _ _
           eq_refl Hc Hc' eq_refl).
Defined.

(** X5, witness: Bob removed from the first group by Alice, the second cycle of the
    group lists a Payment for Alice and one for Carol, none for Bob. *)
Lemma removed_member_stays_unlisted_witness :
  let calls := [(newCycleCall, 6000)] in
  let db' := run (rt := stub) (lib := stubLib) calls dbWithoutBob in
  wf db0 = true
  /\ authMiddleware (rt := stub) removeBobRequest = inr alice
  /\ toInt32 (parseInt (JsRuntime := stub) (Some (JStr (param removeBobRequest)))) = Some 2
  /\ In bobsMembership (memberships db0)
  /\ status (fst (deleteMembership (rt := stub) removeBobRequest 5000 db0)) = 200
  /\ staysOut (rt := stub) (lib := stubLib) 2 1 calls dbWithoutBob
  /\ findCycle db' 2 = Some secondCycle
  /\ json (fst (listPayments (rt := stub) listSecondCycleRequest 7000 db'))
     = BPayments listedAfterRemoval
  /\ map (fun pw => Payment.userId (PaymentWithUserCycle.payment pw)) listedAfterRemoval
     = [1; 3]
  /\ forall pw, In pw listedAfterRemoval ->
       Payment.userId (PaymentWithUserCycle.payment pw) <> 2.
Proof.
  cbv zeta.
  assert (In bobsMembership (memberships db0)) as Hin by (right; left; reflexivity).
  assert (staysOut (rt := stub) (lib := stubLib) 2 1 [(newCycleCall, 6000)] dbWithoutBob)
    as Hout by (split; [reflexivity | exact I]).
  do 3 (split; [reflexivity|]). split; [exact Hin|]. split; [reflexivity|].
  split; [exact Hout|]. do 3 (split; [reflexivity|]).
  intros pw Hpw.
  exact (@removed_member_stays_unlisted stub stubLib removeBobRequest 5000 db0 alice
           bobsMembership [(newCycleCall, 6000)] listSecondCycleRequest 7000
           listedAfterRemoval 2 secondCycle pw
           eq_refl eq_refl eq_refl Hin eq_refl Hout eq_refl eq_refl eq_refl eq_refl Hpw).
Defined.

(** C3, witness: Alice, the admin, removes Bob: his Payment is deleted
    first, with his Membership still there, and then the Membership; Carol
    may not remove him. *)
Lemma deleteMembership_permission_and_cleanup_witness :
  let r := deleteMembership (rt := stub) removeBobRequest 5000 db0 in
  wf db0 = true
  /\ authMiddleware (rt := stub) removeBobRequest = inr alice
  /\ toInt32 (parseInt (JsRuntime := stub) (Some (JStr (param removeBobRequest))))
     = Some (Membership.id bobsMembership)
  /\ In bobsMembership (memberships db0)
  /\ status (fst r) = 200
  /\ storesOf (deleteMembershipAwaits (rt := stub) removeBobRequest alice) db0
     = [db0; db0; withoutPayments 2 1 db0; snd r]
  /\ payments (withoutPayments 2 1 db0)
     = [Payment.mk 1 1 1 50%float false None; Payment.mk 3 1 3 50%float false None]
  /\ In bobsMembership (memberships (withoutPayments 2 1 db0))
  /\ ~ In bobsMembership (memberships (snd r))
  /\ payments (snd r) = payments (withoutPayments 2 1 db0)
  /\ deleteMembership (rt := stub) carolRemovesBobRequest 5000 db0
     = (mkResponse 403 (BError "Only group admins can remove other members"), db0).
Proof.
  cbv zeta.
  assert (In bobsMembership (memberships db0)) as Hin by (right; left; reflexivity).
  pose proof (@deleteMembership_permission_and_cleanup stub stubLib removeBobRequest 5000
                db0 alice bobsMembership eq_refl eq_refl eq_refl Hin) as H.
  pose proof (@deleteMembership_permission_and_cleanup stub stubLib carolRemovesBobRequest
                5000 db0 (mkJwtPayload 3 "") bobsMembership eq_refl eq_refl eq_refl Hin)
    as H'.
  cbv zeta in H, H'. destruct H as (H1 & _ & H3). destruct H' as (_ & H2' & _).
  assert (holdsRole db0 1 1 "admin") as Hadm
    by (apply (isAdmin_holdsRole db0 1 1 eq_refl); reflexivity).
  destruct (H3 (or_intror Hadm)) as (_ & Hstill & _ & _ & Hgone & Hpay & _).
  do 3 (split; [reflexivity|]). split; [exact Hin|].
  split; [apply H1; right; exact Hadm|].
  do 2 (split; [reflexivity|]).
  split; [exact Hstill|]. split; [exact Hgone|]. split; [exact Hpay|].
  assert (~ (Membership.userId bobsMembership = 3 \/ holdsRole db0 3 1 "admin")) as Hn.
  { intros [Hx|Hx]; [discriminate|].
    apply (isAdmin_holdsRole db0 3 1 eq_refl) in Hx. discriminate. }
  destruct (H2' Hn) as [Ha Hb]. apply injective_projections; assumption.
Defined.

(** C3, counterexample: Bob, removed from the first group by Alice, is made
    a member again; Alice creates the second cycle of the group, and the
    listing of its Payments returns one for Bob. *)
Lemma removed_member_listed_after_rejoining :
  status (fst (deleteMembership (rt := stub) removeBobRequest 5000 db0)) = 200
  /\ Membership.userId bobsMembership = 2
  /\ Membership.groupId bobsMembership = 1
  /\ findCycle dbWithBobAgain 2 = Some secondCycle
  /\ Cycle.groupId secondCycle = 1
  /\ exists ps pw,
       json (fst (listPayments (rt := stub) listSecondCycleRequest 7000 dbWithBobAgain))
       = BPayments ps
       /\ In pw ps
       /\ Payment.userId (PaymentWithUserCycle.payment pw) = 2.
Proof.
  do 5 (split; [vm_compute; reflexivity|]).
  eexists. eexists. split; [vm_compute; reflexivity|].
  split; [right; right; left; reflexivity|]. reflexivity.
Qed.

(** A contribution that does not parse to a number is stored as null, and
    the update succeeds. *)
Example updateGroup_unparsed_contribution_is_null :
  exists gr',
    fst (updateGroup (rt := stub) unparsedContributionRequest 5000 db0)
    = mkResponse 200 (BGroup gr')
    /\ Group.contribution family = Some 50%float
    /\ Group.contribution gr' = None
    /\ findGroup (snd (updateGroup (rt := stub) unparsedContributionRequest 5000 db0)) 1
       = Some gr'.
Proof. eexists. repeat split; vm_compute; reflexivity. Qed.

(** The fraction of a cycle index is dropped, and a recipient that does not
    parse to a number is null: the Cycle is created with its three
    Payments. *)
Example createCycle_fraction_is_dropped :
  fst (createCycle (rt := stub) fractionIndexRequest 6000 db0)
  = mkResponse 201
      (BCycleCreated (Cycle.mk 2 1 2 None None None "active" 6000)
         "Cycle and payment records created successfully.")
  /\ map Payment.userId
       (filter (fun p => Payment.cycleId p =? 2)
          (payments (snd (createCycle (rt := stub) fractionIndexRequest 6000 db0))))
     = [1; 2; 3].
Proof. split; vm_compute; reflexivity. Qed.

Example createCycle_unparsed_recipient_is_null :
  fst (createCycle (rt := stub) unparsedRecipientRequest 6000 db0)
  = mkResponse 201
      (BCycleCreated (Cycle.mk 2 1 2 None None None "active" 6000)
         "Cycle and payment records created successfully.")
  /\ map Payment.userId
       (filter (fun p => Payment.cycleId p =? 2)
          (payments (snd (createCycle (rt := stub) unparsedRecipientRequest 6000 db0))))
     = [1; 2; 3].
Proof. split; vm_compute; reflexivity. Qed.

(** X6, witness: Bob changes his password with a wrong current password: the answer is
    401 and the new password is stored. *)
Lemma updatePassword_own_account_witness :
  let r := updatePassword (rt := stub) bobPasswordRequest 5000 db0 in
  authMiddleware (rt := stub) bobPasswordRequest = inr bob
  /\ toInt32 (parseInt (JsRuntime := stub) (Some (JStr (param bobPasswordRequest))))
     = Some (jwt_userId bob)
  /\ findUser db0 (jwt_userId bob) = Some bobRow
  /\ field "new_password" (body bobPasswordRequest) = Some (JStr "bobnew")
  /\ fst r = Some (jsonReply 401 (errorOut "Current password is incorrect"))
  /\ findUser (snd r) 2 = Some (withPassword bobRow "bobnew" 5000)
  /\ User.password (withPassword bobRow "bobnew" 5000) = "bobnew".
Proof.
  cbv zeta.
  pose proof (@updatePassword_own_account stub bobPasswordRequest 5000 db0 bob bobRow
                "bobnew" eq_refl eq_refl eq_refl eq_refl) as H.
  cbv zeta in H. destruct H as (H1 & _ & H3).
  do 4 (split; [reflexivity|]). split; [rewrite H1; reflexivity|].
  split; [exact H3 | reflexivity].
Defined.

(** X7, witness: Alice changes the password of Bob, whose current password she gives:
    the answer is 403 and Bob has the password she chose. *)
Lemma updatePassword_other_account_witness :
  let r := updatePassword (rt := stub) alicePasswordRequest 5000 db0 in
  authMiddleware (rt := stub) alicePasswordRequest = inr alice
  /\ toInt32 (parseInt (JsRuntime := stub) (Some (JStr (param alicePasswordRequest))))
     = Some 2
  /\ 2 <> jwt_userId alice
  /\ findUser db0 2 = Some bobRow
  /\ field "new_password" (body alicePasswordRequest) = Some (JStr "mine")
  /\ fst r = Some (jsonReply 403 (errorOut "You can only update your own password"))
  /\ snd r = replaceUser db0 (withPassword bobRow "mine" 5000)
  /\ findUser (snd r) 2 = Some (withPassword bobRow "mine" 5000).
Proof.
  cbv zeta.
  assert (2 <> jwt_userId alice) as Hne by discriminate.
  pose proof (@updatePassword_other_account stub alicePasswordRequest 5000 db0 alice 2
                bobRow "mine" eq_refl eq_refl Hne eq_refl eq_refl) as H.
  cbv zeta in H. destruct H as (H1 & H2).
  do 2 (split; [reflexivity|]). split; [exact Hne|]. do 2 (split; [reflexivity|]).
  split; [exact H1|]. split; [rewrite H2; reflexivity | reflexivity].
Defined.

(** X8, witness: Bob asks for the profile of Alice: 403. *)
Lemma getUser_own_profile_only_witness :
  let r := getUser (rt := stub) aliceProfileRequest 5000 db0 in
  authMiddleware (rt := stub) aliceProfileRequest = inr bob
  /\ sameNumber (parseInt (JsRuntime := stub) (Some (JStr (param aliceProfileRequest))))
       (jwt_userId bob) = false
  /\ snd r = db0
  /\ fst r = Some (jsonReply 403 (errorOut "You can only view your own profile")).
Proof.
  cbv zeta.
  pose proof (@getUser_own_profile_only stub aliceProfileRequest 5000 db0 bob eq_refl)
    as H.
  cbv zeta in H. destruct H as (H1 & H2 & _).
  do 2 (split; [reflexivity|]). split; [exact H1 | exact (H2 eq_refl)].
Defined.


(** X10, witness: Bob deletes his account. *)
Lemma deleteUser_own_account_only_witness :
  wf db0 = true
  /\ authMiddleware (rt := stub) bobProfileRequest = inr bob
  /\ toInt32 (parseInt (JsRuntime := stub) (Some (JStr (param bobProfileRequest))))
     = Some (jwt_userId bob)
  /\ deleteUser (rt := stub) bobProfileRequest [] 5000 db0
     = (jsonReply 200 (messageOut "Account deleted successfully"), withoutUser 2 db0)
  /\ map Membership.id (memberships (withoutUser 2 db0)) = [1; 3; 4]
  /\ map Cycle.recipientUserId (cycles (withoutUser 2 db0)) = [None].
Proof.
  pose proof (@deleteUser_own_account_only stub bobProfileRequest [] 5000 db0 bob
                eq_refl eq_refl) as H.
  cbv zeta in H. destruct H as (_ & H). specialize (H eq_refl).
  do 3 (split; [reflexivity|]). split; [rewrite H; reflexivity|]. split; reflexivity.
Defined.

(** X11, witness: Alice logs in with her email in capitals. *)
Lemma loginHandler_rules_witness :
  field "email" (body aliceLoginRequest) = Some (JStr "ALICE@example.com")
  /\ loginHandler (rt := stub) (lib := stubLib) aliceLoginRequest [] 5000 db0
     = (jsonReply 200
          (OObject [ ("token", OScalar (SStr "1"));
                     ("user", rowOut [ ("id", SInt 1);
                                       ("email", SStr "alice@example.com");
                                       ("name", SStr "Alice") ]) ]),
        db0).
Proof.
  pose proof (@loginHandler_rules stub stubLib aliceLoginRequest [] 5000 db0) as H.
  cbv zeta in H. destruct H as (H1 & H2 & _).
  specialize (H2 "ALICE@example.com" eq_refl).
  split; [reflexivity|]. apply injective_projections; [exact H2 | exact H1].
Defined.

(** X12, witness: Eve registers and logs in. *)
Lemma register_then_login_witness :
  wf db0 = true
  /\ status (fst (createUser (rt := stub) registerRequest 4000 db0)) = 201
  /\ (forall p, jwtSign (Libraries := stubLib) p 4500 <> None)
  /\ exists u token,
       In u (users (snd (createUser (rt := stub) registerRequest 4000 db0)))
       /\ User.id u = nextUserId db0
       /\ jwtSign (Libraries := stubLib) (mkJwtPayload (User.id u) (User.email u)) 4500
          = Some token
       /\ fst (loginHandler (rt := stub) (lib := stubLib) registerRequest [] 4500
                 (snd (createUser (rt := stub) registerRequest 4000 db0)))
          = jsonReply 200
              (OObject
                 [ ("token", OScalar (SStr token));
                   ("user", rowOut [ ("id", SInt (User.id u));
                                     ("email", SStr (User.email u));
                                     ("name", optScalar SStr (User.name u)) ]) ]).
Proof.
  assert (forall p, jwtSign (Libraries := stubLib) p 4500 <> None) as Hsign
    by (intros p; discriminate).
  split; [reflexivity|]. split; [reflexivity|]. split; [exact Hsign|].
  exact (@register_then_login stub stubLib registerRequest [] 4000 4500 db0
           eq_refl eq_refl Hsign).
Defined.

(** X13, witness: Nobody in particular tries to delete the first group. *)
Lemma protected_routes_require_token_witness :
  let resp := mkResponse 401 (BError "No token provided") in
  protected DeleteGroup = true
  /\ authMiddleware (rt := stub) anonymousRequest = inl resp
  /\ handlerOf (rt := stub) (lib := stubLib) DeleteGroup anonymousRequest [] 5000 db0
     = (Some (replyOf resp), db0)
  /\ status resp = 401.
Proof.
  cbv zeta. split; [reflexivity|]. split; [reflexivity|].
  exact (@protected_routes_require_token stub stubLib DeleteGroup anonymousRequest []
           5000 db0 _ eq_refl eq_refl).
Defined.

(** X14, witness: the memberships are listed the same with no token and with Alice's. *)
Lemma public_routes_ignore_token_witness :
  protected GetMemberships = false
  /\ handlerOf (rt := stub) (lib := stubLib) GetMemberships
       (mkRequest None "" []) [] 5000 db0
     = handlerOf (rt := stub) (lib := stubLib) GetMemberships
         (mkRequest (Some "Bearer 1") "" []) [] 5000 db0.
Proof.
  split; [reflexivity|].
  exact (@public_routes_ignore_token stub stubLib GetMemberships None (Some "Bearer 1")
           "" [] [] 5000 db0 eq_refl).
Defined.

(** X16, witness: Bob sends his push token. *)
Lemma push_token_request_is_refused_witness :
  http_method pushTokenCall = PUT
  /\ http_path pushTokenCall = "/users/push-token"
  /\ decodeURIComponent (Libraries := stubLib) "push-token" = Some "push-token"
  /\ integerOf (parseInt (JsRuntime := stub) (Some (JStr "push-token"))) = None
  /\ authMiddleware (rt := stub)
       (mkRequest (http_authorization pushTokenCall) "push-token"
          (http_body pushTokenCall)) = inr bob
  /\ serve (rt := stub) (lib := stubLib) pushTokenCall 5000 db0
     = (Some (jsonReply 403 (errorOut "You can only update your own profile")), db0).
Proof.
  do 5 (split; [reflexivity|]).
  exact (@push_token_request_is_refused stub stubLib pushTokenCall 5000 db0 bob
           eq_refl eq_refl eq_refl eq_refl eq_refl).
Defined.

(** X17, witness: Dave opens a group and is its admin. *)
Lemma createGroup_creator_is_admin_witness :
  let r := createGroup (rt := stub) daveGroupRequest [] 8000 db0 in
  wf db0 = true
  /\ authMiddleware (rt := stub) daveGroupRequest = inr dave
  /\ code (fst r) = 201
  /\ exists g owner,
       fst r = jsonReply 201 (rowOut (groupObject g))
       /\ Group.id g = nextGroupId db0
       /\ groups (snd r) = (groups db0 ++ [g])%list
       /\ memberships (snd r) = (memberships db0 ++ [owner])%list
       /\ owner = Membership.mk (nextMembershipId db0) (jwt_userId dave) (Group.id g)
                    "admin" 8000
       /\ membersOf (snd r) (Group.id g) = [owner]
       /\ isAdmin (snd r) (jwt_userId dave) (Group.id g) = true.
Proof.
  cbv zeta. do 3 (split; [reflexivity|]).
  exact (@createGroup_creator_is_admin stub daveGroupRequest [] 8000 db0 dave
           eq_refl eq_refl eq_refl).
Defined.

(** X18, witness: User 9, whose account is gone, opens a group: 500, and the group is
    there with no member. *)
Lemma createGroup_without_user_leaves_group_witness :
  let r := createGroup (rt := stub) ghostGroupRequest [] 8000 db0 in
  wf db0 = true
  /\ authMiddleware (rt := stub) ghostGroupRequest = inr (mkJwtPayload 9 "")
  /\ userExists db0 9 = false
  /\ requestedNewGroup (rt := stub) ghostGroupRequest (nextGroupId db0) 8000 = Some ghost
  /\ fst r = jsonReply 500 (errorOut "Failed to create group")
  /\ groups (snd r) = (groups db0 ++ [ghost])%list
  /\ membersOf (snd r) (Group.id ghost) = []
  /\ forall u, isAdmin (snd r) u (Group.id ghost) = false.
Proof.
  cbv zeta. do 4 (split; [reflexivity|]).
  exact (@createGroup_without_user_leaves_group stub ghostGroupRequest [] 8000 db0
           (mkJwtPayload 9 "") ghost eq_refl eq_refl eq_refl eq_refl).
Defined.

(** X19, witness: Alice deletes the first group: the second stays, with its two members,
    and no Cycle or Payment is left. *)
Lemma deleteGroup_rules_witness :
  wf db0 = true
  /\ authMiddleware (rt := stub) aliceGroupRequest = inr alice
  /\ toInt32 (parseInt (JsRuntime := stub) (Some (JStr (param aliceGroupRequest))))
     = Some 1
  /\ deleteGroup (rt := stub) aliceGroupRequest [] 8000 db0
     = (jsonReply 200 (messageOut "Group deleted successfully"), withoutGroup 1 db0)
  /\ groups (withoutGroup 1 db0) = [friends]
  /\ map Membership.id (memberships (withoutGroup 1 db0)) = [4; 5]
  /\ cycles (withoutGroup 1 db0) = []
  /\ payments (withoutGroup 1 db0) = [].
Proof.
  pose proof (@deleteGroup_rules stub aliceGroupRequest [] 8000 db0 alice 1
                eq_refl eq_refl eq_refl) as H.
  do 3 (split; [reflexivity|]). split; [rewrite H; reflexivity|].
  repeat split; reflexivity.
Defined.

(** X20, witness: Alice deletes the only cycle. *)
Lemma deleteCycle_rules_witness :
  authMiddleware (rt := stub) aliceGroupRequest = inr alice
  /\ toInt32 (parseInt (JsRuntime := stub) (Some (JStr (param aliceGroupRequest))))
     = Some 1
  /\ deleteCycle (rt := stub) aliceGroupRequest [] 8000 db0
     = (jsonReply 200 (messageOut "Cycle deleted successfully"), withoutCycle 1 db0)
  /\ cycles (withoutCycle 1 db0) = []
  /\ payments (withoutCycle 1 db0) = [].
Proof.
  pose proof (@deleteCycle_rules stub aliceGroupRequest [] 8000 db0 alice 1
                eq_refl eq_refl) as H.
  do 2 (split; [reflexivity|]). split; [rewrite H; reflexivity|].
  split; reflexivity.
Defined.

(** X21, witness: Alice makes Bob an admin of the first group. *)
Lemma updateMembership_rules_witness :
  let r := updateMembership (rt := stub) promoteBobRequest [] 8000 db0 in
  authMiddleware (rt := stub) promoteBobRequest = inr alice
  /\ sameString (field "role" (body promoteBobRequest)) "admin"
     || sameString (field "role" (body promoteBobRequest)) "member" = true
  /\ toInt32 (parseInt (JsRuntime := stub) (Some (JStr (param promoteBobRequest))))
     = Some 2
  /\ findMembership db0 2 = Some bobsMembership
  /\ exists s, field "role" (body promoteBobRequest) = Some (JStr s)
               /\ code (fst r) = 200
               /\ snd r = replaceMembership db0 (withRole bobsMembership s).
Proof.
  cbv zeta.
  pose proof (@updateMembership_rules stub promoteBobRequest [] 8000 db0 alice eq_refl)
    as H.
  cbv zeta in H. destruct H as (_ & H). specialize (H 2 eq_refl eq_refl).
  do 4 (split; [reflexivity|]). exact H.
Defined.

(** X22, witness: Alice, the only admin of the first group, makes herself a plain
    member: the group has no admin any more. *)
Lemma sole_admin_can_demote_itself_witness :
  let r := updateMembership (rt := stub) demoteAliceRequest [] 8000 db0 in
  wf db0 = true
  /\ authMiddleware (rt := stub) demoteAliceRequest = inr alice
  /\ field "role" (body demoteAliceRequest) = Some (JStr "member")
  /\ toInt32 (parseInt (JsRuntime := stub) (Some (JStr (param demoteAliceRequest))))
     = Some (Membership.id alicesMembership)
  /\ membershipOf db0 (jwt_userId alice) (Membership.groupId alicesMembership)
     = Some alicesMembership
  /\ Membership.role alicesMembership = "admin"
  /\ (forall u, isAdmin db0 u (Membership.groupId alicesMembership) = true ->
                u = jwt_userId alice)
  /\ code (fst r) = 200
  /\ forall u, isAdmin (snd r) u (Membership.groupId alicesMembership) = false.
Proof.
  cbv zeta.
  assert (forall u, isAdmin db0 u (Membership.groupId alicesMembership) = true ->
                    u = jwt_userId alice) as Hsole.
  { intros u Hu. destruct u as [|[[p|p|]|[p|p|]|]|p]; vm_compute in Hu;
      try discriminate Hu; reflexivity. }
  do 6 (split; [reflexivity|]). split; [exact Hsole|].
  exact (@sole_admin_can_demote_itself stub demoteAliceRequest [] 8000 db0 alice
           alicesMembership eq_refl eq_refl eq_refl eq_refl eq_refl eq_refl Hsole).
Defined.

(** X23, witness: Nobody in particular lists the memberships and reads the password of
    Bob. *)
Lemma listMemberships_exposes_passwords_witness :
  truthy (field "userId" []) = false
  /\ truthy (field "groupId" []) = false
  /\ In bobsMembership (memberships db0)
  /\ findUser db0 (Membership.userId bobsMembership) = Some bobRow
  /\ exists items item,
       listMemberships (rt := stub) anonymousRequest [] 5000 db0
       = (jsonReply 200 (OArray items), db0)
       /\ List.length items = List.length (memberships db0)
       /\ In item items
       /\ member "id" item = Some (OScalar (SInt (Membership.id bobsMembership)))
       /\ (match member "user" item with
           | Some user => member "password" user
           | None => None
           end) = Some (OScalar (SStr "pw2")).
Proof.
  assert (In bobsMembership (memberships db0)) as Hin by (right; left; reflexivity).
  do 2 (split; [reflexivity|]). split; [exact Hin|]. split; [reflexivity|].
  exact (@listMemberships_exposes_passwords stub anonymousRequest [] 5000 db0
           bobsMembership bobRow eq_refl eq_refl Hin eq_refl).
Defined.

(** X24, witness: Bob lists his groups: the two of the store. *)
Lemma listGroups_lists_own_groups_witness :
  wf db0 = true
  /\ authMiddleware (rt := stub) bobProfileRequest = inr bob
  /\ exists gs,
       listGroups (rt := stub) bobProfileRequest [] 5000 db0
       = (jsonReply 200 (OArray (map (fun g => rowOut (groupObject g)) gs)), db0)
       /\ List.length gs = 2%nat
       /\ (In family gs /\ In friends gs).
Proof.
  do 2 (split; [reflexivity|]).
  destruct (@listGroups_lists_own_groups stub bobProfileRequest [] 5000 db0 bob
              eq_refl eq_refl) as (gs & H1 & H2 & H3).
  exists gs. split; [exact H1|]. split; [exact H2|]. split; apply H3.
  - split; [left; reflexivity | discriminate].
  - split; [right; left; reflexivity | discriminate].
Defined.

(** X25, witness: Dave, a member of no group, reads the first group, its cycles and its
    first cycle: 403 each time. *)
Lemma group_reads_are_for_members_witness :
  wf db0 = true
  /\ authMiddleware (rt := stub) daveGroupReadRequest = inr dave
  /\ toInt32 (parseInt (JsRuntime := stub) (Some (JStr (param daveGroupReadRequest))))
     = Some 1
  /\ membershipOf db0 (jwt_userId dave) 1 = None
  /\ findCycle db0 1 = Some firstCycle
  /\ code (fst (getGroup (rt := stub) daveGroupReadRequest [] 5000 db0)) = 403
  /\ code (fst (listCycles (rt := stub) (lib := stubLib) daveGroupReadRequest [] 5000 db0))
     = 403
  /\ code (fst (getCycle (rt := stub) daveGroupReadRequest [] 5000 db0)) = 403.
Proof.
  pose proof (@group_reads_are_for_members stub stubLib daveGroupReadRequest [] 5000 db0
                dave 1 eq_refl eq_refl eq_refl) as H.
  cbv zeta in H. destruct H as ((H1 & _) & (H2 & _) & H3 & _).
  specialize (H3 firstCycle eq_refl).
  do 5 (split; [reflexivity|]). split; [exact H1|]. split; [exact H2 | exact H3].
Defined.
